(** * FairPrice: the quote analyser

    A shallow embedding of the request handler of the FairPrice service, as
    src/api/analyze.js has it ([Flat]: one median per category) and as the
    repository's other copy of the file has it ([Scaled]: a median per
    category and job size), with the properties that the specification states
    about it.

    Modelling conventions.
    - A JavaScript number is an exact rational extended with [NaN] and the two
      infinities.  Rounding to binary64 and the sign of zero are not modelled.
    - A JavaScript value coming from JSON (a request body, a BLS response, a
      Stripe object) is a [jsval]; a string is its sequence of UTF-8 bytes.
      Coercions follow ECMAScript's abstract operations (ToBoolean, ToNumber,
      ToString, property reads).
    - An [async] function is a state-passing function over a [World] (the
      process-wide cache, the clock reads and the external calls made so far)
      that returns an [outcome]: a value, or a thrown exception (a rejected
      promise).  What the outside answers (clock, BLS, Stripe) is read from an
      [Env].
    - The file has the model first, then the notions and the concrete
      examples that the statements use, then the facts. *)

From Stdlib Require Import ZArith QArith Qabs Qround Lqa String Ascii List.
From stdpp Require Import base gmap strings pretty.

Set Default Proof Using "Type".
Local Open Scope Z_scope.

(** ** Numbers *)

Inductive num : Type :=
| NaN
| NegInf
| Fin (q : Q)
| PosInf.

Definition Qltb (a b : Q) : bool :=
  match (a ?= b)%Q with Lt => true | _ => false end.

Definition Qsign (a : Q) : comparison := (a ?= 0)%Q.

(** Three-way comparison of two numbers; [None] when either is NaN, the case
    in which every relational operator of JavaScript answers false. *)
Definition ncmp (a b : num) : option comparison :=
  match a, b with
  | NaN, _ | _, NaN => None
  | NegInf, NegInf => Some Eq
  | NegInf, _ => Some Lt
  | _, NegInf => Some Gt
  | PosInf, PosInf => Some Eq
  | PosInf, _ => Some Gt
  | _, PosInf => Some Lt
  | Fin x, Fin y => Some (x ?= y)%Q
  end.

(** [a < b], [a > b], [a >= b] *)
Definition nlt (a b : num) : bool :=
  match ncmp a b with Some Lt => true | _ => false end.
Definition ngt (a b : num) : bool := nlt b a.
Definition nge (a b : num) : bool :=
  match ncmp a b with Some Gt | Some Eq => true | _ => false end.

Definition isNaN (a : num) : bool :=
  match a with NaN => true | _ => false end.

Definition nneg (a : num) : num :=
  match a with
  | NaN => NaN
  | NegInf => PosInf
  | PosInf => NegInf
  | Fin x => Fin (- x)
  end.

(** [a - b] *)
Definition nsub (a b : num) : num :=
  match a, b with
  | NaN, _ | _, NaN => NaN
  | PosInf, PosInf | NegInf, NegInf => NaN
  | PosInf, _ | _, NegInf => PosInf
  | NegInf, _ | _, PosInf => NegInf
  | Fin x, Fin y => Fin (x - y)
  end.

(** The infinity with the sign of [s], for a non-zero [s]. *)
Definition inf_of_sign (s : comparison) : num :=
  match s with Lt => NegInf | _ => PosInf end.

Definition flip_sign (s : comparison) : comparison := CompOpp s.

(** [a * b] *)
Definition nmul (a b : num) : num :=
  match a, b with
  | NaN, _ | _, NaN => NaN
  | Fin x, Fin y => Fin (x * y)
  | Fin x, PosInf | PosInf, Fin x =>
      match Qsign x with Eq => NaN | s => inf_of_sign s end
  | Fin x, NegInf | NegInf, Fin x =>
      match Qsign x with Eq => NaN | s => inf_of_sign (flip_sign s) end
  | PosInf, PosInf | NegInf, NegInf => PosInf
  | PosInf, NegInf | NegInf, PosInf => NegInf
  end.

(** [a / b]; a zero divisor counts as +0. *)
Definition ndiv (a b : num) : num :=
  match a, b with
  | NaN, _ | _, NaN => NaN
  | Fin x, Fin y =>
      if Qeq_bool y 0
      then match Qsign x with Eq => NaN | s => inf_of_sign s end
      else Fin (x / y)
  | Fin _, PosInf | Fin _, NegInf => Fin 0
  | PosInf, Fin y => match Qsign y with Lt => NegInf | _ => PosInf end
  | NegInf, Fin y => match Qsign y with Lt => PosInf | _ => NegInf end
  | _, _ => NaN
  end.

(** [Math.min(a, b)] and [Math.max(a, b)] *)
Definition Math_min (a b : num) : num :=
  match ncmp a b with
  | None => NaN
  | Some Gt => b
  | Some _ => a
  end.

Definition Math_max (a b : num) : num :=
  match ncmp a b with
  | None => NaN
  | Some Lt => b
  | Some _ => a
  end.

(** [Math.abs(a)] *)
Definition Math_abs (a : num) : num :=
  match a with
  | NaN => NaN
  | NegInf | PosInf => PosInf
  | Fin x => Fin (Qabs x)
  end.

(** [Math.round(a)]: the nearest integer, ties towards +Infinity. *)
Definition Math_round (a : num) : num :=
  match a with
  | Fin x => Fin (inject_Z (Qfloor (x + (1 # 2))))
  | other => other
  end.

(** Equality and order of numbers as propositions (rationals up to [Qeq]). *)
Definition num_eq (a b : num) : Prop :=
  match a, b with
  | NaN, NaN | NegInf, NegInf | PosInf, PosInf => True
  | Fin x, Fin y => (x == y)%Q
  | _, _ => False
  end.

Definition num_le (a b : num) : Prop :=
  match ncmp a b with Some Lt | Some Eq => True | _ => False end.

(** ** The classifier *)

(** [function clamp(n, a, b){ return Math.max(a, Math.min(b, n)); }] *)
Definition clamp (n a b : num) : num := Math_max a (Math_min b n).

Record Classification := {
  ratio : num;
  score : num;
  label : string
}.

Definition classify (price median : num) : Classification :=
  let r := ndiv price median in
  let score := clamp (ndiv (nsub r (Fin 0.8)) (nsub (Fin 1.4) (Fin 0.8)))
                     (Fin 0) (Fin 1) in
  let label :=
    if nlt r (Fin 0.9) then "under"
    else if ngt r (Fin 1.15) then "over"
    else "fair" in
  {| ratio := r; score := score; label := label |}.

(** ** Exceptions and results

    A thrown value is kept as the text that [String(e?.message || e)] yields
    for it, which is all the handler ever reads of an exception. *)

Record exn := Exn { exn_detail : string }.

Inductive outcome (A : Type) : Type :=
| Return (a : A)
| Throw (e : exn).
Arguments Return {A} a.
Arguments Throw {A} e.

Definition obind {A B} (m : outcome A) (k : A -> outcome B) : outcome B :=
  match m with
  | Return a => k a
  | Throw e => Throw e
  end.

Declare Scope outcome_scope.
Delimit Scope outcome_scope with out.
Notation "'let*' x ':=' m 'in' k" := (obind m (fun x => k))
  (at level 10, x name, m at level 100, k at level 200) : outcome_scope.

Definition TypeError (msg : string) : exn := Exn msg.

(** ** JavaScript values

    [VArr] and [VObj] are the arrays and plain objects that [JSON.parse]
    builds (an object lists each of its own keys once, and none of its values
    is callable).  [VBuiltin k] is the value that a plain object inherits from
    [Object.prototype] under the name [k]: a native function, or
    [Object.prototype] itself for [__proto__]. *)

#[warnings="-register-all"]
Inductive jsval : Type :=
| VUndefined
| VNull
| VBool (b : bool)
| VNum (n : num)
| VStr (s : string)
| VArr (items : list jsval)
| VObj (fields : list (string * jsval))
| VBuiltin (name : string).

(** The formatting that depends on the binary64 digits of a number or on the
    host's locale is left to the runtime. *)
Class Runtime := {
  (** [Number::toString(n)], as in [String(n)] or a template literal *)
  NumberToString : num -> string;
  (** [n.toLocaleString()] *)
  toLocaleString : num -> string
}.

(** [ToBoolean(v)] *)
Definition ToBoolean (v : jsval) : bool :=
  match v with
  | VUndefined | VNull => false
  | VBool b => b
  | VNum NaN => false
  | VNum (Fin q) => negb (Qeq_bool q 0)
  | VNum _ => true
  | VStr s => negb (String.eqb s "")
  | VArr _ | VObj _ | VBuiltin _ => true
  end.

(** [v === "lit"] for a string literal *)
Definition is_str (v : jsval) (lit : string) : bool :=
  match v with
  | VStr s => String.eqb s lit
  | _ => false
  end.

Definition nullish (v : jsval) : bool :=
  match v with
  | VUndefined | VNull => true
  | _ => false
  end.

(** Own property of a plain object. *)
Fixpoint own (fields : list (string * jsval)) (k : string) : option jsval :=
  match fields with
  | [] => None
  | (k', v) :: rest => if String.eqb k' k then Some v else own rest k
  end.

(** The property names of [Object.prototype]. *)
Definition Object_prototype_keys : list string :=
  [ "constructor"; "__defineGetter__"; "__defineSetter__"; "hasOwnProperty";
    "__lookupGetter__"; "__lookupSetter__"; "isPrototypeOf";
    "propertyIsEnumerable"; "toString"; "valueOf"; "__proto__";
    "toLocaleString" ]%string.

Definition in_keys (k : string) (ks : list string) : bool :=
  existsb (String.eqb k) ks.

(** [o[k]] on a plain object: the own property, else the inherited one. *)
Definition obj_get (fields : list (string * jsval)) (k : string) : jsval :=
  match own fields k with
  | Some v => v
  | None => if in_keys k Object_prototype_keys then VBuiltin k else VUndefined
  end.

(** [v.k] and [v[k]].  The program reads no property name that a built-in
    prototype other than [Object.prototype] defines, apart from [length] and
    the index [0], which have their own functions below. *)
Definition member (v : jsval) (k : string) : outcome jsval :=
  match v with
  | VUndefined =>
      Throw (TypeError ("Cannot read properties of undefined (reading '" +:+ k +:+ "')"))
  | VNull =>
      Throw (TypeError ("Cannot read properties of null (reading '" +:+ k +:+ "')"))
  | VObj fields => Return (obj_get fields k)
  | _ => Return VUndefined
  end.

(** [v?.k] *)
Definition opt_member (v : jsval) (k : string) : jsval :=
  match v with
  | VObj fields => obj_get fields k
  | _ => VUndefined
  end.

(** [v[0]] on a value that is not nullish (of a string, the first byte: the
    program compares it with ASCII digits only) *)
Definition first_of (v : jsval) : jsval :=
  match v with
  | VArr (x :: _) => x
  | VStr (String c _) => VStr (String c EmptyString)
  | VObj fields => obj_get fields "0"
  | _ => VUndefined
  end.

(** [v?.[0]] *)
Definition opt_first (v : jsval) : jsval := first_of v.

(** [v.length] on a value that is not nullish; a string counts its bytes. *)
Definition length_of (v : jsval) : jsval :=
  match v with
  | VArr items => VNum (Fin (inject_Z (Z.of_nat (List.length items))))
  | VStr s => VNum (Fin (inject_Z (Z.of_nat (String.length s))))
  | VObj fields => obj_get fields "length"
  | _ => VUndefined
  end.

(** ** StringToNumber

    The StringNumericLiteral grammar of ECMAScript over the UTF-8 bytes of the
    string: optional white space around an optionally signed decimal literal
    (digits, fraction, exponent, or [Infinity]) or an unsigned binary, octal
    or hexadecimal integer.  The empty literal is 0; anything else is NaN. *)

Definition bytes_of (s : string) : list N :=
  List.map N_of_ascii (list_ascii_of_string s).

(** White space and line terminators: TAB LF VT FF CR SP, U+00A0, U+1680,
    U+2000..U+200A, U+2028, U+2029, U+202F, U+205F, U+3000, U+FEFF. *)
Definition ws_codes : list (list N) :=
  ([ [9]; [10]; [11]; [12]; [13]; [32]; [194; 160]; [225; 154; 128];
     [226; 128; 128]; [226; 128; 129]; [226; 128; 130]; [226; 128; 131];
     [226; 128; 132]; [226; 128; 133]; [226; 128; 134]; [226; 128; 135];
     [226; 128; 136]; [226; 128; 137]; [226; 128; 138]; [226; 128; 168];
     [226; 128; 169]; [226; 128; 175]; [226; 129; 159]; [227; 128; 128];
     [239; 187; 191] ])%N.

Fixpoint starts_with (p l : list N) : bool :=
  match p, l with
  | [], _ => true
  | a :: p', b :: l' => N.eqb a b && starts_with p' l'
  | _ :: _, [] => false
  end.

(** Number of bytes of the code of [codes] that [l] starts with, 0 if none. *)
Definition ws_len (codes : list (list N)) (l : list N) : nat :=
  match List.find (fun p => starts_with p l) codes with
  | Some p => List.length p
  | None => 0%nat
  end.

Fixpoint skip_ws (codes : list (list N)) (skip : nat) (l : list N) : list N :=
  match l with
  | [] => []
  | _ :: r =>
      match skip with
      | S k => skip_ws codes k r
      | O =>
          match ws_len codes l with
          | O => l
          | S k => skip_ws codes k r
          end
      end
  end.

Definition trim (l : list N) : list N :=
  List.rev (skip_ws (List.map (@List.rev N) ws_codes) 0
              (List.rev (skip_ws ws_codes 0 l))).

Definition is_digit (b : N) : bool := ((48 <=? b) && (b <=? 57))%N.

Definition digit_value (b : N) : option Z :=
  if is_digit b then Some (Z.of_N b - 48)
  else if ((97 <=? b) && (b <=? 102))%N then Some (Z.of_N b - 87)
  else if ((65 <=? b) && (b <=? 70))%N then Some (Z.of_N b - 55)
  else None.

Fixpoint span_digits (l : list N) : list N * list N :=
  match l with
  | b :: r =>
      if is_digit b
      then let (ds, rest) := span_digits r in (b :: ds, rest)
      else ([], l)
  | [] => ([], [])
  end.

Fixpoint radix_value (radix acc : Z) (l : list N) : option Z :=
  match l with
  | [] => Some acc
  | b :: r =>
      match digit_value b with
      | Some d => if d <? radix then radix_value radix (acc * radix + d) r else None
      | None => None
      end
  end.

Definition decimal_value (ds : list N) : Z :=
  default 0 (radix_value 10 0 ds).

(** [0x..], [0o..], [0b..] with at least one digit *)
Definition non_decimal (l : list N) : option num :=
  match l with
  | 48%N :: p :: ((_ :: _) as ds) =>
      let radix :=
        if (N.eqb p 120 || N.eqb p 88)%N then Some 16
        else if (N.eqb p 111 || N.eqb p 79)%N then Some 8
        else if (N.eqb p 98 || N.eqb p 66)%N then Some 2
        else None in
      match radix with
      | Some r => option_map (fun z => Fin (inject_Z z)) (radix_value r 0 ds)
      | None => None
      end
  | _ => None
  end.

Definition is_nil {A} (l : list A) : bool :=
  match l with [] => true | _ => false end.

Definition unsigned_decimal (l : list N) : option num :=
  if starts_with (bytes_of "Infinity") l && (List.length l =? 8)%nat then Some PosInf else
  let (ip, r1) := span_digits l in
  let (fp, r2) := match r1 with
                  | 46%N :: r => span_digits r
                  | _ => ([], r1)
                  end in
  if is_nil ip && is_nil fp then None else
  let mant := (inject_Z (decimal_value ip)
               + inject_Z (decimal_value fp) / inject_Z (10 ^ Z.of_nat (List.length fp)))%Q in
  match r2 with
  | [] => Some (Fin mant)
  | e :: r3 =>
      if (N.eqb e 101 || N.eqb e 69)%N then
        let (neg, r4) := match r3 with
                         | 43%N :: r => (false, r)
                         | 45%N :: r => (true, r)
                         | _ => (false, r3)
                         end in
        let (ed, r5) := span_digits r4 in
        if is_nil ed || negb (is_nil r5) then None
        else let x := decimal_value ed in
             Some (Fin (mant * Qpower 10 (if neg then - x else x)))
      else None
  end.

Definition StringToNumber (s : string) : num :=
  let l := trim (bytes_of s) in
  if is_nil l then Fin 0 else
  match non_decimal l with
  | Some n => n
  | None =>
      let r := match l with
               | 43%N :: r => unsigned_decimal r
               | 45%N :: r => option_map nneg (unsigned_decimal r)
               | _ => unsigned_decimal l
               end in
      default NaN r
  end.

(** ** ToString and ToNumber *)

(** Source text of a value inherited from [Object.prototype]
    ([Object.prototype] itself prints as a plain object). *)
Definition builtin_text (name : string) : string :=
  if String.eqb name "__proto__" then "[object Object]"
  else if String.eqb name "constructor" then "function Object() { [native code] }"
  else "function " +:+ name +:+ "() { [native code] }".

Section Coercions.
Context {rt : Runtime}.
Local Open Scope outcome_scope.

(** [ToString(v)], which is also [String(v)].  An array joins its elements
    with commas, [undefined] and [null] printing as nothing.  A plain object
    prints as [[object Object]] through [Object.prototype.toString]; when it
    has an own [toString] property (never callable in JSON) no conversion
    method is left and OrdinaryToPrimitive throws. *)
Fixpoint ToString (v : jsval) : outcome string :=
  match v with
  | VUndefined => Return "undefined"
  | VNull => Return "null"
  | VBool true => Return "true"
  | VBool false => Return "false"
  | VNum n => Return (NumberToString n)
  | VStr s => Return s
  | VArr items =>
      (fix join (l : list jsval) : outcome string :=
         match l with
         | [] => Return ""
         | x :: rest =>
             let* s := (if nullish x then Return "" else ToString x) in
             match rest with
             | [] => Return s
             | _ :: _ => let* t := join rest in Return (s +:+ "," +:+ t)
             end
         end) items
  | VObj fields =>
      match own fields "toString" with
      | Some _ => Throw (TypeError "Cannot convert object to primitive value")
      | None => Return "[object Object]"
      end
  | VBuiltin name => Return (builtin_text name)
  end.

(** [ToNumber(v)], which is also [Number(v)] and the coercion of [*] and
    [<].  Arrays and objects go through their string. *)
Definition ToNumber (v : jsval) : outcome num :=
  match v with
  | VUndefined => Return NaN
  | VNull => Return (Fin 0)
  | VBool true => Return (Fin 1)
  | VBool false => Return (Fin 0)
  | VNum n => Return n
  | VStr s => Return (StringToNumber s)
  | VArr _ | VObj _ | VBuiltin _ =>
      let* s := ToString v in Return (StringToNumber s)
  end.

End Coercions.

(** ** Margin bands and tips *)

(** The two copies of the handler in the repository. *)
Inductive Edition : Type :=
| Flat     (** src/api/analyze.js: one median per category *)
| Scaled.  (** the copy with small / medium / large job sizes *)

Definition marginEstimate (ratio : num) : string :=
  if nlt ratio (Fin 0.95) then "Low–normal (estimated 10–20%)"
  else if nlt ratio (Fin 1.10) then "Normal (estimated 15–30%)"
  else if nlt ratio (Fin 1.25) then "High (estimated 25–45%)"
  else "Very high (estimated 40–60%+)".

Definition tipsFor (vr : Edition) (label : string) : string :=
  if String.eqb label "over" then
    match vr with
    | Flat => "Ask for itemized breakdown, get 2 more bids, and request lower-cost alternatives."
    | Scaled => "Ask for itemized breakdown (labor hours/materials), get 2 more bids, and request lower-cost alternatives."
    end
  else if String.eqb label "under" then
    "Confirm scope, exclusions, warranty, and change-order terms to avoid surprise add-ons."
  else "Confirm scope + warranty, and ask what’s included/excluded before approving.".

(** ** Category medians *)

Definition znum (z : Z) : jsval := VNum (Fin (inject_Z z)).

(** The table of src/api/analyze.js. *)
Definition base_flat : list (string * jsval) :=
  [ ("Home services (repairs/visit)",   znum 1800);
    ("Home projects (install/remodel)", znum 4500);
    ("Auto (repair/body)",              znum 1400);
    ("Medical (out-of-pocket)",         znum 1200);
    ("Moving / logistics",              znum 1600);
    ("Professional services",           znum 2500);
    ("Bills / recurring charges",       znum 350);
    ("Other",                           znum 2000) ]%string.

Definition row (small medium large : Z) : jsval :=
  VObj [ ("small", znum small); ("medium", znum medium); ("large", znum large) ]%string.

(** The table of the scaled variant. *)
Definition base_scaled : list (string * jsval) :=
  [ ("Home services (repairs/visit)",   row 450 1800 8500);
    ("Home projects (install/remodel)", row 900 4500 22000);
    ("Auto (repair/body)",              row 300 1400 6000);
    ("Medical (out-of-pocket)",         row 250 1200 5000);
    ("Moving / logistics",              row 350 1600 7500);
    ("Professional services",           row 500 2500 12000);
    ("Bills / recurring charges",       row 120 350 1200);
    ("Other",                           row 500 2000 9000) ]%string.

Section Medians.
Context {rt : Runtime}.
Local Open Scope outcome_scope.

(** [return base[category] ?? base.Other;] *)
Definition baseMedian_flat (category : jsval) : outcome jsval :=
  let* key := ToString category in
  let v := obj_get base_flat key in
  Return (if nullish v then obj_get base_flat "Other" else v).

(** [[
    const cat = base[category] ? category : "Other";
    const sc = (scale === "small" || scale === "large") ? scale : "medium";
    return base[cat][sc] || base[cat].medium;
    ]] *)
Definition baseMedian_scaled (category scale : jsval) : outcome jsval :=
  let* key := ToString category in
  let cat := if ToBoolean (obj_get base_scaled key) then category else VStr "Other" in
  let sc := if is_str scale "small" || is_str scale "large" then scale else VStr "medium" in
  let* catkey := ToString cat in
  let* sckey := ToString sc in
  let* v := member (obj_get base_scaled catkey) sckey in
  if ToBoolean v then Return v
  else
    let* catkey' := ToString cat in
    member (obj_get base_scaled catkey') "medium".

Definition baseMedian (vr : Edition) (category scale : jsval) : outcome jsval :=
  match vr with
  | Flat => baseMedian_flat category
  | Scaled => baseMedian_scaled category scale
  end.

End Medians.

(** ** Region of a postal code *)

Definition includes (lits : list string) (d : jsval) : bool :=
  existsb (is_str d) lits.

Section Regions.
Context {rt : Runtime}.
Local Open Scope outcome_scope.

Definition regionFromZip (zip : jsval) : outcome string :=
  if negb (ToBoolean zip) then Return "National" else
  let* len := ToNumber (length_of zip) in
  if nlt len (Fin 1) then Return "National" else
  let d := first_of zip in
  if includes ["0"; "1"; "2"] d then Return "Northeast"
  else if includes ["3"; "4"; "5"] d then Return "South"
  else if includes ["6"; "7"] d then Return "Midwest"
  else if includes ["8"; "9"] d then Return "West"
  else Return "National".

End Regions.

Definition CPI_SERIES : list (string * string) :=
  [ ("National",  "CUUR0000SA0");
    ("Northeast", "CUUR0100SA0");
    ("Midwest",   "CUUR0200SA0");
    ("South",     "CUUR0300SA0");
    ("West",      "CUUR0400SA0") ]%string.

Fixpoint series_lookup (table : list (string * string)) (k : string) : option string :=
  match table with
  | [] => None
  | (k', v) :: rest => if String.eqb k' k then Some v else series_lookup rest k
  end.

(** [CPI_SERIES.National] *)
Definition natId : string := default "" (series_lookup CPI_SERIES "National").

(** [CPI_SERIES[region] || CPI_SERIES.National], on the names that
    [regionFromZip] returns, which are the only ones [cpiMultipliers] looks
    up.  (What the table inherits from [Object.prototype] is left out here:
    on a name such as "constructor" the code would find the inherited
    value.) *)
Definition regId (region : string) : string :=
  match series_lookup CPI_SERIES region with
  | Some id => if String.eqb id "" then natId else id
  | None => natId
  end.

(** ** The world outside and the state of the process *)

Record CacheEntry := {
  value : option num;   (** a number, or [None] for [null] *)
  ts : Z                (** milliseconds, as [Date.now()] gave them *)
}.

(** [const CACHE_MS = 60 * 60 * 1000;] *)
Definition CACHE_MS : Z := 60 * 60 * 1000.

(** The body of the POST to the BLS time-series endpoint (the years are kept
    as numbers). *)
Record BlsRequest := {
  seriesid : string;
  startyear : Z;
  endyear : Z
}.

(** What [res.json()] settles to, and what [fetch(...)] settles to. *)
Inductive JsonResult : Type :=
| JsonFail (e : exn)
| JsonOk (data : jsval).

Inductive FetchResult : Type :=
| NetFail (e : exn)
| Resp (json : JsonResult).

Inductive ExtCall : Type :=
| BlsFetch (req : BlsRequest)
| SessionRetrieve (id : jsval)
| SubscriptionRetrieve (id : string).

(** The process: the cache [cpiCache], the number of clock reads made so far
    and the external calls issued so far, oldest first. *)
Record World := {
  cpiCache : gmap string CacheEntry;
  reads : nat;
  calls : list ExtCall
}.

(** The outside: what the clock shows at each read, what the BLS endpoint
    answers to the k-th external call, what Stripe answers, and which of two
    fetches in flight settles first. *)
Record Env := {
  clock : nat -> Z;
  year_at : nat -> Z;
  bls : nat -> BlsRequest -> FetchResult;
  sessions_retrieve : jsval -> outcome jsval;
  subscriptions_retrieve : string -> outcome jsval;
  regional_first : bool
}.

Definition tick (w : World) : World :=
  {| cpiCache := cpiCache w; reads := S (reads w); calls := calls w |}.

Definition log (c : ExtCall) (w : World) : World :=
  {| cpiCache := cpiCache w; reads := reads w; calls := calls w ++ [c] |}.

Definition store (k : string) (e : CacheEntry) (w : World) : World :=
  {| cpiCache := <[k := e]> (cpiCache w); reads := reads w; calls := calls w |}.

(** An asynchronous computation. *)
Definition M (A : Type) : Type := Env -> World -> outcome A * World.

Definition mret {A} (a : A) : M A := fun _ w => (Return a, w).
Definition mthrow {A} (e : exn) : M A := fun _ w => (Throw e, w).
Definition lift {A} (o : outcome A) : M A := fun _ w => (o, w).

Definition mbind {A B} (m : M A) (k : A -> M B) : M B :=
  fun env w =>
    match m env w with
    | (Return a, w') => k a env w'
    | (Throw e, w') => (Throw e, w')
    end.

Declare Scope async_scope.
Delimit Scope async_scope with async.
Notation "'await' x ':=' m 'in' k" := (mbind m (fun x => k))
  (at level 10, x name, m at level 100, k at level 200) : async_scope.

(** [Date.now()] and [new Date().getFullYear()] *)
Definition Date_now : M Z :=
  fun env w => (Return (clock env (reads w)), tick w).

Definition getFullYear : M Z :=
  fun env w => (Return (year_at env (reads w)), tick w).

(** [cpiCache.get(key)] and [cpiCache.set(key, entry)] *)
Definition cache_get (key : string) : M (option CacheEntry) :=
  fun _ w => (Return (cpiCache w !! key), w).

Definition cache_set (key : string) (e : CacheEntry) : M unit :=
  fun _ w => (Return tt, store key e w).

(** [fetch(url, {method: "POST", ..., body})]: the request leaves now; the
    result is what it will settle to. *)
Definition fetch (req : BlsRequest) : M FetchResult :=
  fun env w => (Return (bls env (List.length (calls w)) req), log (BlsFetch req) w).

Definition stripe_sessions_retrieve (id : jsval) : M jsval :=
  fun env w => (sessions_retrieve env id, log (SessionRetrieve id) w).

Definition stripe_subscriptions_retrieve (id : string) : M jsval :=
  fun env w => (subscriptions_retrieve env id, log (SubscriptionRetrieve id) w).

(** ** The index fetcher and its cache *)

(** [cached && (now - cached.ts) < CACHE_MS] *)
Definition fresh (now : Z) (cached : option CacheEntry) : bool :=
  match cached with
  | Some c => now - ts c <? CACHE_MS
  | None => false
  end.

(** [data?.Results?.series?.[0]], then [series?.data?.[0]], then
    [point?.value] *)
Definition first_value (data : jsval) : jsval :=
  let series := opt_first (opt_member (opt_member data "Results") "series") in
  let point := opt_first (opt_member series "data") in
  opt_member point "value".

(** Where a call of [fetchLatestCPI] stands when it first yields: it has
    returned the cached value, or its request is in flight. *)
Inductive Started : Type :=
| Hit (v : option num)
| Pending (key : string) (now : Z) (res : FetchResult).

Section Fetcher.
Context {rt : Runtime}.

(** [point?.value ? Number(point.value) : null] *)
Definition parse_value (data : jsval) : outcome (option num) :=
  let v := first_value data in
  if ToBoolean v
  then (let* n := ToNumber v in Return (Some n))%out
  else Return None.

Local Open Scope async_scope.

(** The cache had no fresh entry: the request is sent. *)
Definition issue_fetch (seriesId key : string) (now : Z) : M Started :=
  await y := getFullYear in
  let req := {| seriesid := seriesId; startyear := y - 2; endyear := y |} in
  await res := fetch req in
  mret (Pending key now res).

(** [fetchLatestCPI] up to its first [await]. *)
Definition fetch_start (seriesId : string) : M Started :=
  let key := "cpi:" +:+ seriesId in
  await now := Date_now in
  await cached := cache_get key in
  match cached with
  | Some c =>
      if fresh now cached then mret (Hit (value c))
      else issue_fetch seriesId key now
  | None => issue_fetch seriesId key now
  end.

(** [fetchLatestCPI] from the moment its request settles. *)
Definition fetch_finish (s : Started) : M (option num) :=
  match s with
  | Hit v => mret v
  | Pending key now (NetFail e) => mthrow e
  | Pending key now (Resp (JsonFail e)) => mthrow e
  | Pending key now (Resp (JsonOk data)) =>
      await v := lift (parse_value data) in
      await _ := cache_set key {| value := v; ts := now |} in
      mret v
  end.

Definition fetchLatestCPI (seriesId : string) : M (option num) :=
  await s := fetch_start seriesId in
  fetch_finish s.

(** [await Promise.all([fetchLatestCPI(natId), fetchLatestCPI(regId)])]:
    both calls run to their first [await] one after the other, then settle
    in the order the outside chooses.  The first rejection is the one that
    is thrown; the other call still runs to its end. *)
Definition settle_both (sa sb : Started) : M (option num * option num) :=
  fun env w =>
    if regional_first env then
      let '(rb, w1) := fetch_finish sb env w in
      let '(ra, w2) := fetch_finish sa env w1 in
      (match rb, ra with
       | Throw e, _ => Throw e
       | Return _, Throw e => Throw e
       | Return b, Return a => Return (a, b)
       end, w2)
    else
      let '(ra, w1) := fetch_finish sa env w in
      let '(rb, w2) := fetch_finish sb env w1 in
      (match ra, rb with
       | Throw e, _ => Throw e
       | Return _, Throw e => Throw e
       | Return a, Return b => Return (a, b)
       end, w2).

Definition fetch_pair (natId regId : string) : M (option num * option num) :=
  await sa := fetch_start natId in
  await sb := fetch_start regId in
  settle_both sa sb.

End Fetcher.

(** ** Multipliers *)

Record Multipliers := {
  region : string;
  localMult : num;
  stateMult : num;
  nationalMult : num;
  note : string
}.

(** [!v] for a value of the cache *)
Definition unusable (v : option num) : bool :=
  match v with
  | None => true
  | Some n => negb (ToBoolean (VNum n))
  end.

Definition number_of (v : option num) : num :=
  match v with
  | None => Fin 0    (** [null] in arithmetic *)
  | Some n => n
  end.

Definition unavailable_note (vr : Edition) : string :=
  match vr with
  | Flat => "BLS CPI unavailable; neutral multipliers used."
  | Scaled => "BLS CPI unavailable at the moment; used neutral multipliers."
  end.

Definition neutral (vr : Edition) (region : string) : Multipliers :=
  {| region := region; localMult := Fin 1; stateMult := Fin 1; nationalMult := Fin 1;
     note := unavailable_note vr |}.

(** The part of [cpiMultipliers] after the two index values are in. *)
Definition multipliers (vr : Edition) (region : string) (nat reg : option num) : Multipliers :=
  if unusable nat || unusable reg then neutral vr region
  else
    let ratio := ndiv (number_of reg) (number_of nat) in
    {| region := region; localMult := ratio; stateMult := ratio; nationalMult := Fin 1;
       note := match vr with
               | Flat => "Adjusted using BLS CPI (region vs national)."
               | Scaled => "Benchmarks adjusted using BLS CPI (region vs national)."
               end |}.

Section Multiplier.
Context {rt : Runtime}.
Local Open Scope async_scope.

Definition cpiMultipliers (vr : Edition) (zip : jsval) : M Multipliers :=
  await region := lift (regionFromZip zip) in
  await both := fetch_pair natId (regId region) in
  mret (multipliers vr region (fst both) (snd both)).

End Multiplier.

(** ** The access verifier *)

Record AccessResult := {
  ok : bool;
  access : option string   (** ["once"], ["sub"], or absent *)
}.

Definition not_ok : AccessResult := {| ok := false; access := None |}.

Section Access.
Context {rt : Runtime}.
Local Open Scope async_scope.

(** [s.mode === "payment" && s.payment_status === "paid"] *)
Definition paid_once (s : jsval) : outcome bool :=
  (let* mode := member s "mode" in
   if is_str mode "payment"
   then let* ps := member s "payment_status" in Return (is_str ps "paid")
   else Return false)%out.

(** [s.mode === "subscription" && s.status === "complete" && s.subscription] *)
Definition subscribed (s : jsval) : outcome bool :=
  (let* mode := member s "mode" in
   if is_str mode "subscription" then
     let* st := member s "status" in
     if is_str st "complete"
     then let* sb := member s "subscription" in Return (ToBoolean sb)
     else Return false
   else Return false)%out.

(** [sub && (sub.status === "active" || sub.status === "trialing")] *)
Definition live (sub : jsval) : outcome bool :=
  (if ToBoolean sub then
     let* st := member sub "status" in
     if is_str st "active" then Return true
     else let* st' := member sub "status" in Return (is_str st' "trialing")
   else Return false)%out.

Definition verifyAccess (sessionId : jsval) : M AccessResult :=
  if negb (ToBoolean sessionId) then mret not_ok else
  await s := stripe_sessions_retrieve sessionId in
  await once := lift (paid_once s) in
  if once then mret {| ok := true; access := Some "once" |} else
  await linked := lift (subscribed s) in
  if linked then
    await id := lift (let* sb := member s "subscription" in ToString sb)%out in
    await sub := stripe_subscriptions_retrieve id in
    await l := lift (live sub) in
    if l then mret {| ok := true; access := Some "sub" |} else mret not_ok
  else mret not_ok.

End Access.

(** ** The request handler *)

Record Request := {
  method : string;
  req_body : jsval
}.

Record FullReport := {
  market_comparison : string;
  estimated_margin : string;
  price_range : string;
  tips : string;
  data_note : string
}.

(** The object handed to [res.json]. *)
Inductive Body : Type :=
| ErrorBody (error : string) (detail : option string)
| SignalBody (label : string) (score : num) (message : string)
| ReportBody (label : string) (score : num) (access : option string)
             (full_report : FullReport).

Record Response := {
  status : Z;
  json : Body
}.

Definition has_full_report (r : Response) : bool :=
  match json r with
  | ReportBody _ _ _ _ => true
  | _ => false
  end.

Definition needs_price (vr : Edition) : Response :=
  {| status := 200;
     json := SignalBody "needs price" (Fin 0.5)
       match vr with
       | Flat => "Add the total quoted price to get an under/fair/over signal."
       | Scaled => "Add the total price to get an under/fair/over signal (preview keeps benchmark numbers hidden)."
       end |}.

Definition preview_message (vr : Edition) (label : string) : string :=
  match vr with
  | Flat =>
      if String.eqb label "over" then "Likely OVER typical pricing for your area. Unlock the full report for benchmarks and negotiation levers."
      else if String.eqb label "under" then "Likely UNDER typical pricing. Unlock the full report to see what to double-check."
      else "Likely FAIR. Unlock the full report for the benchmark range and next steps."
  | Scaled =>
      if String.eqb label "over" then "Likely OVER typical pricing for your area. Full report shows benchmark range + negotiation levers."
      else if String.eqb label "under" then "Likely UNDER typical pricing. Full report shows what to double-check to avoid surprises."
      else "Likely FAIR. Full report shows local/state/national comparison and estimated margin band."
  end.

(** [req.body || {}] *)
Definition body_of (req : Request) : jsval :=
  if ToBoolean (req_body req) then req_body req else VObj [].

(** A name bound by [const { ... } = body] *)
Definition field (req : Request) (k : string) : jsval :=
  opt_member (body_of req) k.

(** [scale = "medium"] in the destructuring of the scaled variant *)
Definition scale_of (req : Request) : jsval :=
  match field req "scale" with
  | VUndefined => VStr "medium"
  | v => v
  end.

(** [!Number.isNaN(p) && p > 0] *)
Definition havePrice (p : num) : bool := negb (isNaN p) && ngt p (Fin 0).

Definition payment_required : Response :=
  {| status := 403; json := ErrorBody "Payment required." None |}.

Section Handler.
Context {rt : Runtime}.
Local Open Scope async_scope.

(** The report of a paid request. *)
Definition full_report_of (vr : Edition) (cpi : Multipliers) (localMedian : num)
    (cls : Classification) : FullReport :=
  let low := nmul localMedian (Fin 0.85) in
  let high := nmul localMedian (Fin 1.20) in
  let diffPct := Math_round (Math_abs (nmul (nsub (localMult cpi) (Fin 1)) (Fin 100))) in
  let direction := if nge (localMult cpi) (Fin 1) then "higher" else "lower" in
  let marketComparison :=
    "Local (" +:+ region cpi +:+ ") baseline is ~" +:+ NumberToString diffPct +:+ "% "
    +:+ direction +:+
    match vr with
    | Flat => " than national (CPI-adjusted). State baseline is approximated from region."
    | Scaled => " than national. State baseline is approximated from your region; national is the reference baseline."
    end in
  {| market_comparison := marketComparison;
     estimated_margin := marginEstimate (ratio cls);
     price_range := "Estimated fair range (local): ~$" +:+ toLocaleString (Math_round low)
                    +:+ " – $" +:+ toLocaleString (Math_round high);
     tips := tipsFor vr (label cls);
     data_note := "Data note: " +:+ note cpi
                  +:+ " Source: U.S. Bureau of Labor Statistics CPI via Public Data API." |}.

(** The body of the [try] block.  (The scaled variant also computes
    [stateMedian] and [nationalMedian], which it never reads.) *)
Definition handler_try (vr : Edition) (req : Request) : M Response :=
  let mode := field req "mode" in
  let session_id := field req "session_id" in
  let category := field req "category" in
  let scale := scale_of req in
  let zip := field req "zip" in
  let price := field req "price" in
  await p := lift (ToNumber price) in
  if negb (havePrice p) && negb (is_str mode "full") then mret (needs_price vr) else
  await cpi := cpiMultipliers vr zip in
  await base := lift (baseMedian vr category scale) in
  await b := lift (ToNumber base) in
  let localMedian := nmul b (localMult cpi) in
  let cls := classify p localMedian in
  if negb (is_str mode "full") then
    mret {| status := 200;
            json := SignalBody (label cls) (score cls) (preview_message vr (label cls)) |}
  else
    await acc := verifyAccess session_id in
    if negb (ok acc) then mret payment_required
    else
      mret {| status := 200;
              json := ReportBody (label cls) (score cls) (access acc)
                        (full_report_of vr cpi localMedian cls) |}.

Definition handler (vr : Edition) (req : Request) (env : Env) (w : World)
    : Response * World :=
  if negb (String.eqb (method req) "POST")
  then ({| status := 405; json := ErrorBody "POST only" None |}, w)
  else
    match handler_try vr req env w with
    | (Return r, w') => (r, w')
    | (Throw e, w') =>
        ({| status := 500; json := ErrorBody "Server error" (Some (exn_detail e)) |}, w')
    end.

End Handler.

(** ** Notions used in the statements *)

(** The clamp of a rational to the unit interval, as [clamp] computes it. *)
Definition unit_clamp (x : Q) : Q :=
  match (1 ?= x)%Q with
  | Gt => match (0 ?= x)%Q with Lt => x | _ => 0%Q end
  | _ => 1%Q
  end.

(** The score as a function of a finite ratio. *)
Definition score_of_ratio (r : Q) : Q := unit_clamp ((r - 0.8) / (1.4 - 0.8)).

(** The label that [classify] gives to a finite ratio. *)
Definition label_of_ratio (r : Q) : string :=
  if Qltb r 0.9 then "under" else if Qltb 1.15 r then "over" else "fair".

(** An index value that reads zero, and one that [cpiMultipliers] cannot use:
    [null], NaN or zero. *)
Definition zero_reading (v : option num) : Prop :=
  exists q, v = Some (Fin q) /\ (q == 0)%Q.

Definition no_reading (v : option num) : Prop :=
  v = None \/ v = Some NaN \/ zero_reading v.

(** The request that a call of [fetchLatestCPI] sends from the world [w]:
    the call reads the clock once for [now] and once more for the year. *)
Definition request_of (env : Env) (w : World) (seriesId : string) : BlsRequest :=
  let y := year_at env (S (reads w)) in
  {| seriesid := seriesId; startyear := y - 2; endyear := y |}.

(** The world once the request of a call of [fetchLatestCPI] has left. *)
Definition in_flight (env : Env) (w : World) (seriesId : string) : World :=
  log (BlsFetch (request_of env w seriesId)) (tick (tick w)).

(** What the specification says of a checkout session and of a subscription:
    a one-time payment session marked paid; a subscription-mode session whose
    status is "complete"; the id of the subscription a session links to; a
    subscription that is active or trialing. *)
Definition one_time_paid (s : jsval) : Prop :=
  opt_member s "mode" = VStr "payment" /\ opt_member s "payment_status" = VStr "paid".

Definition subscription_complete (s : jsval) : Prop :=
  opt_member s "mode" = VStr "subscription" /\ opt_member s "status" = VStr "complete".

Definition links_to {rt : Runtime} (s : jsval) (id : string) : Prop :=
  ToBoolean (opt_member s "subscription") = true /\
  ToString (opt_member s "subscription") = Return id.

Definition active_or_trialing (sub : jsval) : Prop :=
  opt_member sub "status" = VStr "active" \/ opt_member sub "status" = VStr "trialing".

Definition ok_once : AccessResult := {| ok := true; access := Some "once" |}.
Definition ok_sub : AccessResult := {| ok := true; access := Some "sub" |}.

(** ** Concrete runtimes, worlds and requests for the examples *)

(** A runtime that prints the integer part of a number in decimal, which is
    what both formatters give on the integers below 1000. *)
Definition print_integer (n : num) : string :=
  match n with
  | NaN => "NaN"
  | PosInf => "Infinity"
  | NegInf => "-Infinity"
  | Fin q => pretty (Qfloor q)
  end.

Definition integer_runtime : Runtime :=
  {| NumberToString := print_integer; toLocaleString := print_integer |}.

(** A process that has just started. *)
Definition world0 : World := {| cpiCache := ∅; reads := 0; calls := [] |}.

(** An outside whose clock stands at [t], whose year is 2024, whose BLS
    endpoint answers by [answer] and whose Stripe knows no session. *)
Definition outside (t : Z) (answer : nat -> BlsRequest -> FetchResult) : Env :=
  {| clock := fun _ => t;
     year_at := fun _ => 2024;
     bls := answer;
     sessions_retrieve := fun _ => Throw (Exn "No such checkout.session");
     subscriptions_retrieve := fun _ => Throw (Exn "No such subscription");
     regional_first := false |}.

(** The BLS endpoint cannot be reached. *)
Definition bls_down : nat -> BlsRequest -> FetchResult :=
  fun _ _ => NetFail (Exn "fetch failed").

(** A BLS response whose newest point has the value [v]. *)
Definition bls_response (v : jsval) : jsval :=
  VObj [ ("status", VStr "REQUEST_SUCCEEDED");
         ("Results", VObj [ ("series",
            VArr [ VObj [ ("seriesID", VStr "CUUR0000SA0");
                          ("data", VArr [ VObj [ ("year", VStr "2024");
                                                 ("value", v) ] ]) ] ]) ]) ]%string.

(** The BLS endpoint answers with JSON that holds no series, as it does for
    a request it does not process. *)
Definition bls_empty : nat -> BlsRequest -> FetchResult :=
  fun _ _ => Resp (JsonOk (VObj [ ("status", VStr "REQUEST_NOT_PROCESSED");
                                  ("Results", VObj []) ]%string)).

(** The national index reads 310.3; every regional index reads 0. *)
Definition bls_regional_zero : nat -> BlsRequest -> FetchResult :=
  fun _ req =>
    if String.eqb (seriesid req) "CUUR0000SA0"
    then Resp (JsonOk (bls_response (VStr "310.3")))
    else Resp (JsonOk (bls_response (VStr "0"))).

(** The national index reads 300; every regional index reads 330. *)
Definition bls_dearer_regions : nat -> BlsRequest -> FetchResult :=
  fun _ req =>
    if String.eqb (seriesid req) "CUUR0000SA0"
    then Resp (JsonOk (bls_response (VStr "300")))
    else Resp (JsonOk (bls_response (VStr "330.0"))).

(** Every index reads 310.3. *)
Definition bls_flat : nat -> BlsRequest -> FetchResult :=
  fun _ _ => Resp (JsonOk (bls_response (VStr "310.3"))).

Definition post (fields : list (string * jsval)) : Request :=
  {| method := "POST"; req_body := VObj fields |}.

(** Stripe knows one paid one-time session and one completed subscription
    session whose subscription is active. *)
Definition stripe_sessions (id : jsval) : outcome jsval :=
  if is_str id "cs_once" then
    Return (VObj [ ("mode", VStr "payment"); ("payment_status", VStr "paid");
                   ("status", VStr "complete"); ("subscription", VNull) ]%string)
  else if is_str id "cs_sub" then
    Return (VObj [ ("mode", VStr "subscription"); ("payment_status", VStr "paid");
                   ("status", VStr "complete"); ("subscription", VStr "sub_1") ]%string)
  else if is_str id "cs_open" then
    Return (VObj [ ("mode", VStr "payment"); ("payment_status", VStr "unpaid");
                   ("status", VStr "open"); ("subscription", VNull) ]%string)
  else Throw (Exn "No such checkout.session").

Definition stripe_subscriptions (id : string) : outcome jsval :=
  if String.eqb id "sub_1"
  then Return (VObj [ ("id", VStr "sub_1"); ("status", VStr "active") ]%string)
  else Throw (Exn "No such subscription").

Definition with_stripe (env : Env) : Env :=
  {| clock := clock env; year_at := year_at env; bls := bls env;
     sessions_retrieve := stripe_sessions;
     subscriptions_retrieve := stripe_subscriptions;
     regional_first := regional_first env |}.

(** The requests of the examples: a quote of 2800 for a car repair in 90210. *)
Definition quote_fields : list (string * jsval) :=
  [ ("price", VNum (Fin 2800)); ("category", VStr "Auto (repair/body)");
    ("scale", VStr "medium"); ("zip", VStr "90210") ]%string.

Definition preview_request : Request :=
  post (("mode", VStr "preview") :: quote_fields).

Definition full_request (session_id : jsval) : Request :=
  post (("mode", VStr "full") :: ("session_id", session_id) :: quote_fields).


(** A preview request whose category is an object with a [toString] entry. *)
Definition odd_category_request : Request :=
  post [ ("mode", VStr "preview"); ("price", VNum (Fin 2800));
         ("category", VObj [ ("toString", VNull) ]); ("zip", VStr "90210") ]%string.

(** Every index prints a dash, as BLS does for a month it has no value for. *)
Definition bls_dash : nat -> BlsRequest -> FetchResult :=
  fun _ _ => Resp (JsonOk (bls_response (VStr "-"))).

Definition server_error (detail : string) : Response :=
  {| status := 500; json := ErrorBody "Server error" (Some detail) |}.

(** The world after the two index lookups of a first request from the West. *)
Definition west_world : World :=
  snd (fetch_pair (rt := integer_runtime) natId (regId "West")
         (outside 0 bls_regional_zero) world0).

(** The world after the two index lookups of a first request from the West
    when the regions are dearer. *)
Definition dearer_west_world : World :=
  snd (fetch_pair (rt := integer_runtime) natId (regId "West")
         (outside 0 bls_dearer_regions) world0).

(** ** Further notions: regions, bands, the reported range, external calls *)

(** The digits that [regionFromZip] tests the first character against. *)
Definition northeast_digits : list ascii := ["0"; "1"; "2"]%char.
Definition south_digits : list ascii := ["3"; "4"; "5"]%char.
Definition midwest_digits : list ascii := ["6"; "7"]%char.
Definition west_digits : list ascii := ["8"; "9"]%char.

(** The names that [regionFromZip] can return. *)
Definition region_names : list string :=
  ["National"; "Northeast"; "South"; "Midwest"; "West"].

(** The four texts of [marginEstimate]. *)
Definition band_low : string := "Low–normal (estimated 10–20%)".
Definition band_normal : string := "Normal (estimated 15–30%)".
Definition band_high : string := "High (estimated 25–45%)".
Definition band_very_high : string := "Very high (estimated 40–60%+)".

(** [const low = localMedian * 0.85;] and [const high = localMedian * 1.20;] *)
Definition range_low (localMedian : num) : num := nmul localMedian (Fin 0.85).
Definition range_high (localMedian : num) : num := nmul localMedian (Fin 1.20).

(** A call to the BLS endpoint, as opposed to one to Stripe. *)
Definition is_bls (c : ExtCall) : bool :=
  match c with
  | BlsFetch _ => true
  | _ => false
  end.

(** The series that a logged call asked for, if it went to BLS. *)
Definition series_of_call (c : ExtCall) : option string :=
  match c with
  | BlsFetch req => Some (seriesid req)
  | _ => None
  end.

(** The cache of [w'] differs from the cache of [w] at the keys [keys] at
    most, and has lost no key. *)
Definition cache_kept_outside (keys : list string) (w w' : World) : Prop :=
  (forall k, ~ In k keys -> cpiCache w' !! k = cpiCache w !! k) /\
  (forall k, is_Some (cpiCache w !! k) -> is_Some (cpiCache w' !! k)).

(** The calls in [l] all went to BLS, for one of the series [series]. *)
Definition bls_calls_for (series : list string) (l : list ExtCall) : Prop :=
  Forall (fun c => exists s, series_of_call c = Some s /\ In s series) l.

(** The cache keys of the five series. *)
Definition series_keys : list string :=
  List.map (fun r => "cpi:" +:+ regId r) region_names.

(** The three labels of [classify]. *)
Definition labels : list string := ["under"; "fair"; "over"].

(** The cache key that a started call may still write. *)
Definition started_keys (s : Started) : list string :=
  match s with
  | Hit _ => []
  | Pending key _ _ => [key]
  end.

(** A BLS endpoint whose index moves between two requests: the first request
    of the process reads 300, every later one 330. *)
Definition bls_moving : nat -> BlsRequest -> FetchResult :=
  fun n _ =>
    match n with
    | O => Resp (JsonOk (bls_response (VStr "300")))
    | S _ => Resp (JsonOk (bls_response (VStr "330.0")))
    end.


(** A score that a response may carry: NaN, or a number from 0 to 1. *)
Definition score_in_range (s : num) : Prop :=
  s = NaN \/ exists q, s = Fin q /\ (0 <= q)%Q /\ (q <= 1)%Q.

(** The categories that the two tables list. *)
Definition categories : list string :=
  List.map fst base_flat.

(** The sentence of the report that compares the region with the nation, for
    a rounded percentage and a direction. *)
Definition market_text {rt : Runtime} (vr : Edition) (region : string) (pct : num)
    (direction : string) : string :=
  "Local (" +:+ region +:+ ") baseline is ~" +:+ NumberToString pct +:+ "% "
  +:+ direction +:+
  match vr with
  | Flat => " than national (CPI-adjusted). State baseline is approximated from region."
  | Scaled => " than national. State baseline is approximated from your region; national is the reference baseline."
  end.

(** A POST request whose body is a text, not an object. *)
Definition text_request : Request :=
  {| method := "POST"; req_body := VStr "price=2800&zip=90210" |}.

(** ** Facts about numbers *)

Lemma Qltb_lt (a b : Q) : Qltb a b = true <-> (a < b)%Q.
Proof.
  unfold Qltb. rewrite Qlt_alt. destruct (a ?= b)%Q; split; congruence.
Qed.

Lemma Qltb_ge (a b : Q) : Qltb a b = false <-> (b <= a)%Q.
Proof.
  destruct (Qltb a b) eqn:E.
  - apply Qltb_lt in E. split; [discriminate | intros H; lra].
  - split; [intros _ | reflexivity].
    destruct (Qlt_le_dec a b) as [H | H]; [| exact H].
    apply Qltb_lt in H. congruence.
Qed.

Lemma nlt_Fin (a b : Q) : nlt (Fin a) (Fin b) = Qltb a b.
Proof. reflexivity. Qed.

Lemma ndiv_Fin (a b : Q) : ~ (b == 0)%Q -> ndiv (Fin a) (Fin b) = Fin (a / b).
Proof.
  intros H. simpl. destruct (Qeq_bool b 0) eqn:E; [| reflexivity].
  apply Qeq_bool_iff in E. contradiction.
Qed.

Lemma clamp_Fin (x : Q) : clamp (Fin x) (Fin 0) (Fin 1) = Fin (unit_clamp x).
Proof.
  unfold clamp, unit_clamp, Math_min, Math_max. simpl.
  destruct (Qcompare_spec 1 x) as [H1 | H1 | H1]; simpl; try reflexivity.
  destruct (Qcompare_spec 0 x); reflexivity.
Qed.

Lemma unit_clamp_range (x : Q) : (0 <= unit_clamp x <= 1)%Q.
Proof.
  unfold unit_clamp.
  destruct (Qcompare_spec 1 x); destruct (Qcompare_spec 0 x); lra.
Qed.

Lemma unit_clamp_mono (x y : Q) : (x <= y)%Q -> (unit_clamp x <= unit_clamp y)%Q.
Proof.
  unfold unit_clamp. intros H.
  destruct (Qcompare_spec 1 x); destruct (Qcompare_spec 0 x);
    destruct (Qcompare_spec 1 y); destruct (Qcompare_spec 0 y); lra.
Qed.

Lemma unit_clamp_low (x : Q) : (x <= 0)%Q -> (unit_clamp x == 0)%Q.
Proof.
  unfold unit_clamp. intros H.
  destruct (Qcompare_spec 1 x); destruct (Qcompare_spec 0 x); lra.
Qed.

Lemma unit_clamp_high (x : Q) : (1 <= x)%Q -> (unit_clamp x == 1)%Q.
Proof.
  unfold unit_clamp. intros H.
  destruct (Qcompare_spec 1 x); destruct (Qcompare_spec 0 x); lra.
Qed.

Lemma unit_clamp_inside (x : Q) : (0 <= x <= 1)%Q -> (unit_clamp x == x)%Q.
Proof.
  unfold unit_clamp. intros H.
  destruct (Qcompare_spec 1 x); destruct (Qcompare_spec 0 x); lra.
Qed.

Lemma classify_Fin (price median : Q) :
  (0 < median)%Q ->
  classify (Fin price) (Fin median) =
  {| ratio := Fin (price / median);
     score := Fin (score_of_ratio (price / median));
     label := if Qltb (price / median) 0.9 then "under"
              else if Qltb 1.15 (price / median) then "over" else "fair" |}.
Proof.
  intros Hm. unfold classify.
  rewrite (ndiv_Fin price median) by lra.
  cbn [nsub]. rewrite ndiv_Fin by lra.
  rewrite clamp_Fin. reflexivity.
Qed.

Lemma normalised_mono (r1 r2 : Q) :
  (r1 <= r2)%Q -> ((r1 - 0.8) / (1.4 - 0.8) <= (r2 - 0.8) / (1.4 - 0.8))%Q.
Proof.
  intros H. apply Qle_shift_div_l; [lra |].
  unfold Qdiv. rewrite <- Qmult_assoc, (Qmult_comm (/ _)), Qmult_inv_r by lra. lra.
Qed.

Lemma normalised_low (r : Q) : (r <= 0.8)%Q -> ((r - 0.8) / (1.4 - 0.8) <= 0)%Q.
Proof.
  intros H. apply Qle_shift_div_r; lra.
Qed.

Lemma normalised_high (r : Q) : (1.4 <= r)%Q -> (1 <= (r - 0.8) / (1.4 - 0.8))%Q.
Proof.
  intros H. apply Qle_shift_div_l; lra.
Qed.

Lemma ratio_one (price median : Q) :
  (0 < median)%Q -> (price == median)%Q -> (price / median == 1)%Q.
Proof.
  intros Hm He. rewrite He. apply Qmult_inv_r. lra.
Qed.

Lemma score_of_ratio_one (r : Q) : (r == 1)%Q -> (score_of_ratio r == 1 # 3)%Q.
Proof.
  intros H. unfold score_of_ratio.
  assert (E : ((r - 0.8) / (1.4 - 0.8) == 1 # 3)%Q).
  { rewrite H. reflexivity. }
  rewrite unit_clamp_inside; [exact E | rewrite E; split; discriminate ].
Qed.

(** What each label says of a finite ratio. *)
Lemma label_of_ratio_cases (r : Q) :
  (label_of_ratio r = "under" /\ (r < 0.9)%Q) \/
  (label_of_ratio r = "over" /\ (1.15 < r)%Q) \/
  (label_of_ratio r = "fair" /\ (0.9 <= r)%Q /\ (r <= 1.15)%Q).
Proof.
  unfold label_of_ratio. destruct (Qltb r 0.9) eqn:E1.
  - left. split; [reflexivity | now apply Qltb_lt].
  - right. apply Qltb_ge in E1. destruct (Qltb 1.15 r) eqn:E2.
    + left. split; [reflexivity | now apply Qltb_lt].
    + right. apply Qltb_ge in E2. auto.
Qed.

(** C2.  For a positive price and a positive median, [classify] returns the
    ratio price/median, the label "under" exactly when the ratio is below 0.9,
    "over" exactly when it is above 1.15 and "fair" exactly in between, both
    bounds included; a price equal to the median is "fair" with score
    (1 - 0.8)/0.6 = 1/3. *)
Theorem classify_labels (price median : Q) :
  (0 < price)%Q -> (0 < median)%Q ->
  let c := classify (Fin price) (Fin median) in
  let r := (price / median)%Q in
  ratio c = Fin r /\
  (label c = "under" <-> (r < 0.9)%Q) /\
  (label c = "over" <-> (1.15 < r)%Q) /\
  (label c = "fair" <-> (0.9 <= r)%Q /\ (r <= 1.15)%Q) /\
  ((r == 0.9)%Q -> label c = "fair") /\
  ((r == 1.15)%Q -> label c = "fair") /\
  ((price == median)%Q ->
     label c = "fair" /\
     num_eq (score c) (Fin ((1 - 0.8) / 0.6)) /\ num_eq (score c) (Fin (1 # 3))).
Proof.
  intros Hp Hm c r. subst c r. rewrite (classify_Fin price median Hm).
  cbn [ratio label score]. set (r := (price / median)%Q).
  fold (label_of_ratio r).
  assert (Hone : (price == median)%Q -> (r == 1)%Q) by (apply ratio_one; exact Hm).
  assert (Hunder : label_of_ratio r = "under" <-> (r < 0.9)%Q).
  { destruct (label_of_ratio_cases r) as [[-> H] | [[-> H] | (-> & H1 & H2)]];
      split; intros; first [reflexivity | discriminate | lra]. }
  assert (Hover : label_of_ratio r = "over" <-> (1.15 < r)%Q).
  { destruct (label_of_ratio_cases r) as [[-> H] | [[-> H] | (-> & H1 & H2)]];
      split; intros; first [reflexivity | discriminate | lra]. }
  assert (Hfair : label_of_ratio r = "fair" <-> (0.9 <= r)%Q /\ (r <= 1.15)%Q).
  { destruct (label_of_ratio_cases r) as [[-> H] | [[-> H] | (-> & H1 & H2)]];
      split; try discriminate; try (intros [? ?]; lra); auto. }
  split; [reflexivity |].
  split; [exact Hunder |]. split; [exact Hover |]. split; [exact Hfair |].
  split; [intros H; apply Hfair; lra |].
  split; [intros H; apply Hfair; lra |].
  intros He. specialize (Hone He).
  split; [apply Hfair; lra |].
  assert (Hs : (score_of_ratio r == 1 # 3)%Q) by (apply score_of_ratio_one; exact Hone).
  split; simpl; rewrite Hs; reflexivity.
Qed.

(** The theorem at a quote of 1400 against a median of 1400. *)
Lemma classify_labels_witness :
  label (classify (Fin 1400) (Fin 1400)) = "fair" /\
  num_eq (score (classify (Fin 1400) (Fin 1400))) (Fin (1 # 3)).
Proof.
  pose proof (classify_labels 1400 1400 ltac:(reflexivity) ltac:(reflexivity)) as H.
  cbv zeta in H. destruct H as (_ & _ & _ & _ & _ & _ & H).
  destruct (H ltac:(reflexivity)) as (H1 & _ & H3). split; assumption.
Defined.

(** C7.  Against one positive median, the score never decreases when the
    ratio grows; it is 0 for every ratio up to 0.8, 1 for every ratio from
    1.4, and always between 0 and 1. *)
Theorem score_monotone_clamped (p1 p2 median : Q) :
  (0 < p1)%Q -> (0 < p2)%Q -> (0 < median)%Q ->
  let s1 := score (classify (Fin p1) (Fin median)) in
  let s2 := score (classify (Fin p2) (Fin median)) in
  ((p1 / median <= p2 / median)%Q -> num_le s1 s2) /\
  ((p1 / median <= 0.8)%Q -> num_eq s1 (Fin 0)) /\
  ((1.4 <= p1 / median)%Q -> num_eq s1 (Fin 1)) /\
  num_le (Fin 0) s1 /\ num_le s1 (Fin 1).
Proof.
  intros H1 H2 Hm s1 s2. subst s1 s2.
  rewrite !classify_Fin by assumption. cbn [score].
  assert (Hle : forall a b : Q, (a <= b)%Q -> num_le (Fin a) (Fin b)).
  { intros a b H. unfold num_le. simpl.
    destruct (Qcompare_spec a b); try exact I. lra. }
  repeat split.
  - intros H. apply Hle, unit_clamp_mono, normalised_mono, H.
  - intros H. simpl. apply unit_clamp_low, normalised_low, H.
  - intros H. simpl. apply unit_clamp_high, normalised_high, H.
  - apply Hle, unit_clamp_range.
  - apply Hle, unit_clamp_range.
Qed.

(** The theorem at quotes of 1000 and 2800 against a median of 1400. *)
Lemma score_monotone_clamped_witness :
  num_le (score (classify (Fin 1000) (Fin 1400))) (score (classify (Fin 2800) (Fin 1400))) /\
  num_eq (score (classify (Fin 1000) (Fin 1400))) (Fin 0) /\
  num_eq (score (classify (Fin 2800) (Fin 1400))) (Fin 1).
Proof.
  pose proof (score_monotone_clamped 1000 2800 1400
                ltac:(reflexivity) ltac:(reflexivity) ltac:(reflexivity)) as H.
  pose proof (score_monotone_clamped 2800 1000 1400
                ltac:(reflexivity) ltac:(reflexivity) ltac:(reflexivity)) as H'.
  cbv zeta in H, H'.
  destruct H as (Hm & Hl & _). destruct H' as (_ & _ & Hh & _).
  split; [apply Hm; discriminate |]. split; [apply Hl; discriminate | apply Hh; discriminate].
Defined.

(** ** Facts about the category table *)

Lemma String_eqb_true (a b : string) : String.eqb a b = true -> a = b.
Proof. apply String.eqb_eq. Qed.

Section MedianFacts.
Context {rt : Runtime}.

(** Apart from the names that a plain object inherits, every category
    string gets a positive median: its own row or the row of "Other". *)
Lemma baseMedian_flat_positive (category : string) :
  in_keys category Object_prototype_keys = false ->
  exists z : Z, 0 < z /\ baseMedian_flat (VStr category) = Return (znum z).
Proof.
  intros Hk. unfold baseMedian_flat, obj_get. cbn [ToString obind].
  cbn [base_flat own].
  repeat match goal with
         | |- context [String.eqb ?a category] =>
             destruct (String.eqb a category); [eexists; split; [| reflexivity]; lia |]
         end.
  rewrite Hk. cbn. eexists; split; [| reflexivity]; lia.
Qed.

Lemma baseMedian_scaled_positive (category : string) (scale : jsval) :
  in_keys category Object_prototype_keys = false ->
  exists z : Z, 0 < z /\ baseMedian_scaled (VStr category) scale = Return (znum z).
Proof.
  intros Hk. unfold baseMedian_scaled.
  assert (Hsc : (if is_str scale "small" || is_str scale "large" then scale else VStr "medium")
                = VStr "small" \/
                (if is_str scale "small" || is_str scale "large" then scale else VStr "medium")
                = VStr "large" \/
                (if is_str scale "small" || is_str scale "large" then scale else VStr "medium")
                = VStr "medium").
  { destruct scale; cbn; auto.
    destruct (String.eqb s "small") eqn:E1; cbn.
    - apply String_eqb_true in E1. subst. auto.
    - destruct (String.eqb s "large") eqn:E2; cbn; auto.
      apply String_eqb_true in E2. subst. auto. }
  cbn [ToString obind]. unfold obj_get at 1. cbn [base_scaled own].
  repeat match goal with
         | |- context [String.eqb ?a category] =>
             destruct (String.eqb a category) eqn:?;
             [ match goal with E : String.eqb _ category = true |- _ =>
                 apply String_eqb_true in E; subst category end;
               destruct Hsc as [-> | [-> | ->]]; cbn;
               eexists; (split; [| reflexivity]); lia |]
         end.
  rewrite Hk. cbn [ToBoolean ToString obind].
  destruct Hsc as [-> | [-> | ->]]; cbn; eexists; (split; [| reflexivity]); lia.
Qed.

(** What a name finds in either table: a row, an inherited value, or
    nothing. *)
Lemma base_flat_value (key : string) :
  (exists z : Z, obj_get base_flat key = znum z) \/
  obj_get base_flat key = VBuiltin key \/ obj_get base_flat key = VUndefined.
Proof.
  unfold obj_get. cbn [own base_flat].
  repeat match goal with
         | |- context [String.eqb ?a key] =>
             destruct (String.eqb a key); [left; eexists; reflexivity |]
         end.
  destruct (in_keys key Object_prototype_keys); auto.
Qed.

Lemma base_scaled_value (key : string) :
  (exists s m l : Z, obj_get base_scaled key = row s m l) \/
  obj_get base_scaled key = VBuiltin key \/ obj_get base_scaled key = VUndefined.
Proof.
  unfold obj_get. cbn [own base_scaled].
  repeat match goal with
         | |- context [String.eqb ?a key] =>
             destruct (String.eqb a key); [left; eexists _, _, _; reflexivity |]
         end.
  destruct (in_keys key Object_prototype_keys); auto.
Qed.

(** The median lookup and the coercion of its result raise only when the
    category cannot be turned into a property name. *)
Lemma baseMedian_returns (vr : Edition) (category scale : jsval) (key : string) :
  ToString category = Return key ->
  exists base b,
    baseMedian vr category scale = Return base /\ ToNumber base = Return b.
Proof.
  intros Hk. destruct vr; cbn [baseMedian].
  - unfold baseMedian_flat. rewrite Hk. cbn [obind].
    destruct (base_flat_value key) as [[z ->] | [-> | ->]];
      cbn [nullish]; eexists _, _; split; reflexivity.
  - unfold baseMedian_scaled. rewrite Hk. cbn [obind].
    assert (Hsc : (if is_str scale "small" || is_str scale "large" then scale else VStr "medium")
                  = VStr "small" \/
                  (if is_str scale "small" || is_str scale "large" then scale else VStr "medium")
                  = VStr "large" \/
                  (if is_str scale "small" || is_str scale "large" then scale else VStr "medium")
                  = VStr "medium").
    { destruct scale; cbn; auto.
      destruct (String.eqb s "small") eqn:E1; cbn.
      - apply String_eqb_true in E1. subst. auto.
      - destruct (String.eqb s "large") eqn:E2; cbn; auto.
        apply String_eqb_true in E2. subst. auto. }
    destruct (base_scaled_value key) as [(s & m & l & E) | [E | E]].
    + rewrite E. cbn [ToBoolean row]. rewrite Hk. cbn [obind]. rewrite E.
      destruct Hsc as [-> | [-> | ->]]; cbn [ToString obind member row obj_get own String.eqb
                                              Ascii.eqb Bool.eqb];
        match goal with
        | |- context [ToBoolean ?v] => destruct (ToBoolean v)
        end; eexists _, _; split; reflexivity.
    + rewrite E. cbn [ToBoolean]. rewrite Hk. cbn [obind]. rewrite E.
      destruct Hsc as [-> | [-> | ->]]; cbn [ToString obind member ToBoolean];
        rewrite ?Hk; cbn [obind member]; eexists _, _; split; reflexivity.
    + rewrite E. cbn [ToBoolean].
      destruct Hsc as [-> | [-> | ->]]; eexists _, _; split; reflexivity.
Qed.

Lemma baseMedian_throws (vr : Edition) (category scale : jsval) (e : exn) :
  ToString category = Throw e -> baseMedian vr category scale = Throw e.
Proof.
  intros Hk. destruct vr; cbn [baseMedian]; unfold baseMedian_flat, baseMedian_scaled;
    rewrite Hk; reflexivity.
Qed.

End MedianFacts.

(** C9.  The category "constructor" is a string that names no row of the
    table, yet [baseMedian] does not fall back to "Other": the lookup finds
    the value that the table inherits from [Object.prototype].  The flat
    variant returns that function, the scaled variant returns [undefined]. *)
Theorem baseMedian_inherited_name (rt : Runtime) :
  baseMedian Flat (VStr "constructor") VUndefined = Return (VBuiltin "constructor") /\
  baseMedian Scaled (VStr "constructor") (VStr "medium") = Return VUndefined /\
  baseMedian Flat (VStr "no such category") VUndefined = Return (znum 2000) /\
  baseMedian Scaled (VStr "no such category") (VStr "medium") = Return (znum 2000).
Proof. repeat split. Qed.

(** ** Facts about the multipliers *)

Lemma unusable_spec (v : option num) : unusable v = true <-> no_reading v.
Proof.
  unfold no_reading, zero_reading. destruct v as [[| | q |] |]; cbn.
  - split; [auto | reflexivity].
  - split; [discriminate |]. intros [H | [H | (q & H & _)]]; discriminate.
  - rewrite negb_involutive. split.
    + intros H. right. right. exists q. split; [reflexivity | now apply Qeq_bool_iff].
    + intros [H | [H | (q' & H & Hq)]]; try discriminate.
      injection H as ->. now apply Qeq_bool_iff.
  - split; [discriminate |]. intros [H | [H | (q & H & _)]]; discriminate.
  - split; [auto | reflexivity].
Qed.

Lemma unusable_false (v : option num) :
  unusable v = false -> ~ no_reading v /\ exists n, v = Some n.
Proof.
  intros H. split.
  - intros Hn. apply unusable_spec in Hn. congruence.
  - destruct v as [n |]; [eauto | discriminate].
Qed.

Lemma multipliers_neutral (vr : Edition) (region : string) (nat reg : option num) :
  no_reading nat \/ no_reading reg -> multipliers vr region nat reg = neutral vr region.
Proof.
  unfold multipliers. intros [H | H]; apply unusable_spec in H; rewrite H.
  - reflexivity.
  - now rewrite orb_true_r.
Qed.

Lemma multipliers_ratio (vr : Edition) (region : string) (nat reg : option num) :
  ~ no_reading nat -> ~ no_reading reg ->
  exists n r, nat = Some n /\ reg = Some r /\
    localMult (multipliers vr region nat reg) = ndiv r n /\
    stateMult (multipliers vr region nat reg) = ndiv r n.
Proof.
  intros Hn Hr. unfold multipliers.
  destruct (unusable nat) eqn:En; [apply unusable_spec in En; contradiction |].
  destruct (unusable reg) eqn:Er; [apply unusable_spec in Er; contradiction |].
  destruct (unusable_false _ En) as (_ & n & ->).
  destruct (unusable_false _ Er) as (_ & r & ->).
  exists n, r. repeat split.
Qed.

Lemma multipliers_invariant (vr : Edition) (region : string) (nat reg : option num) :
  nationalMult (multipliers vr region nat reg) = Fin 1 /\
  stateMult (multipliers vr region nat reg) = localMult (multipliers vr region nat reg).
Proof.
  unfold multipliers. destruct (unusable nat || unusable reg); split; reflexivity.
Qed.

Section MultiplierFacts.
Context {rt : Runtime}.

Lemma cpiMultipliers_returns (vr : Edition) (zip : jsval) (env : Env) (w w' : World)
    (region : string) (nat reg : option num) :
  regionFromZip zip = Return region ->
  fetch_pair natId (regId region) env w = (Return (nat, reg), w') ->
  cpiMultipliers vr zip env w = (Return (multipliers vr region nat reg), w').
Proof.
  intros Hz Hf. unfold cpiMultipliers, mbind, lift, mret. rewrite Hz, Hf. reflexivity.
Qed.

(** C10.  When both index values arrive and one of them is exactly 0,
    [cpiMultipliers] answers as it does for a value that is [null]: the
    three multipliers are 1 and the note is the one of unavailability. *)
Theorem zero_reading_is_unavailable (vr : Edition) (zip : jsval) (env : Env)
    (w w' : World) (region : string) (nat reg : option num) :
  regionFromZip zip = Return region ->
  fetch_pair natId (regId region) env w = (Return (nat, reg), w') ->
  zero_reading nat \/ zero_reading reg ->
  exists m,
    cpiMultipliers vr zip env w = (Return m, w') /\
    localMult m = Fin 1 /\ stateMult m = Fin 1 /\ nationalMult m = Fin 1 /\
    note m = unavailable_note vr /\
    (zero_reading nat -> m = multipliers vr region None reg) /\
    (zero_reading reg -> m = multipliers vr region nat None).
Proof.
  intros Hz Hf H0. exists (multipliers vr region nat reg).
  split; [now apply cpiMultipliers_returns |].
  assert (E : multipliers vr region nat reg = neutral vr region).
  { apply multipliers_neutral. unfold no_reading. tauto. }
  rewrite E. do 4 (split; [reflexivity |]). split; intros _; symmetry.
  - apply multipliers_neutral. left. left. reflexivity.
  - apply multipliers_neutral. right. left. reflexivity.
Qed.

(** C8 as amended.  When both index values arrive, the national multiplier
    is 1 and the state multiplier equals the local one; all three are 1 when
    either value is [null], NaN or zero, and otherwise the local and state
    multipliers are regional/national. *)
Theorem cpiMultipliers_shape (vr : Edition) (zip : jsval) (env : Env)
    (w w' : World) (region : string) (nat reg : option num) :
  regionFromZip zip = Return region ->
  fetch_pair natId (regId region) env w = (Return (nat, reg), w') ->
  exists m,
    cpiMultipliers vr zip env w = (Return m, w') /\
    nationalMult m = Fin 1 /\ stateMult m = localMult m /\
    (no_reading nat \/ no_reading reg ->
       localMult m = Fin 1 /\ stateMult m = Fin 1 /\ nationalMult m = Fin 1) /\
    (~ no_reading nat -> ~ no_reading reg ->
       exists n r, nat = Some n /\ reg = Some r /\
         localMult m = ndiv r n /\ stateMult m = ndiv r n).
Proof.
  intros Hz Hf. exists (multipliers vr region nat reg).
  split; [now apply cpiMultipliers_returns |].
  destruct (multipliers_invariant vr region nat reg) as [Hn Hs].
  repeat split; try assumption.
  - rewrite multipliers_neutral by assumption. reflexivity.
  - rewrite multipliers_neutral by assumption. reflexivity.
  - apply multipliers_ratio.
Qed.

End MultiplierFacts.

(** The two lookups of a first request from the West when the regional index
    reads 0. *)
Lemma west_lookups :
  fetch_pair (rt := integer_runtime) natId (regId "West") (outside 0 bls_regional_zero) world0
  = (Return (Some (Fin 310.3), Some (Fin 0)), west_world).
Proof. vm_compute. reflexivity. Qed.

(** The theorem at a request from 90210 when the regional index reads 0. *)
Lemma zero_reading_is_unavailable_witness :
  exists m,
    cpiMultipliers (rt := integer_runtime) Flat (VStr "90210")
      (outside 0 bls_regional_zero) world0 = (Return m, west_world) /\
    localMult m = Fin 1 /\ note m = unavailable_note Flat.
Proof.
  destruct (zero_reading_is_unavailable (rt := integer_runtime) Flat (VStr "90210")
              (outside 0 bls_regional_zero) world0 west_world "West"
              (Some (Fin 310.3)) (Some (Fin 0)) eq_refl west_lookups)
    as (m & H1 & H2 & _ & _ & H5 & _).
  - right. exists 0%Q. split; reflexivity.
  - exists m. auto.
Defined.

Lemma dearer_west_lookups :
  fetch_pair (rt := integer_runtime) natId (regId "West") (outside 0 bls_dearer_regions) world0
  = (Return (Some (Fin 300), Some (Fin 330.0)), dearer_west_world).
Proof. vm_compute. reflexivity. Qed.

(** The theorem at a request from 90210, once with a regional index of 0 and
    once with a national index of 300 and a regional index of 330. *)
Lemma cpiMultipliers_shape_witness :
  (exists m,
      cpiMultipliers (rt := integer_runtime) Flat (VStr "90210")
        (outside 0 bls_regional_zero) world0 = (Return m, west_world) /\
      localMult m = Fin 1 /\ stateMult m = Fin 1 /\ nationalMult m = Fin 1) /\
  (exists m,
      cpiMultipliers (rt := integer_runtime) Flat (VStr "90210")
        (outside 0 bls_dearer_regions) world0 = (Return m, dearer_west_world) /\
      localMult m = ndiv (Fin 330.0) (Fin 300) /\ stateMult m = localMult m /\
      nationalMult m = Fin 1 /\ num_eq (localMult m) (Fin 1.1)).
Proof.
  split.
  - destruct (cpiMultipliers_shape (rt := integer_runtime) Flat (VStr "90210")
                (outside 0 bls_regional_zero) world0 west_world "West"
                (Some (Fin 310.3)) (Some (Fin 0)) eq_refl west_lookups)
      as (m & H1 & _ & _ & H4 & _).
    exists m. split; [exact H1 |]. apply H4. right. right. right.
    exists 0%Q. split; reflexivity.
  - destruct (cpiMultipliers_shape (rt := integer_runtime) Flat (VStr "90210")
                (outside 0 bls_dearer_regions) world0 dearer_west_world "West"
                (Some (Fin 300)) (Some (Fin 330.0)) eq_refl dearer_west_lookups)
      as (m & H1 & H2 & H3 & _ & H5).
    destruct H5 as (n & r & [= <-] & [= <-] & H6 & _).
    + intros [H | [H | (q & [= <-] & H)]]; discriminate.
    + intros [H | [H | (q & [= <-] & H)]]; discriminate.
    + exists m. split; [exact H1 |]. split; [exact H6 |]. split; [exact H3 |].
      split; [exact H2 |]. rewrite H6. reflexivity.
Defined.

(** C8 as stated fails.  A request from the West finds the national index at
    310.3 and the regional index at 0; both values are there (neither is
    [null]), yet the local multiplier is 1 and not regional/national = 0. *)
Lemma cpiMultipliers_zero_counterexample :
  fetch_pair (rt := integer_runtime) natId (regId "West") (outside 0 bls_regional_zero) world0
  = (Return (Some (Fin 310.3), Some (Fin 0)), west_world) /\
  exists m,
    cpiMultipliers (rt := integer_runtime) Flat (VStr "90210")
      (outside 0 bls_regional_zero) world0 = (Return m, west_world) /\
    localMult m = Fin 1 /\
    num_eq (ndiv (Fin 0) (Fin 310.3)) (Fin 0) /\
    ~ num_eq (localMult m) (ndiv (Fin 0) (Fin 310.3)).
Proof.
  split; [exact west_lookups |].
  eexists. split; [vm_compute; reflexivity |].
  split; [reflexivity |]. split; [reflexivity |]. cbn. discriminate.
Qed.

(** ** Facts about the fetcher *)

Section FetcherFacts.
Context {rt : Runtime}.

(** What a call does when the cache holds a fresh entry. *)
Lemma fetchLatestCPI_hit (seriesId : string) (env : Env) (w : World) (c : CacheEntry) :
  cpiCache w !! ("cpi:" +:+ seriesId) = Some c ->
  clock env (reads w) - ts c < CACHE_MS ->
  fetchLatestCPI seriesId env w = (Return (value c), tick w).
Proof.
  intros Hc Ht. unfold fetchLatestCPI, fetch_start, mbind, Date_now, cache_get.
  cbn [cpiCache tick]. rewrite Hc. unfold fresh.
  destruct (Z.ltb_spec (clock env (reads w) - ts c) CACHE_MS) as [_ | H]; [| lia].
  reflexivity.
Qed.

(** What a call does when the cache holds no fresh entry. *)
Lemma fetchLatestCPI_miss (seriesId : string) (env : Env) (w : World) :
  fresh (clock env (reads w)) (cpiCache w !! ("cpi:" +:+ seriesId)) = false ->
  fetchLatestCPI seriesId env w =
    match bls env (List.length (calls w)) (request_of env w seriesId) with
    | NetFail e => (Throw e, in_flight env w seriesId)
    | Resp (JsonFail e) => (Throw e, in_flight env w seriesId)
    | Resp (JsonOk data) =>
        match parse_value data with
        | Throw e => (Throw e, in_flight env w seriesId)
        | Return v =>
            (Return v,
             store ("cpi:" +:+ seriesId) {| value := v; ts := clock env (reads w) |}
               (in_flight env w seriesId))
        end
    end.
Proof.
  intros Hf. unfold fetchLatestCPI, fetch_start, mbind, Date_now, cache_get.
  cbn [cpiCache tick].
  destruct (cpiCache w !! ("cpi:" +:+ seriesId)) as [c |] eqn:Hc; [rewrite Hf |];
    unfold issue_fetch, mbind, getFullYear, fetch, mret;
    cbn [reads tick calls]; fold (request_of env w seriesId);
    destruct (bls env (List.length (calls w)) (request_of env w seriesId))
      as [e | [e | data]]; reflexivity.
Qed.

Lemma fresh_false_stale (now : Z) (c : CacheEntry) :
  CACHE_MS <= now - ts c -> fresh now (Some c) = false.
Proof. intros H. unfold fresh. apply Z.ltb_ge. exact H. Qed.

(** The start of a call that finds no fresh entry: its request leaves. *)
Lemma fetch_start_miss (seriesId : string) (env : Env) (w : World) :
  fresh (clock env (reads w)) (cpiCache w !! ("cpi:" +:+ seriesId)) = false ->
  fetch_start seriesId env w =
    (Return (Pending ("cpi:" +:+ seriesId) (clock env (reads w))
               (bls env (List.length (calls w)) (request_of env w seriesId))),
     in_flight env w seriesId).
Proof.
  intros Hf. unfold fetch_start, mbind, Date_now, cache_get. cbn [cpiCache tick].
  destruct (cpiCache w !! ("cpi:" +:+ seriesId)) as [c |]; [rewrite Hf |]; reflexivity.
Qed.

(** Finishing calls sends nothing. *)
Lemma fetch_finish_calls (s : Started) (env : Env) (w : World) :
  calls (snd (fetch_finish s env w)) = calls w.
Proof.
  destruct s as [v | key now [e | [e | data]]]; cbn [fetch_finish]; try reflexivity.
  unfold mbind, lift, cache_set, mret.
  destruct (parse_value data); reflexivity.
Qed.

Lemma settle_both_calls (sa sb : Started) (env : Env) (w : World) :
  calls (snd (settle_both sa sb env w)) = calls w.
Proof.
  unfold settle_both. destruct (regional_first env).
  - pose proof (fetch_finish_calls sb env w) as Hb.
    destruct (fetch_finish sb env w) as [rb w1]. cbn [snd] in Hb.
    pose proof (fetch_finish_calls sa env w1) as Ha.
    destruct (fetch_finish sa env w1) as [ra w2]. cbn [snd] in Ha |- *. congruence.
  - pose proof (fetch_finish_calls sa env w) as Ha.
    destruct (fetch_finish sa env w) as [ra w1]. cbn [snd] in Ha.
    pose proof (fetch_finish_calls sb env w1) as Hb.
    destruct (fetch_finish sb env w1) as [rb w2]. cbn [snd] in Hb |- *. congruence.
Qed.

(** C5 as amended.  (1) A call made while the entry of its series is less
    than an hour old returns the cached value, [null] included, sends nothing
    and leaves the cache as it is.  (2) So a call that finds no fresh entry
    and whose response parses sends one request and stores the parsed value
    with the time it read, and a second call that starts once the first has
    returned, on the cache as the first left it, and reads the clock within
    the hour of that time sends none and returns the same value: one fetch
    for the two.  (3) A call made once the entry is an hour old sends a new
    request and, when the response parses, replaces the entry by the parsed
    value, [null] included, with the time it read.  (4) A call that raises
    leaves the cache as it was.  (5) Two calls for one series that are
    started together, as [Promise.all] starts the two lookups of
    [cpiMultipliers], do not share a request: when neither finds a fresh
    entry as it starts, each sends its own, two fetches in all. *)
Theorem cache_window (seriesId : string) :
  let key := "cpi:" +:+ seriesId in
  (forall env w c,
      cpiCache w !! key = Some c ->
      clock env (reads w) - ts c < CACHE_MS ->
      exists w',
        fetchLatestCPI seriesId env w = (Return (value c), w') /\
        calls w' = calls w /\ cpiCache w' = cpiCache w) /\
  (forall env w data v,
      fresh (clock env (reads w)) (cpiCache w !! key) = false ->
      bls env (List.length (calls w)) (request_of env w seriesId) = Resp (JsonOk data) ->
      parse_value data = Return v ->
      exists w1,
        fetchLatestCPI seriesId env w = (Return v, w1) /\
        calls w1 = calls w ++ [BlsFetch (request_of env w seriesId)] /\
        cpiCache w1 = <[key := {| value := v; ts := clock env (reads w) |}]> (cpiCache w) /\
        forall env2 w2,
          cpiCache w2 = cpiCache w1 ->
          clock env2 (reads w2) - clock env (reads w) < CACHE_MS ->
          exists w3,
            fetchLatestCPI seriesId env2 w2 = (Return v, w3) /\
            calls w3 = calls w2 /\ cpiCache w3 = cpiCache w2) /\
  (forall env w c,
      cpiCache w !! key = Some c ->
      CACHE_MS <= clock env (reads w) - ts c ->
      exists r w1,
        fetchLatestCPI seriesId env w = (r, w1) /\
        calls w1 = calls w ++ [BlsFetch (request_of env w seriesId)] /\
        forall data v,
          bls env (List.length (calls w)) (request_of env w seriesId) = Resp (JsonOk data) ->
          parse_value data = Return v ->
          r = Return v /\
          cpiCache w1 = <[key := {| value := v; ts := clock env (reads w) |}]> (cpiCache w)) /\
  (forall env w e w1,
      fetchLatestCPI seriesId env w = (Throw e, w1) -> cpiCache w1 = cpiCache w) /\
  (forall env w,
      let w1 := in_flight env w seriesId in
      fresh (clock env (reads w)) (cpiCache w !! key) = false ->
      fresh (clock env (reads w1)) (cpiCache w !! key) = false ->
      calls (snd (fetch_pair seriesId seriesId env w))
      = calls w ++ [BlsFetch (request_of env w seriesId);
                    BlsFetch (request_of env w1 seriesId)]).
Proof.
  intros key. split; [| split; [| split; [| split]]].
  - intros env w c Hc Ht. exists (tick w).
    split; [now apply fetchLatestCPI_hit |]. split; reflexivity.
  - intros env w data v Hf Hb Hp.
    rewrite (fetchLatestCPI_miss seriesId env w Hf), Hb, Hp.
    eexists. split; [reflexivity |]. split; [reflexivity |]. split; [reflexivity |].
    intros env2 w2 Hc Ht. exists (tick w2).
    split; [| split; reflexivity].
    rewrite (fetchLatestCPI_hit seriesId env2 w2
               {| value := v; ts := clock env (reads w) |}); [reflexivity | | exact Ht].
    rewrite Hc. cbn [cpiCache store]. apply lookup_insert_eq.
  - intros env w c Hc Ht.
    assert (Hf : fresh (clock env (reads w)) (cpiCache w !! key) = false).
    { rewrite Hc. now apply fresh_false_stale. }
    rewrite (fetchLatestCPI_miss seriesId env w Hf).
    destruct (bls env (List.length (calls w)) (request_of env w seriesId))
      as [e | [e | data]].
    + eexists _, _. split; [reflexivity |]. split; [reflexivity |]. intros; discriminate.
    + eexists _, _. split; [reflexivity |]. split; [reflexivity |]. intros; discriminate.
    + destruct (parse_value data) as [v |] eqn:Hp.
      * eexists _, _. split; [reflexivity |]. split; [reflexivity |].
        intros data' v' [= <-] Hp'. rewrite Hp in Hp'. injection Hp' as <-.
        split; reflexivity.
      * eexists _, _. split; [reflexivity |]. split; [reflexivity |].
        intros data' v' [= <-] Hp'. congruence.
  - intros env w e w1 H.
    destruct (fresh (clock env (reads w)) (cpiCache w !! key)) eqn:Hf.
    + unfold fresh in Hf. destruct (cpiCache w !! key) as [c |] eqn:Hc; [| discriminate].
      apply Z.ltb_lt in Hf. rewrite (fetchLatestCPI_hit seriesId env w c Hc Hf) in H.
      discriminate.
    + rewrite (fetchLatestCPI_miss seriesId env w Hf) in H.
      destruct (bls env (List.length (calls w)) (request_of env w seriesId))
        as [e' | [e' | data]].
      * injection H as _ <-. reflexivity.
      * injection H as _ <-. reflexivity.
      * destruct (parse_value data); [discriminate |].
        injection H as _ <-. reflexivity.
  - intros env w w1 Hf1 Hf2. unfold fetch_pair, mbind.
    rewrite (fetch_start_miss seriesId env w Hf1). fold w1.
    rewrite (fetch_start_miss seriesId env w1 Hf2).
    rewrite settle_both_calls. cbn. rewrite <- app_assoc. reflexivity.
Qed.

End FetcherFacts.

(** ** Facts about the access verifier *)

Lemma is_str_true (v : jsval) (lit : string) : is_str v lit = true <-> v = VStr lit.
Proof.
  destruct v; cbn; try (split; [discriminate | intros [=]]).
  rewrite String.eqb_eq. split; [intros -> | intros [= ->]]; reflexivity.
Qed.

Lemma member_opt (v : jsval) (k : string) :
  nullish v = false -> member v k = Return (opt_member v k).
Proof. destruct v; cbn; intros H; try discriminate; reflexivity. Qed.

Lemma falsy_no_member (v : jsval) (k : string) :
  ToBoolean v = false -> opt_member v k = VUndefined.
Proof. destruct v; cbn; intros H; try discriminate; reflexivity. Qed.

Lemma truthy_not_nullish (v : jsval) : ToBoolean v = true -> nullish v = false.
Proof. destruct v; cbn; intros H; try discriminate; reflexivity. Qed.

Section AccessFacts.
Context {rt : Runtime}.

Lemma paid_once_spec (s : jsval) :
  nullish s = false ->
  paid_once s = Return (is_str (opt_member s "mode") "payment"
                        && is_str (opt_member s "payment_status") "paid").
Proof.
  intros H. unfold paid_once. rewrite !member_opt by assumption. cbn [obind].
  destruct (is_str (opt_member s "mode") "payment"); reflexivity.
Qed.

Lemma subscribed_spec (s : jsval) :
  nullish s = false ->
  subscribed s = Return (is_str (opt_member s "mode") "subscription"
                         && is_str (opt_member s "status") "complete"
                         && ToBoolean (opt_member s "subscription")).
Proof.
  intros H. unfold subscribed. rewrite !member_opt by assumption. cbn [obind].
  destruct (is_str (opt_member s "mode") "subscription"); [| reflexivity].
  destruct (is_str (opt_member s "status") "complete"); reflexivity.
Qed.

Lemma live_spec (sub : jsval) :
  live sub = Return (is_str (opt_member sub "status") "active"
                     || is_str (opt_member sub "status") "trialing").
Proof.
  unfold live. destruct (ToBoolean sub) eqn:E.
  - rewrite !member_opt by now apply truthy_not_nullish. cbn [obind].
    destruct (is_str (opt_member sub "status") "active"); reflexivity.
  - rewrite (falsy_no_member sub "status" E). reflexivity.
Qed.

(** [verifyAccess] on a session that Stripe returned. *)
Lemma verifyAccess_retrieved (sessionId s : jsval) (env : Env) (w : World) :
  ToBoolean sessionId = true ->
  sessions_retrieve env sessionId = Return s ->
  nullish s = false ->
  verifyAccess sessionId env w =
    let w1 := log (SessionRetrieve sessionId) w in
    if is_str (opt_member s "mode") "payment"
       && is_str (opt_member s "payment_status") "paid"
    then (Return ok_once, w1)
    else if is_str (opt_member s "mode") "subscription"
            && is_str (opt_member s "status") "complete"
            && ToBoolean (opt_member s "subscription")
    then match ToString (opt_member s "subscription") with
         | Throw e => (Throw e, w1)
         | Return id =>
             let w2 := log (SubscriptionRetrieve id) w1 in
             match subscriptions_retrieve env id with
             | Throw e => (Throw e, w2)
             | Return sub =>
                 if is_str (opt_member sub "status") "active"
                    || is_str (opt_member sub "status") "trialing"
                 then (Return ok_sub, w2)
                 else (Return not_ok, w2)
             end
         end
    else (Return not_ok, w1).
Proof.
  intros Hid Hs Hn. unfold verifyAccess. rewrite Hid. cbn [negb].
  unfold mbind, stripe_sessions_retrieve, lift at 1. rewrite Hs.
  rewrite (paid_once_spec s Hn).
  destruct (is_str (opt_member s "mode") "payment"
            && is_str (opt_member s "payment_status") "paid"); [reflexivity |].
  unfold lift at 1. rewrite (subscribed_spec s Hn).
  destruct (is_str (opt_member s "mode") "subscription"
            && is_str (opt_member s "status") "complete"
            && ToBoolean (opt_member s "subscription")); [| reflexivity].
  unfold lift at 1. rewrite (member_opt s "subscription" Hn). cbn [obind].
  destruct (ToString (opt_member s "subscription")) as [id | e]; [| reflexivity].
  unfold stripe_subscriptions_retrieve.
  destruct (subscriptions_retrieve env id) as [sub | e]; [| reflexivity].
  unfold lift. rewrite (live_spec sub).
  destruct (is_str (opt_member sub "status") "active"
            || is_str (opt_member sub "status") "trialing"); reflexivity.
Qed.

Lemma verifyAccess_absent (sessionId : jsval) (env : Env) (w : World) :
  ToBoolean sessionId = false -> verifyAccess sessionId env w = (Return not_ok, w).
Proof. intros H. unfold verifyAccess. rewrite H. reflexivity. Qed.

Lemma verifyAccess_rejected (sessionId : jsval) (env : Env) (w : World) (e : exn) :
  ToBoolean sessionId = true ->
  sessions_retrieve env sessionId = Throw e ->
  verifyAccess sessionId env w = (Throw e, log (SessionRetrieve sessionId) w).
Proof.
  intros Hid Hs. unfold verifyAccess. rewrite Hid. cbn [negb].
  unfold mbind, stripe_sessions_retrieve. rewrite Hs. reflexivity.
Qed.

Lemma verifyAccess_nullish (sessionId s : jsval) (env : Env) (w : World) :
  ToBoolean sessionId = true ->
  sessions_retrieve env sessionId = Return s ->
  nullish s = true ->
  exists e, verifyAccess sessionId env w = (Throw e, log (SessionRetrieve sessionId) w).
Proof.
  intros Hid Hs Hn. unfold verifyAccess. rewrite Hid. cbn [negb].
  unfold mbind, stripe_sessions_retrieve, lift at 1. rewrite Hs.
  destruct s; try discriminate; cbn; eexists; reflexivity.
Qed.

Lemma one_time_paid_spec (s : jsval) :
  is_str (opt_member s "mode") "payment" && is_str (opt_member s "payment_status") "paid" = true
  <-> one_time_paid s.
Proof. unfold one_time_paid. rewrite andb_true_iff, !is_str_true. reflexivity. Qed.

Lemma subscription_complete_spec (s : jsval) :
  is_str (opt_member s "mode") "subscription" && is_str (opt_member s "status") "complete" = true
  <-> subscription_complete s.
Proof. unfold subscription_complete. rewrite andb_true_iff, !is_str_true. reflexivity. Qed.

Lemma active_or_trialing_spec (sub : jsval) :
  is_str (opt_member sub "status") "active" || is_str (opt_member sub "status") "trialing" = true
  <-> active_or_trialing sub.
Proof. unfold active_or_trialing. rewrite orb_true_iff, !is_str_true. reflexivity. Qed.

Lemma one_time_not_subscription (s : jsval) :
  one_time_paid s -> subscription_complete s -> False.
Proof. intros [H _] [H' _]. congruence. Qed.

End AccessFacts.

Lemma has_member_not_nullish (s : jsval) (k x : string) :
  opt_member s k = VStr x -> nullish s = false.
Proof. destruct s; cbn; intros H; try discriminate; reflexivity. Qed.

Section AccessTheorem.
Context {rt : Runtime}.

(** C3.  Without a session id [verifyAccess] answers not-ok at once and
    calls nothing.  It answers ok exactly when the session it retrieved is a
    one-time payment session marked paid, or a subscription-mode session
    with status "complete" whose linked subscription, retrieved by a second
    call, is active or trialing.  For every other retrieved session, and
    every other retrieved subscription, it answers not-ok. *)
Theorem verifyAccess_ok_exactly (sessionId : jsval) (env : Env) (w : World) :
  (ToBoolean sessionId = false ->
     verifyAccess sessionId env w = (Return not_ok, w)) /\
  ((exists a w', verifyAccess sessionId env w = (Return a, w') /\ ok a = true) <->
   (ToBoolean sessionId = true /\
    exists s, sessions_retrieve env sessionId = Return s /\
      (one_time_paid s \/
       (subscription_complete s /\
        exists id sub, links_to s id /\
          subscriptions_retrieve env id = Return sub /\ active_or_trialing sub)))) /\
  (forall s,
     ToBoolean sessionId = true ->
     sessions_retrieve env sessionId = Return s ->
     nullish s = false ->
     let w1 := log (SessionRetrieve sessionId) w in
     (one_time_paid s -> verifyAccess sessionId env w = (Return ok_once, w1)) /\
     (~ one_time_paid s ->
      ~ (subscription_complete s /\ ToBoolean (opt_member s "subscription") = true) ->
      verifyAccess sessionId env w = (Return not_ok, w1)) /\
     (forall id sub,
        subscription_complete s -> links_to s id ->
        subscriptions_retrieve env id = Return sub ->
        let w2 := log (SubscriptionRetrieve id) w1 in
        (active_or_trialing sub -> verifyAccess sessionId env w = (Return ok_sub, w2)) /\
        (~ active_or_trialing sub -> verifyAccess sessionId env w = (Return not_ok, w2)))).
Proof.
  assert (Hret : forall s,
     ToBoolean sessionId = true ->
     sessions_retrieve env sessionId = Return s ->
     nullish s = false ->
     let w1 := log (SessionRetrieve sessionId) w in
     (one_time_paid s -> verifyAccess sessionId env w = (Return ok_once, w1)) /\
     (~ one_time_paid s ->
      ~ (subscription_complete s /\ ToBoolean (opt_member s "subscription") = true) ->
      verifyAccess sessionId env w = (Return not_ok, w1)) /\
     (forall id sub,
        subscription_complete s -> links_to s id ->
        subscriptions_retrieve env id = Return sub ->
        let w2 := log (SubscriptionRetrieve id) w1 in
        (active_or_trialing sub -> verifyAccess sessionId env w = (Return ok_sub, w2)) /\
        (~ active_or_trialing sub -> verifyAccess sessionId env w = (Return not_ok, w2)))).
  { intros s Hid Hs Hn w1.
    rewrite (verifyAccess_retrieved sessionId s env w Hid Hs Hn). cbv zeta. fold w1.
    split; [| split].
    - intros H. apply one_time_paid_spec in H. rewrite H. reflexivity.
    - intros H1 H2.
      destruct (is_str (opt_member s "mode") "payment"
                && is_str (opt_member s "payment_status") "paid") eqn:E1;
        [apply one_time_paid_spec in E1; contradiction |].
      destruct (is_str (opt_member s "mode") "subscription"
                && is_str (opt_member s "status") "complete") eqn:E2; [| reflexivity].
      destruct (ToBoolean (opt_member s "subscription")) eqn:E3; [| reflexivity].
      exfalso. apply H2. split; [now apply subscription_complete_spec | reflexivity].
    - intros id sub Hc [Hl1 Hl2] Hsub.
      destruct (is_str (opt_member s "mode") "payment"
                && is_str (opt_member s "payment_status") "paid") eqn:E1.
      { apply one_time_paid_spec in E1.
        destruct (one_time_not_subscription s E1 Hc). }
      apply subscription_complete_spec in Hc. rewrite Hc, Hl1, Hl2, Hsub. cbn [andb].
      split; intros H.
      + apply active_or_trialing_spec in H. rewrite H. reflexivity.
      + destruct (is_str (opt_member sub "status") "active"
                  || is_str (opt_member sub "status") "trialing") eqn:E; [| reflexivity].
        apply active_or_trialing_spec in E. contradiction. }
  split; [apply verifyAccess_absent |]. split; [| exact Hret].
  split.
  - intros (a & w' & Hv & Hok).
    destruct (ToBoolean sessionId) eqn:Hid.
    2:{ rewrite (verifyAccess_absent sessionId env w Hid) in Hv.
        injection Hv as <- _. discriminate. }
    split; [reflexivity |].
    destruct (sessions_retrieve env sessionId) as [s | e] eqn:Hs.
    2:{ rewrite (verifyAccess_rejected sessionId env w e Hid Hs) in Hv. discriminate. }
    exists s. split; [reflexivity |].
    destruct (nullish s) eqn:Hn.
    { destruct (verifyAccess_nullish sessionId s env w Hid Hs Hn) as (e & He).
      rewrite He in Hv. discriminate. }
    rewrite (verifyAccess_retrieved sessionId s env w Hid Hs Hn) in Hv. cbv zeta in Hv.
    destruct (is_str (opt_member s "mode") "payment"
              && is_str (opt_member s "payment_status") "paid") eqn:E1.
    { left. now apply one_time_paid_spec. }
    destruct (is_str (opt_member s "mode") "subscription"
              && is_str (opt_member s "status") "complete") eqn:E2;
      [| injection Hv as <- _; discriminate].
    destruct (ToBoolean (opt_member s "subscription")) eqn:E3;
      [| injection Hv as <- _; discriminate].
    cbn [andb] in Hv.
    destruct (ToString (opt_member s "subscription")) as [id | e] eqn:E4;
      [| discriminate].
    destruct (subscriptions_retrieve env id) as [sub | e] eqn:E5; [| discriminate].
    destruct (is_str (opt_member sub "status") "active"
              || is_str (opt_member sub "status") "trialing") eqn:E6;
      [| injection Hv as <- _; discriminate].
    right. split; [now apply subscription_complete_spec |].
    exists id, sub. split; [split; assumption |]. split; [exact E5 |].
    now apply active_or_trialing_spec.
  - intros (Hid & s & Hs & Hcase).
    assert (Hn : nullish s = false).
    { destruct Hcase as [[H _] | [[H _] _]]; exact (has_member_not_nullish _ _ _ H). }
    destruct (Hret s Hid Hs Hn) as (H1 & _ & H3).
    destruct Hcase as [Hp | (Hc & id & sub & Hl & Hsub & Ha)].
    + exists ok_once. eexists. split; [apply H1, Hp | reflexivity].
    + exists ok_sub. eexists. split; [apply (H3 id sub Hc Hl Hsub), Ha | reflexivity].
Qed.

End AccessTheorem.

(** The theorem at a completed subscription session, at an unpaid one-time
    session and at an absent session id. *)
Lemma verifyAccess_ok_exactly_witness :
  verifyAccess (rt := integer_runtime) (VStr "cs_sub") (with_stripe (outside 0 bls_flat)) world0
  = (Return ok_sub,
     log (SubscriptionRetrieve "sub_1") (log (SessionRetrieve (VStr "cs_sub")) world0)) /\
  verifyAccess (rt := integer_runtime) (VStr "cs_open") (with_stripe (outside 0 bls_flat)) world0
  = (Return not_ok, log (SessionRetrieve (VStr "cs_open")) world0) /\
  verifyAccess (rt := integer_runtime) VUndefined (with_stripe (outside 0 bls_flat)) world0
  = (Return not_ok, world0).
Proof.
  split; [| split].
  - destruct (verifyAccess_ok_exactly (rt := integer_runtime) (VStr "cs_sub")
                (with_stripe (outside 0 bls_flat)) world0) as (_ & _ & H).
    destruct (H _ eq_refl eq_refl eq_refl) as (_ & _ & H3).
    apply (H3 "sub_1" _ (conj eq_refl eq_refl) (conj eq_refl eq_refl) eq_refl).
    left. reflexivity.
  - destruct (verifyAccess_ok_exactly (rt := integer_runtime) (VStr "cs_open")
                (with_stripe (outside 0 bls_flat)) world0) as (_ & _ & H).
    destruct (H _ eq_refl eq_refl eq_refl) as (_ & H2 & _).
    apply H2; intros [H1 H1']; discriminate.
  - destruct (verifyAccess_ok_exactly (rt := integer_runtime) VUndefined
                (with_stripe (outside 0 bls_flat)) world0) as (H & _).
    apply H. reflexivity.
Defined.

(** ** Facts about the handler *)

Section HandlerFacts.
Context {rt : Runtime}.

Lemma handler_post (vr : Edition) (req : Request) (env : Env) (w : World) :
  method req = "POST" ->
  handler vr req env w =
    match handler_try vr req env w with
    | (Return r, w') => (r, w')
    | (Throw e, w') =>
        ({| status := 500; json := ErrorBody "Server error" (Some (exn_detail e)) |}, w')
    end.
Proof. intros H. unfold handler. rewrite H. reflexivity. Qed.

(** The handler up to the point where the preview and the full mode part. *)
Lemma handler_try_classified (vr : Edition) (req : Request) (env : Env) (w w1 : World)
    (p b : num) (cpi : Multipliers) (base : jsval) :
  ToNumber (field req "price") = Return p ->
  negb (havePrice p) && negb (is_str (field req "mode") "full") = false ->
  cpiMultipliers vr (field req "zip") env w = (Return cpi, w1) ->
  baseMedian vr (field req "category") (scale_of req) = Return base ->
  ToNumber base = Return b ->
  handler_try vr req env w =
    let localMedian := nmul b (localMult cpi) in
    let cls := classify p localMedian in
    if negb (is_str (field req "mode") "full") then
      (Return {| status := 200;
                 json := SignalBody (label cls) (score cls)
                           (preview_message vr (label cls)) |}, w1)
    else
      match verifyAccess (field req "session_id") env w1 with
      | (Return acc, w2) =>
          if negb (ok acc) then (Return payment_required, w2)
          else (Return {| status := 200;
                          json := ReportBody (label cls) (score cls) (access acc)
                                    (full_report_of vr cpi localMedian cls) |}, w2)
      | (Throw e, w2) => (Throw e, w2)
      end.
Proof.
  intros Hp Hgate Hcpi Hbase Hb. unfold handler_try, mbind, lift at 1.
  rewrite Hp, Hgate, Hcpi. unfold lift. rewrite Hbase, Hb. cbv zeta.
  destruct (negb (is_str (field req "mode") "full")); [reflexivity |].
  destruct (verifyAccess (field req "session_id") env w1) as [[acc | e] w2]; [| reflexivity].
  destruct (negb (ok acc)); reflexivity.
Qed.


(** C4 as amended.  In full mode, when the price coercion, the index lookup
    and the median lookup all complete and [verifyAccess] answers not-ok
    (as it does for an absent session id), the handler answers 403 with no
    more than an error text.  And whatever happens, a response that carries
    a full report was preceded by a [verifyAccess] that answered ok. *)
Theorem full_mode_gate (vr : Edition) (req : Request) (env : Env) (w : World) :
  method req = "POST" ->
  is_str (field req "mode") "full" = true ->
  (forall p cpi w1 base b acc w2,
      ToNumber (field req "price") = Return p ->
      cpiMultipliers vr (field req "zip") env w = (Return cpi, w1) ->
      baseMedian vr (field req "category") (scale_of req) = Return base ->
      ToNumber base = Return b ->
      verifyAccess (field req "session_id") env w1 = (Return acc, w2) ->
      ok acc = false ->
      handler vr req env w = (payment_required, w2) /\
      status payment_required = 403 /\
      json payment_required = ErrorBody "Payment required." None) /\
  (has_full_report (fst (handler vr req env w)) = true ->
   ToBoolean (field req "session_id") = true /\
   exists w1 acc w2,
     verifyAccess (field req "session_id") env w1 = (Return acc, w2) /\ ok acc = true).
Proof.
  intros Hm Hmode. rewrite (handler_post vr req env w Hm). split.
  - intros p cpi w1 base b acc w2 Hp Hcpi Hbase Hb Hacc Hok.
    rewrite (handler_try_classified vr req env w w1 p b cpi base Hp
               ltac:(rewrite Hmode; apply andb_false_r) Hcpi Hbase Hb).
    cbv zeta. rewrite Hmode, Hacc, Hok. cbn. repeat split.
  - unfold handler_try, mbind, lift at 1.
    destruct (ToNumber (field req "price")) as [p | e]; [| discriminate].
    rewrite Hmode. cbn [negb andb]. rewrite andb_false_r.
    destruct (cpiMultipliers vr (field req "zip") env w) as [[cpi | e] w1]; [| discriminate].
    unfold lift.
    destruct (baseMedian vr (field req "category") (scale_of req)) as [base | e];
      [| discriminate].
    destruct (ToNumber base) as [b | e]; [| discriminate].
    destruct (verifyAccess (field req "session_id") env w1) as [[acc | e] w2] eqn:Hacc;
      [| discriminate].
    destruct (ok acc) eqn:Hok; cbn [negb]; [| discriminate].
    intros _. split.
    + destruct (ToBoolean (field req "session_id")) eqn:Hid; [reflexivity |].
      rewrite (verifyAccess_absent _ env w1 Hid) in Hacc. injection Hacc as <- _.
      discriminate.
    + exists w1, acc, w2. split; [exact Hacc | exact Hok].
Qed.

End HandlerFacts.

Section IndexFailure.
Context {rt : Runtime}.

Lemma parse_value_none (data : jsval) :
  ToBoolean (first_value data) = false -> parse_value data = Return None.
Proof. intros H. unfold parse_value. rewrite H. reflexivity. Qed.

(** C1 as amended.  A call of [fetchLatestCPI] that has to fetch raises
    exactly when the request fails, when the body is not JSON, or when the
    coercion of the value raises, and then it raises that very exception.
    When the body is JSON without a first value it returns [null] and caches
    it; when the first value is there, it returns and caches what [Number]
    makes of it.  When both lookups of a request return and one of them is
    [null], NaN or zero, [cpiMultipliers] returns the neutral multipliers.  A
    POST request in preview mode whose price coerces to a positive number and
    whose lookups return is answered with status 200 and the signal of
    [classify] whenever its category can be coerced to a property name: the
    median lookup and the coercion of the median then never raise.  When
    that coercion raises, and when a lookup raises, the handler answers 500
    with the text of the exception. *)
Theorem index_failure_modes :
  (forall seriesId env w,
      fresh (clock env (reads w)) (cpiCache w !! ("cpi:" +:+ seriesId)) = false ->
      let res := bls env (List.length (calls w)) (request_of env w seriesId) in
      (forall e,
          fst (fetchLatestCPI seriesId env w) = Throw e <->
          (res = NetFail e \/ res = Resp (JsonFail e) \/
           exists data, res = Resp (JsonOk data) /\ parse_value data = Throw e)) /\
      (forall data,
          res = Resp (JsonOk data) ->
          ToBoolean (first_value data) = false ->
          fetchLatestCPI seriesId env w =
            (Return None,
             store ("cpi:" +:+ seriesId) {| value := None; ts := clock env (reads w) |}
               (in_flight env w seriesId))) /\
      (forall data n,
          res = Resp (JsonOk data) ->
          ToBoolean (first_value data) = true ->
          ToNumber (first_value data) = Return n ->
          fetchLatestCPI seriesId env w =
            (Return (Some n),
             store ("cpi:" +:+ seriesId) {| value := Some n; ts := clock env (reads w) |}
               (in_flight env w seriesId)))) /\
  (forall vr zip env w w' region nat reg,
      regionFromZip zip = Return region ->
      fetch_pair natId (regId region) env w = (Return (nat, reg), w') ->
      no_reading nat \/ no_reading reg ->
      cpiMultipliers vr zip env w = (Return (neutral vr region), w')) /\
  (forall vr req env w w' p cpi key,
      method req = "POST" ->
      is_str (field req "mode") "full" = false ->
      ToNumber (field req "price") = Return p ->
      havePrice p = true ->
      cpiMultipliers vr (field req "zip") env w = (Return cpi, w') ->
      ToString (field req "category") = Return key ->
      exists base b,
        baseMedian vr (field req "category") (scale_of req) = Return base /\
        ToNumber base = Return b /\
        let cls := classify p (nmul b (localMult cpi)) in
        handler vr req env w =
          ({| status := 200;
              json := SignalBody (label cls) (score cls) (preview_message vr (label cls)) |},
           w')) /\
  (forall vr req env w w' p cpi e,
      method req = "POST" ->
      ToNumber (field req "price") = Return p ->
      negb (havePrice p) && negb (is_str (field req "mode") "full") = false ->
      cpiMultipliers vr (field req "zip") env w = (Return cpi, w') ->
      ToString (field req "category") = Throw e ->
      handler vr req env w = (server_error (exn_detail e), w')) /\
  (forall vr req env w w' p e,
      method req = "POST" ->
      ToNumber (field req "price") = Return p ->
      negb (havePrice p) && negb (is_str (field req "mode") "full") = false ->
      cpiMultipliers vr (field req "zip") env w = (Throw e, w') ->
      handler vr req env w = (server_error (exn_detail e), w')).
Proof.
  split; [| split; [| split; [| split]]].
  - intros seriesId env w Hf res. subst res.
    rewrite (fetchLatestCPI_miss seriesId env w Hf). split.
    + intros e.
      destruct (bls env (List.length (calls w)) (request_of env w seriesId))
        as [e' | [e' | data]]; cbn [fst].
      * split; [intros [= ->]; auto |].
        intros [[= ->] | [H | (d & H & _)]]; [reflexivity | discriminate | discriminate].
      * split; [intros [= ->]; auto |].
        intros [H | [[= ->] | (d & H & _)]]; [discriminate | reflexivity | discriminate].
      * destruct (parse_value data) as [v | e'] eqn:Hp; cbn [fst].
        -- split; [discriminate |].
           intros [H | [H | (d & [= <-] & H)]]; [discriminate | discriminate | congruence].
        -- split; [intros [= ->]; right; right; eauto |].
           intros [H | [H | (d & [= <-] & H)]]; [discriminate | discriminate | congruence].
    + split.
      * intros data Hb Hv. rewrite Hb, (parse_value_none data Hv). reflexivity.
      * intros data n Hb Hv Hn. rewrite Hb. unfold parse_value. rewrite Hv, Hn.
        reflexivity.
  - intros vr zip env w w' region nat reg Hz Hp Hnone.
    rewrite (cpiMultipliers_returns vr zip env w w' region nat reg Hz Hp).
    rewrite multipliers_neutral; [reflexivity | exact Hnone].
  - intros vr req env w w' p cpi key Hm Hmode Hp Hh Hcpi Hk.
    destruct (baseMedian_returns vr (field req "category") (scale_of req) key Hk)
      as (base & b & Hbase & Hb).
    exists base, b. split; [exact Hbase |]. split; [exact Hb |].
    rewrite (handler_post vr req env w Hm).
    rewrite (handler_try_classified vr req env w w' p b cpi base Hp
               ltac:(rewrite Hh; reflexivity) Hcpi Hbase Hb).
    cbv zeta. rewrite Hmode. reflexivity.
  - intros vr req env w w' p cpi e Hm Hp Hgate Hcpi Hk.
    rewrite (handler_post vr req env w Hm).
    unfold handler_try, mbind, lift at 1. rewrite Hp, Hgate, Hcpi.
    unfold lift. rewrite (baseMedian_throws vr _ _ e Hk). reflexivity.
  - intros vr req env w w' p e Hm Hp Hgate Hcpi.
    rewrite (handler_post vr req env w Hm).
    unfold handler_try, mbind, lift at 1. rewrite Hp, Hgate, Hcpi. reflexivity.
Qed.

End IndexFailure.

(** C1 as stated fails.  With the BLS endpoint out of reach the request of
    [fetchLatestCPI] is rejected, the call raises instead of returning
    [null], and the handler answers the preview request with status 500 in
    both editions.  (A value that is no numeral, such as the dash that BLS
    prints for a missing month, is returned as NaN and not as [null].) *)
Lemma fetch_rejection_counterexample :
  fetchLatestCPI (rt := integer_runtime) "CUUR0000SA0" (outside 0 bls_down) world0
  = (Throw (Exn "fetch failed"), in_flight (outside 0 bls_down) world0 "CUUR0000SA0") /\
  fst (fetchLatestCPI (rt := integer_runtime) "CUUR0000SA0" (outside 0 bls_dash) world0)
  = Return (Some NaN) /\
  fst (handler (rt := integer_runtime) Flat preview_request (outside 0 bls_down) world0)
  = server_error "fetch failed" /\
  fst (handler (rt := integer_runtime) Scaled preview_request (outside 0 bls_down) world0)
  = server_error "fetch failed".
Proof. repeat split. Qed.

(** The theorem at a first call that BLS answers without any series, at the
    preview request of the examples while every index reads 310.3, and at a
    preview request whose category is the object [{"toString": null}]. *)
Lemma index_failure_modes_witness :
  fetchLatestCPI (rt := integer_runtime) "CUUR0000SA0" (outside 0 bls_empty) world0
  = (Return None,
     store "cpi:CUUR0000SA0" {| value := None; ts := 0 |}
       (in_flight (outside 0 bls_empty) world0 "CUUR0000SA0")) /\
  status (fst (handler (rt := integer_runtime) Flat preview_request
                 (outside 0 bls_flat) world0)) = 200 /\
  fst (handler (rt := integer_runtime) Flat odd_category_request
         (outside 0 bls_flat) world0)
  = server_error "Cannot convert object to primitive value".
Proof.
  destruct (index_failure_modes (rt := integer_runtime)) as (H & _ & H3 & H4 & _).
  split; [| split].
  - destruct (H "CUUR0000SA0" (outside 0 bls_empty) world0 eq_refl) as (_ & H2 & _).
    exact (H2 _ eq_refl eq_refl).
  - destruct (H3 Flat preview_request (outside 0 bls_flat) world0
                (snd (cpiMultipliers (rt := integer_runtime) Flat (VStr "90210")
                        (outside 0 bls_flat) world0))
                (Fin 2800)
                (multipliers Flat "West" (Some (Fin 310.3)) (Some (Fin 310.3)))
                "Auto (repair/body)"
                eq_refl eq_refl eq_refl eq_refl eq_refl eq_refl)
      as (base & b & _ & _ & E).
    rewrite E. reflexivity.
  - rewrite (H4 Flat odd_category_request (outside 0 bls_flat) world0
               (snd (cpiMultipliers (rt := integer_runtime) Flat (VStr "90210")
                       (outside 0 bls_flat) world0))
               (Fin 2800)
               (multipliers Flat "West" (Some (Fin 310.3)) (Some (Fin 310.3)))
               (TypeError "Cannot convert object to primitive value")
               eq_refl eq_refl eq_refl eq_refl eq_refl).
    reflexivity.
Defined.

(** C4 as stated fails.  A full-mode request without a session id, sent
    while the BLS endpoint is out of reach, is answered with status 500 and
    not with 403. *)
Lemma full_mode_counterexample :
  ToBoolean (field (full_request VUndefined) "session_id") = false /\
  fst (handler (rt := integer_runtime) Flat (full_request VUndefined)
         (outside 0 bls_down) world0)
  = server_error "fetch failed" /\
  status (server_error "fetch failed") <> 403.
Proof. repeat split. discriminate. Qed.

(** The theorem at a full-mode request with an unpaid session, and at one
    without a session id, while BLS answers. *)
Lemma full_mode_gate_witness :
  fst (handler (rt := integer_runtime) Flat (full_request (VStr "cs_open"))
         (with_stripe (outside 0 bls_flat)) world0) = payment_required /\
  fst (handler (rt := integer_runtime) Flat (full_request VUndefined)
         (with_stripe (outside 0 bls_flat)) world0) = payment_required.
Proof.
  split.
  - destruct (full_mode_gate (rt := integer_runtime) Flat (full_request (VStr "cs_open"))
                (with_stripe (outside 0 bls_flat)) world0 eq_refl eq_refl) as [H _].
    edestruct H as (E & _); [reflexivity .. | rewrite E; reflexivity].
  - destruct (full_mode_gate (rt := integer_runtime) Flat (full_request VUndefined)
                (with_stripe (outside 0 bls_flat)) world0 eq_refl eq_refl) as [H _].
    edestruct H as (E & _); [reflexivity .. | rewrite E; reflexivity].
Defined.



(** The theorem at a first call that caches [null] and a second call one
    millisecond before the hour is over, and at two calls for the national
    series that start together on an empty cache. *)
Lemma cache_window_witness :
  (exists w1,
      fetchLatestCPI (rt := integer_runtime) "CUUR0000SA0" (outside 0 bls_empty) world0
      = (Return None, w1) /\
      calls w1 = [BlsFetch (request_of (outside 0 bls_empty) world0 "CUUR0000SA0")] /\
      exists w2,
        fetchLatestCPI (rt := integer_runtime) "CUUR0000SA0" (outside 3599999 bls_flat) w1
        = (Return None, w2) /\ calls w2 = calls w1) /\
  List.length
    (calls (snd (fetch_pair (rt := integer_runtime) "CUUR0000SA0" "CUUR0000SA0"
                   (outside 0 bls_flat) world0))) = 2%nat.
Proof.
  destruct (cache_window (rt := integer_runtime) "CUUR0000SA0") as (_ & H & _ & _ & Htwin).
  split.
  - destruct (H (outside 0 bls_empty) world0 _ None eq_refl eq_refl eq_refl)
      as (w1 & H1 & H2 & H3 & H4).
    exists w1. split; [exact H1 |]. split; [exact H2 |].
    destruct (H4 (outside 3599999 bls_flat) w1 eq_refl) as (w2 & H5 & H6 & _).
    + reflexivity.
    + exists w2. split; assumption.
  - rewrite (Htwin (outside 0 bls_flat) world0 eq_refl eq_refl). reflexivity.
Defined.

(** C5 as stated fails.  The first call finds the BLS endpoint out of reach
    and raises, so nothing is cached; the second call, one second later and so
    well within the hour, sends a request of its own: two calls, two
    fetches. *)
Lemma cache_rejection_counterexample :
  let first := fetchLatestCPI (rt := integer_runtime) "CUUR0000SA0"
                 (outside 0 bls_down) world0 in
  let second := fetchLatestCPI (rt := integer_runtime) "CUUR0000SA0"
                  (outside 1000 bls_flat) (snd first) in
  1000 - 0 < CACHE_MS /\
  fst first = Throw (Exn "fetch failed") /\
  cpiCache (snd first) = cpiCache world0 /\
  fst second = Return (Some (Fin 310.3)) /\
  calls (snd second)
  = [ BlsFetch {| seriesid := "CUUR0000SA0"; startyear := 2022; endyear := 2024 |};
      BlsFetch {| seriesid := "CUUR0000SA0"; startyear := 2022; endyear := 2024 |} ].
Proof. repeat split. Qed.

(** ** Further facts: labels on every number, regions, an end-to-end run *)

(** The label on every pair of numbers, NaN and the infinities included. *)
Lemma classify_label_any (price median : num) :
  let c := classify price median in
  (label c = "under" <-> nlt (ratio c) (Fin 0.9) = true) /\
  (label c = "over" <-> ngt (ratio c) (Fin 1.15) = true) /\
  (label c = "fair" <-> nlt (ratio c) (Fin 0.9) = false /\ ngt (ratio c) (Fin 1.15) = false).
Proof.
  cbv zeta. unfold classify. cbn [label ratio].
  set (r := ndiv price median).
  assert (H : ngt r (Fin 1.15) = true -> nlt r (Fin 0.9) = false).
  { destruct r as [| | q |]; cbn; try reflexivity; try discriminate.
    fold (Qltb 1.15 q). fold (Qltb q 0.9). rewrite Qltb_lt, Qltb_ge. lra. }
  destruct (nlt r (Fin 0.9)) eqn:E1; destruct (ngt r (Fin 1.15)) eqn:E2;
    try (specialize (H eq_refl); discriminate);
    repeat split; try discriminate; try reflexivity; try (intros [? ?]; discriminate).
Qed.

Section RegionFacts.
Context {rt : Runtime}.

(** A postal code that is a string always has a region, one of the five. *)
Lemma regionFromZip_string (zip : string) :
exists region,
  regionFromZip (VStr zip) = Return region /\
  In region ["National"; "Northeast"; "South"; "Midwest"; "West"].
Proof.
destruct zip as [| c rest].
- exists "National". split; [reflexivity | cbn; auto].
- unfold regionFromZip. cbn [ToBoolean String.eqb negb length_of ToNumber obind].
  assert (E : nlt (Fin (inject_Z (Z.of_nat (String.length (String c rest))))) (Fin 1) = false).
  { rewrite nlt_Fin. apply Qltb_ge. unfold Qle. cbn [Qnum Qden inject_Z String.length]. lia. }
  rewrite E. cbn [first_of].
  destruct (includes ["0"; "1"; "2"] (VStr (String c EmptyString)));
    [eexists; split; [reflexivity | cbn; auto] |].
  destruct (includes ["3"; "4"; "5"] (VStr (String c EmptyString)));
    [eexists; split; [reflexivity | cbn; auto] |].
  destruct (includes ["6"; "7"] (VStr (String c EmptyString)));
    [eexists; split; [reflexivity | cbn; auto] |].
  destruct (includes ["8"; "9"] (VStr (String c EmptyString)));
    eexists; (split; [reflexivity | cbn; auto 6]).
Qed.

End RegionFacts.

Example regionFromZip_examples :
  regionFromZip (rt := integer_runtime) (VStr "02139") = Return "Northeast" /\
  regionFromZip (rt := integer_runtime) (VStr "90210") = Return "West" /\
  regionFromZip (rt := integer_runtime) (VStr "") = Return "National" /\
  regionFromZip (rt := integer_runtime) (VStr "55555") = Return "South" /\
  regionFromZip (rt := integer_runtime) (VStr "60601") = Return "Midwest" /\
  regionFromZip (rt := integer_runtime) VUndefined = Return "National".
Proof. repeat split. Qed.

(** A preview of a 2800 quote for a car repair in 90210 while BLS returns no
    series: neutral multipliers, a median of 1400, a ratio of 2, the label
    "over" and the score 1, and no figure in the response. *)
Example preview_end_to_end :
  fst (handler (rt := integer_runtime) Scaled preview_request (outside 0 bls_empty) world0)
  = {| status := 200;
       json := SignalBody "over" (Fin 1) (preview_message Scaled "over") |}.
Proof. reflexivity. Qed.

(** A request without a postal code asks for the national series twice: both
    calls of [Promise.all] look at the cache before either has filled it. *)
Example national_request_fetches_twice :
  calls (snd (handler (rt := integer_runtime) Flat
                (post [ ("price", VNum (Fin 2800)) ]%string) (outside 0 bls_flat) world0))
  = [ BlsFetch {| seriesid := "CUUR0000SA0"; startyear := 2022; endyear := 2024 |};
      BlsFetch {| seriesid := "CUUR0000SA0"; startyear := 2022; endyear := 2024 |} ].
Proof. reflexivity. Qed.

(** A paid full-mode request while every index reads 310.3: the report. *)
Example paid_full_report :
  fst (handler (rt := integer_runtime) Flat (full_request (VStr "cs_sub"))
         (with_stripe (outside 0 bls_flat)) world0)
  = {| status := 200;
       json := ReportBody "over" (Fin 1) (Some "sub")
         {| market_comparison :=
              "Local (West) baseline is ~0% higher than national (CPI-adjusted). State baseline is approximated from region.";
            estimated_margin := marginEstimate (Fin 2);
            price_range := "Estimated fair range (local): ~$1190 – $1680";
            tips := tipsFor Flat "over";
            data_note :=
              "Data note: Adjusted using BLS CPI (region vs national). Source: U.S. Bureau of Labor Statistics CPI via Public Data API." |} |}.
Proof. vm_compute. reflexivity. Qed.

(** ** Regions *)

Section RegionTheorems.
Context {rt : Runtime}.

(** On a non-empty string the region is read off the first character. *)
Lemma regionFromZip_cascade (c : ascii) (rest : string) :
  regionFromZip (VStr (String c rest)) =
  let d := VStr (String c EmptyString) in
  Return (if includes ["0"; "1"; "2"] d then "Northeast"
          else if includes ["3"; "4"; "5"] d then "South"
          else if includes ["6"; "7"] d then "Midwest"
          else if includes ["8"; "9"] d then "West"
          else "National").
Proof.
  unfold regionFromZip. cbn [ToBoolean String.eqb negb length_of ToNumber obind].
  assert (E : nlt (Fin (inject_Z (Z.of_nat (String.length (String c rest))))) (Fin 1) = false).
  { rewrite nlt_Fin. apply Qltb_ge. unfold Qle. cbn [Qnum Qden inject_Z String.length]. lia. }
  rewrite E. cbn [first_of]. cbv zeta.
  destruct (includes ["0"; "1"; "2"] _); [reflexivity |].
  destruct (includes ["3"; "4"; "5"] _); [reflexivity |].
  destruct (includes ["6"; "7"] _); [reflexivity |].
  destruct (includes ["8"; "9"] _); reflexivity.
Qed.

(** X1.  On a string, [regionFromZip] never raises and looks at the first
    character only: 0, 1, 2 give Northeast; 3, 4, 5 give South; 6, 7 give
    Midwest; 8, 9 give West; any other first character, and the empty
    string, give National.  What follows the first character is not read. *)
Theorem regionFromZip_first_character :
  regionFromZip (VStr "") = Return "National" /\
  forall (c : ascii) (rest : string),
  exists region,
    regionFromZip (VStr (String c rest)) = Return region /\
    (region = "Northeast" <-> In c northeast_digits) /\
    (region = "South" <-> In c south_digits) /\
    (region = "Midwest" <-> In c midwest_digits) /\
    (region = "West" <-> In c west_digits) /\
    (region = "National" <->
       ~ In c (northeast_digits ++ south_digits ++ midwest_digits ++ west_digits)).
Proof.
  split; [reflexivity |]. intros c rest.
  rewrite regionFromZip_cascade. cbv zeta.
  unfold includes. cbn [existsb is_str String.eqb].
  unfold northeast_digits, south_digits, midwest_digits, west_digits.
  destruct (Ascii.eqb_spec c "0") as [-> | H0];
    [eexists; split; [reflexivity |]; cbn; intuition congruence |].
  destruct (Ascii.eqb_spec c "1") as [-> | H1];
    [eexists; split; [reflexivity |]; cbn; intuition congruence |].
  destruct (Ascii.eqb_spec c "2") as [-> | H2];
    [eexists; split; [reflexivity |]; cbn; intuition congruence |].
  destruct (Ascii.eqb_spec c "3") as [-> | H3];
    [eexists; split; [reflexivity |]; cbn; intuition congruence |].
  destruct (Ascii.eqb_spec c "4") as [-> | H4];
    [eexists; split; [reflexivity |]; cbn; intuition congruence |].
  destruct (Ascii.eqb_spec c "5") as [-> | H5];
    [eexists; split; [reflexivity |]; cbn; intuition congruence |].
  destruct (Ascii.eqb_spec c "6") as [-> | H6];
    [eexists; split; [reflexivity |]; cbn; intuition congruence |].
  destruct (Ascii.eqb_spec c "7") as [-> | H7];
    [eexists; split; [reflexivity |]; cbn; intuition congruence |].
  destruct (Ascii.eqb_spec c "8") as [-> | H8];
    [eexists; split; [reflexivity |]; cbn; intuition congruence |].
  destruct (Ascii.eqb_spec c "9") as [-> | H9];
    [eexists; split; [reflexivity |]; cbn; intuition congruence |].
  eexists; split; [reflexivity |]. cbn. intuition congruence.
Qed.

(** X2.  A postal code that arrives as a JSON number or boolean, as [null]
    or not at all is never matched against the digits: it has no character
    at index 0, and the region is National whatever its value. *)
Theorem regionFromZip_not_a_string :
  (forall n : num, regionFromZip (VNum n) = Return "National") /\
  (forall b : bool, regionFromZip (VBool b) = Return "National") /\
  regionFromZip VNull = Return "National" /\
  regionFromZip VUndefined = Return "National".
Proof.
  split; [| split; [| split; reflexivity]].
  - intros n. unfold regionFromZip. destruct (ToBoolean (VNum n)); reflexivity.
  - intros b. destruct b; reflexivity.
Qed.

(** Whatever the postal code is, a region that is returned is one of five. *)
Lemma regionFromZip_names (zip : jsval) (region : string) :
  regionFromZip zip = Return region -> In region region_names.
Proof.
  unfold regionFromZip, region_names.
  destruct (negb (ToBoolean zip)); [intros [= <-]; cbn; tauto |].
  destruct (ToNumber (length_of zip)) as [len | e]; cbn [obind]; [| discriminate].
  destruct (nlt len (Fin 1)); [intros [= <-]; cbn; tauto |].
  destruct (includes ["0"; "1"; "2"] _); [intros [= <-]; cbn; tauto |].
  destruct (includes ["3"; "4"; "5"] _); [intros [= <-]; cbn; tauto |].
  destruct (includes ["6"; "7"] _); [intros [= <-]; cbn; tauto |].
  destruct (includes ["8"; "9"] _); intros [= <-]; cbn; tauto.
Qed.

End RegionTheorems.

(** X3.  Whatever the postal code is, the region that [regionFromZip]
    returns is one of five names, so [cpiMultipliers] looks the table of
    series up under these names only.  The five names have five different
    series, so their cache keys never collide, and only National is looked
    up under the national series. *)
Theorem regId_separates_regions :
  (forall r1 r2, In r1 region_names -> In r2 region_names ->
                 regId r1 = regId r2 -> r1 = r2) /\
  (forall r, In r region_names -> (regId r = natId <-> r = "National")) /\
  (forall (rt : Runtime) (zip : jsval) (r : string),
      regionFromZip zip = Return r -> In r region_names).
Proof.
  unfold region_names at 1 2 3. split; [| split].
  - intros r1 r2 H1 H2. cbn in H1, H2.
    repeat (destruct H1 as [<- | H1]); try contradiction;
      repeat (destruct H2 as [<- | H2]); try contradiction;
        vm_compute; intros H; first [reflexivity | discriminate].
  - intros r H. cbn in H.
    repeat (destruct H as [<- | H]); try contradiction;
      vm_compute; split; intros E; first [reflexivity | discriminate].
  - intros rt zip r. apply regionFromZip_names.
Qed.

(** The theorem on the five names. *)
Lemma regId_separates_regions_witness :
  regId "West" <> regId "South" /\ regId "National" = natId.
Proof.
  destruct regId_separates_regions as (H1 & H2 & _). split.
  - intros E. apply (H1 "West" "South") in E; [discriminate | cbn; tauto | cbn; tauto].
  - apply (H2 "National"); [cbn; tauto | reflexivity].
Defined.

(** ** Labels, margin bands and the reported range *)

(** The band of a finite ratio, with what the band says of the ratio. *)
Lemma marginEstimate_cases (r : Q) :
  (marginEstimate (Fin r) = band_low /\ (r < 0.95)%Q) \/
  (marginEstimate (Fin r) = band_normal /\ (0.95 <= r)%Q /\ (r < 1.10)%Q) \/
  (marginEstimate (Fin r) = band_high /\ (1.10 <= r)%Q /\ (r < 1.25)%Q) \/
  (marginEstimate (Fin r) = band_very_high /\ (1.25 <= r)%Q).
Proof.
  unfold marginEstimate. rewrite !nlt_Fin.
  destruct (Qltb r 0.95) eqn:E1; [apply Qltb_lt in E1; auto | apply Qltb_ge in E1].
  destruct (Qltb r 1.10) eqn:E2; [apply Qltb_lt in E2; auto | apply Qltb_ge in E2].
  destruct (Qltb r 1.25) eqn:E3; [apply Qltb_lt in E3 | apply Qltb_ge in E3]; auto 6.
Qed.

Lemma bands_differ :
  band_low <> band_normal /\ band_low <> band_high /\ band_low <> band_very_high /\
  band_normal <> band_high /\ band_normal <> band_very_high /\
  band_high <> band_very_high.
Proof. repeat split; discriminate. Qed.

(** The label of a positive price against a positive median, by the ratio. *)
Lemma label_by_ratio (price median : Q) :
  (0 < median)%Q ->
  let c := classify (Fin price) (Fin median) in
  let r := (price / median)%Q in
  ratio c = Fin r /\
  (label c = "under" <-> (r < 0.9)%Q) /\
  (label c = "over" <-> (1.15 < r)%Q) /\
  (label c = "fair" <-> (0.9 <= r)%Q /\ (r <= 1.15)%Q).
Proof.
  intros Hm c r. subst c r. rewrite (classify_Fin price median Hm).
  cbn [ratio label]. set (r := (price / median)%Q). fold (label_of_ratio r).
  split; [reflexivity |].
  destruct (label_of_ratio_cases r) as [[-> H] | [[-> H] | (-> & H1 & H2)]];
    repeat split; intros; first [reflexivity | discriminate | lra | tauto
                                | match goal with H : _ /\ _ |- _ => destruct H; lra end].
Qed.

(** X4.  The margin band never contradicts the label.  For a positive price
    against a positive median: a quote labelled "under" is always in the
    lowest band, a quote labelled "over" is always in one of the two highest
    bands, and a quote labelled "fair" is never in the highest band. *)
Theorem margin_band_agrees_with_label (price median : Q) :
  (0 < price)%Q -> (0 < median)%Q ->
  let c := classify (Fin price) (Fin median) in
  (label c = "under" -> marginEstimate (ratio c) = band_low) /\
  (label c = "over" ->
     marginEstimate (ratio c) = band_high \/ marginEstimate (ratio c) = band_very_high) /\
  (label c = "fair" -> marginEstimate (ratio c) <> band_very_high).
Proof.
  intros Hp Hm c.
  destruct (label_by_ratio price median Hm) as (Hr & Hu & Ho & Hf).
  fold c in Hr, Hu, Ho, Hf. cbv zeta in Hr, Hu, Ho, Hf. rewrite Hr.
  destruct bands_differ as (D1 & D2 & D3 & D4 & D5 & D6).
  set (r := (price / median)%Q) in *.
  split; [| split].
  - intros H. apply Hu in H.
    destruct (marginEstimate_cases r)
      as [[E _] | [(E & H1 & _) | [(E & H1 & _) | (E & H1)]]]; [exact E | lra ..].
  - intros H. apply Ho in H.
    destruct (marginEstimate_cases r)
      as [[E H1] | [(E & _ & H1) | [(E & _) | (E & _)]]]; [lra | lra | auto | auto].
  - intros H. apply Hf in H. destruct H as [_ H].
    destruct (marginEstimate_cases r)
      as [[E _] | [(E & _) | [(E & _) | (E & H1)]]]; [congruence .. | lra].
Qed.

(** The theorem at quotes of 1000, 1400 and 2800 against a median of 1400. *)
Lemma margin_band_agrees_with_label_witness :
  marginEstimate (ratio (classify (Fin 1000) (Fin 1400))) = band_low /\
  (marginEstimate (ratio (classify (Fin 2800) (Fin 1400))) = band_high \/
   marginEstimate (ratio (classify (Fin 2800) (Fin 1400))) = band_very_high) /\
  marginEstimate (ratio (classify (Fin 1400) (Fin 1400))) <> band_very_high.
Proof.
  split; [| split].
  - apply (margin_band_agrees_with_label 1000 1400 ltac:(reflexivity) ltac:(reflexivity)).
    reflexivity.
  - apply (margin_band_agrees_with_label 2800 1400 ltac:(reflexivity) ltac:(reflexivity)).
    reflexivity.
  - apply (margin_band_agrees_with_label 1400 1400 ltac:(reflexivity) ltac:(reflexivity)).
    reflexivity.
Defined.

Lemma num_le_Fin (a b : Q) : num_le (Fin a) (Fin b) <-> (a <= b)%Q.
Proof.
  unfold num_le. cbn [ncmp].
  destruct (Qcompare_spec a b); split; intros; first [exact I | lra | contradiction].
Qed.

Section RangeTheorem.
Context {rt : Runtime}.

(** X5.  The range that the full report prints is 0.85 and 1.20 times the
    local median, and the label agrees with it: for a positive price against
    a positive median, a quote labelled "fair" always lies inside the printed
    range, a price below the range is always "under" and a price above it is
    always "over".  (The range is wider than the "fair" band: a price between
    0.85 and 0.9 times the median is inside the range and labelled "under".) *)
Theorem fair_lies_in_reported_range (price median : Q) :
  (0 < price)%Q -> (0 < median)%Q ->
  let c := classify (Fin price) (Fin median) in
  (forall vr cpi,
      price_range (full_report_of vr cpi (Fin median) c) =
      "Estimated fair range (local): ~$"
      +:+ toLocaleString (Math_round (range_low (Fin median)))
      +:+ " – $" +:+ toLocaleString (Math_round (range_high (Fin median)))) /\
  (label c = "fair" ->
     num_le (range_low (Fin median)) (Fin price) /\
     num_le (Fin price) (range_high (Fin median))) /\
  (~ num_le (range_low (Fin median)) (Fin price) -> label c = "under") /\
  (~ num_le (Fin price) (range_high (Fin median)) -> label c = "over") /\
  ((0.85 * median <= price)%Q -> (price < 0.9 * median)%Q ->
     num_le (range_low (Fin median)) (Fin price) /\ label c = "under").
Proof.
  intros Hp Hm c.
  destruct (label_by_ratio price median Hm) as (_ & Hu & Ho & Hf).
  fold c in Hu, Ho, Hf. cbv zeta in Hu, Ho, Hf.
  unfold range_low, range_high. cbn [nmul]. rewrite !num_le_Fin.
  assert (Hlt : forall k : Q, (price / median < k)%Q <-> (price < k * median)%Q).
  { intros k. split; intros H.
    - apply (Qmult_lt_r _ _ median Hm) in H.
      unfold Qdiv in H. rewrite <- Qmult_assoc, (Qmult_comm (/ median)), Qmult_inv_r in H by lra.
      lra.
    - apply Qlt_shift_div_r; assumption. }
  assert (Hgt : forall k : Q, (k < price / median)%Q <-> (k * median < price)%Q).
  { intros k. split; intros H.
    - apply (Qmult_lt_r _ _ median Hm) in H.
      unfold Qdiv in H. rewrite <- Qmult_assoc, (Qmult_comm (/ median)), Qmult_inv_r in H by lra.
      lra.
    - apply Qlt_shift_div_l; assumption. }
  assert (Hle : forall k : Q, (k <= price / median)%Q <-> (k * median <= price)%Q).
  { intros k. split; intros H.
    - destruct (Qlt_le_dec price (k * median)) as [H' | H']; [| exact H'].
      apply Hlt in H'. lra.
    - destruct (Qlt_le_dec (price / median) k) as [H' | H']; [| exact H'].
      apply Hlt in H'. lra. }
  assert (Hge : forall k : Q, (price / median <= k)%Q <-> (price <= k * median)%Q).
  { intros k. split; intros H.
    - destruct (Qlt_le_dec (k * median) price) as [H' | H']; [| exact H'].
      apply Hgt in H'. lra.
    - destruct (Qlt_le_dec k (price / median)) as [H' | H']; [| exact H'].
      apply Hgt in H'. lra. }
  split; [reflexivity |]. split; [| split; [| split]].
  - intros H. apply Hf in H. destruct H as [H1 H2].
    apply Hle in H1. apply Hge in H2. split; lra.
  - intros H. apply Hu. apply Hlt. lra.
  - intros H. apply Ho. apply Hgt. lra.
  - intros H1 H2. split; [lra |]. apply Hu. apply Hlt. exact H2.
Qed.

End RangeTheorem.

(** The theorem at a quote of 1400, and at one of 1200, against a median of
    1400: the first is fair and inside the range 1190 to 1680, the second is
    inside the range too and labelled under. *)
Lemma fair_lies_in_reported_range_witness :
  (num_le (range_low (Fin 1400)) (Fin 1400) /\ num_le (Fin 1400) (range_high (Fin 1400))) /\
  (num_le (range_low (Fin 1400)) (Fin 1200) /\
   label (classify (Fin 1200) (Fin 1400)) = "under").
Proof.
  split.
  - apply (fair_lies_in_reported_range (rt := integer_runtime) 1400 1400
             ltac:(reflexivity) ltac:(reflexivity)).
    reflexivity.
  - apply (fair_lies_in_reported_range (rt := integer_runtime) 1200 1400
             ltac:(reflexivity) ltac:(reflexivity)); [discriminate | reflexivity].
Defined.

(** ** What a lookup does to the process *)

Lemma cache_kept_refl (keys : list string) (w : World) : cache_kept_outside keys w w.
Proof. split; auto. Qed.

Lemma cache_kept_trans (keys : list string) (w1 w2 w3 : World) :
  cache_kept_outside keys w1 w2 -> cache_kept_outside keys w2 w3 ->
  cache_kept_outside keys w1 w3.
Proof.
  intros [H1 H2] [H3 H4]. split.
  - intros k Hk. rewrite (H3 k Hk). apply H1, Hk.
  - intros k Hk. apply H4, H2, Hk.
Qed.

Lemma cache_kept_same (keys : list string) (w w' : World) :
  cpiCache w' = cpiCache w -> cache_kept_outside keys w w'.
Proof. intros E. split; intros k Hk; rewrite E; auto. Qed.

Lemma cache_kept_store (keys : list string) (k : string) (e : CacheEntry) (w : World) :
  In k keys -> cache_kept_outside keys w (store k e w).
Proof.
  intros Hk. split; intros k' Hk'; cbn [store cpiCache].
  - rewrite lookup_insert_ne; [reflexivity | intros ->; contradiction].
  - destruct (decide (k = k')) as [-> | Hne].
    + rewrite lookup_insert_eq. eauto.
    + rewrite lookup_insert_ne by exact Hne. exact Hk'.
Qed.

Lemma cache_kept_weaken (keys keys' : list string) (w w' : World) :
  (forall k, In k keys -> In k keys') ->
  cache_kept_outside keys w w' -> cache_kept_outside keys' w w'.
Proof.
  intros Hsub [H1 H2]. split; [| exact H2].
  intros k Hk. apply H1. intros Hin. apply Hk, Hsub, Hin.
Qed.

Section LookupEffects.
Context {rt : Runtime}.

(** How a call of [fetchLatestCPI] starts: it never raises, and either it
    found a fresh entry and only read the clock, or its request has left. *)
Lemma fetch_start_cases (seriesId : string) (env : Env) (w : World) :
  (exists v, fetch_start seriesId env w = (Return (Hit v), tick w)) \/
  fetch_start seriesId env w =
    (Return (Pending ("cpi:" +:+ seriesId) (clock env (reads w))
               (bls env (List.length (calls w)) (request_of env w seriesId))),
     in_flight env w seriesId).
Proof.
  unfold fetch_start, mbind, Date_now, cache_get. cbn [cpiCache tick].
  destruct (cpiCache w !! ("cpi:" +:+ seriesId)) as [c |]; [| right; reflexivity].
  destruct (fresh (clock env (reads w)) (Some c)); [left; eexists; reflexivity |].
  right. reflexivity.
Qed.

(** How it ends: the world is as it was, or the cache has one new entry
    under the key of the call, stamped with the time that the call read. *)
Lemma fetch_finish_cases (s : Started) (env : Env) (w : World) :
  snd (fetch_finish s env w) = w \/
  exists key now res v,
    s = Pending key now res /\
    fetch_finish s env w = (Return v, store key {| value := v; ts := now |} w).
Proof.
  destruct s as [v | key now [e | [e | data]]]; cbn [fetch_finish];
    try (left; reflexivity).
  unfold mbind, lift, cache_set, mret.
  destruct (parse_value data) as [v | e]; [| left; reflexivity].
  right. exists key, now, (Resp (JsonOk data)), v. split; reflexivity.
Qed.

Lemma in_flight_cache (env : Env) (w : World) (seriesId : string) :
  cpiCache (in_flight env w seriesId) = cpiCache w.
Proof. reflexivity. Qed.

(** X6.  A call of [fetchLatestCPI] changes the cache under its own key
    ["cpi:" + seriesId] at most: every other entry stays as it is, and no key
    is ever removed.  It sends at most one request, which asks BLS for that
    series and for the current year and the two years before it, and it
    calls nothing else. *)
Theorem fetchLatestCPI_frame (seriesId : string) (env : Env) (w : World) :
  let w' := snd (fetchLatestCPI seriesId env w) in
  cache_kept_outside ["cpi:" +:+ seriesId] w w' /\
  (calls w' = calls w \/
   calls w' = calls w ++ [BlsFetch (request_of env w seriesId)]) /\
  seriesid (request_of env w seriesId) = seriesId /\
  startyear (request_of env w seriesId) = endyear (request_of env w seriesId) - 2.
Proof.
  cbv zeta. unfold fetchLatestCPI, mbind.
  split; [| split; [| split; reflexivity]].
  - destruct (fetch_start_cases seriesId env w) as [[v E] | E]; rewrite E.
    + cbn. apply cache_kept_same. reflexivity.
    + destruct (fetch_finish_cases
                  (Pending ("cpi:" +:+ seriesId) (clock env (reads w))
                     (bls env (List.length (calls w)) (request_of env w seriesId)))
                  env (in_flight env w seriesId)) as [H | (key & now & res & v & Hs & H)].
      * rewrite H. apply cache_kept_same. reflexivity.
      * injection Hs as <- <- <-. rewrite H. cbn [snd].
        apply (cache_kept_trans _ _ (in_flight env w seriesId)).
        -- apply cache_kept_same. reflexivity.
        -- apply cache_kept_store. left. reflexivity.
  - destruct (fetch_start_cases seriesId env w) as [[v E] | E]; rewrite E.
    + left. reflexivity.
    + right.
      destruct (fetch_finish_cases
                  (Pending ("cpi:" +:+ seriesId) (clock env (reads w))
                     (bls env (List.length (calls w)) (request_of env w seriesId)))
                  env (in_flight env w seriesId)) as [H | (key & now & res & v & Hs & H)].
      * rewrite H. reflexivity.
      * rewrite H. reflexivity.
Qed.

End LookupEffects.

(** ** What a request does to the process *)

Section RequestEffects.
Context {rt : Runtime}.

Lemma fetch_finish_world (s : Started) (env : Env) (w : World) :
  let w' := snd (fetch_finish s env w) in
  cache_kept_outside (started_keys s) w w' /\ calls w' = calls w /\ reads w' = reads w.
Proof.
  cbv zeta. destruct (fetch_finish_cases s env w) as [H | (key & now & res & v & -> & H)].
  - rewrite H. split; [apply cache_kept_refl | split; reflexivity].
  - rewrite H. cbn [snd started_keys].
    split; [apply cache_kept_store; left; reflexivity | split; reflexivity].
Qed.

Lemma settle_both_world (sa sb : Started) (env : Env) (w : World) :
  let w' := snd (settle_both sa sb env w) in
  cache_kept_outside (started_keys sa ++ started_keys sb) w w' /\
  calls w' = calls w /\ reads w' = reads w.
Proof.
  cbv zeta. unfold settle_both. destruct (regional_first env).
  - pose proof (fetch_finish_world sb env w) as Hb. cbv zeta in Hb.
    destruct (fetch_finish sb env w) as [rb w1]. cbn [snd] in Hb.
    pose proof (fetch_finish_world sa env w1) as Ha. cbv zeta in Ha.
    destruct (fetch_finish sa env w1) as [ra w2]. cbn [snd] in Ha |- *.
    destruct Hb as (Hb1 & Hb2 & Hb3). destruct Ha as (Ha1 & Ha2 & Ha3).
    split; [| split; congruence].
    apply (cache_kept_trans _ _ w1).
    + apply (cache_kept_weaken (started_keys sb)); [| exact Hb1].
      intros k Hk. apply in_or_app. right. exact Hk.
    + apply (cache_kept_weaken (started_keys sa)); [| exact Ha1].
      intros k Hk. apply in_or_app. left. exact Hk.
  - pose proof (fetch_finish_world sa env w) as Ha. cbv zeta in Ha.
    destruct (fetch_finish sa env w) as [ra w1]. cbn [snd] in Ha.
    pose proof (fetch_finish_world sb env w1) as Hb. cbv zeta in Hb.
    destruct (fetch_finish sb env w1) as [rb w2]. cbn [snd] in Hb |- *.
    destruct Hb as (Hb1 & Hb2 & Hb3). destruct Ha as (Ha1 & Ha2 & Ha3).
    split; [| split; congruence].
    apply (cache_kept_trans _ _ w1).
    + apply (cache_kept_weaken (started_keys sa)); [| exact Ha1].
      intros k Hk. apply in_or_app. left. exact Hk.
    + apply (cache_kept_weaken (started_keys sb)); [| exact Hb1].
      intros k Hk. apply in_or_app. right. exact Hk.
Qed.

(** A started call: the key it may write, and the request it has sent. *)
Lemma fetch_start_world (seriesId : string) (env : Env) (w : World) :
  exists s w1 l,
    fetch_start seriesId env w = (Return s, w1) /\
    cpiCache w1 = cpiCache w /\
    calls w1 = calls w ++ l /\ (List.length l <= 1)%nat /\
    bls_calls_for [seriesId] l /\
    (forall k, In k (started_keys s) -> k = "cpi:" +:+ seriesId).
Proof.
  destruct (fetch_start_cases seriesId env w) as [[v E] | E]; rewrite E.
  - exists (Hit v), (tick w), []. split; [reflexivity |]. split; [reflexivity |].
    split; [cbn; now rewrite app_nil_r |]. split; [cbn; lia |].
    split; [constructor | intros k []].
  - eexists _, _, [BlsFetch (request_of env w seriesId)].
    split; [reflexivity |]. split; [reflexivity |]. split; [reflexivity |].
    split; [cbn; lia |]. split.
    + constructor; [| constructor]. exists seriesId. split; [reflexivity | now left].
    + intros k [<- | []]. reflexivity.
Qed.

Lemma fetch_pair_world (a b : string) (env : Env) (w : World) :
  let w' := snd (fetch_pair a b env w) in
  cache_kept_outside ["cpi:" +:+ a; "cpi:" +:+ b] w w' /\
  exists l, calls w' = calls w ++ l /\ (List.length l <= 2)%nat /\ bls_calls_for [a; b] l.
Proof.
  cbv zeta. unfold fetch_pair, mbind.
  destruct (fetch_start_world a env w) as (sa & w1 & la & Ea & Ca & La & Na & Ba & Ka).
  rewrite Ea.
  destruct (fetch_start_world b env w1) as (sb & w2 & lb & Eb & Cb & Lb & Nb & Bb & Kb).
  rewrite Eb.
  destruct (settle_both_world sa sb env w2) as (Hc & Hl & _).
  split.
  - apply (cache_kept_trans _ _ w2).
    + apply cache_kept_same. congruence.
    + apply (cache_kept_weaken (started_keys sa ++ started_keys sb)); [| exact Hc].
      intros k Hk. apply in_app_or in Hk. destruct Hk as [Hk | Hk].
      * left. symmetry. apply Ka, Hk.
      * right. left. symmetry. apply Kb, Hk.
  - exists (la ++ lb). rewrite Hl, Lb, La, <- app_assoc. split; [reflexivity |].
    split; [rewrite length_app; lia |].
    unfold bls_calls_for in *. apply Forall_app. split.
    + eapply Forall_impl; [exact Ba |]. intros c (s & Hs & [<- | []]).
      exists a. split; [exact Hs | now left].
    + eapply Forall_impl; [exact Bb |]. intros c (s & Hs & [<- | []]).
      exists b. split; [exact Hs | right; now left].
Qed.

Lemma bls_calls_are_bls (series : list string) (l : list ExtCall) :
  bls_calls_for series l -> forallb is_bls l = true.
Proof.
  induction 1 as [| c l (s & Hs & _) _ IH]; [reflexivity |].
  cbn. rewrite IH, andb_true_r. destruct c; cbn in Hs; try discriminate. reflexivity.
Qed.

Lemma cpiMultipliers_world (vr : Edition) (zip : jsval) (env : Env) (w : World) :
  let w' := snd (cpiMultipliers vr zip env w) in
  cache_kept_outside series_keys w w' /\
  exists l, calls w' = calls w ++ l /\ (List.length l <= 2)%nat /\ forallb is_bls l = true.
Proof.
  cbv zeta.
  assert (Hw : snd (cpiMultipliers vr zip env w)
               = match regionFromZip zip with
                 | Return region => snd (fetch_pair natId (regId region) env w)
                 | Throw _ => w
                 end).
  { unfold cpiMultipliers, mbind, lift.
    destruct (regionFromZip zip) as [region | e]; [| reflexivity].
    destruct (fetch_pair natId (regId region) env w) as [[both | e] w']; reflexivity. }
  rewrite Hw. clear Hw.
  destruct (regionFromZip zip) as [region | e] eqn:Hz.
  2:{ split; [apply cache_kept_refl |].
      exists []. rewrite app_nil_r. split; [reflexivity |]. split; [cbn; lia | reflexivity]. }
  apply regionFromZip_names in Hz.
  destruct (fetch_pair_world natId (regId region) env w) as (Hc & l & Hl & Hn & Hb).
  split.
  - apply (cache_kept_weaken ["cpi:" +:+ natId; "cpi:" +:+ regId region]); [| exact Hc].
    unfold series_keys. intros k [<- | [<- | []]].
    + apply (in_map (fun r => "cpi:" +:+ regId r) region_names "National").
      unfold region_names. cbn. tauto.
    + apply (in_map (fun r => "cpi:" +:+ regId r) region_names region). exact Hz.
  - exists l. split; [exact Hl |]. split; [exact Hn |]. eapply bls_calls_are_bls, Hb.
Qed.

(** The calls of one access check, as a list appended to the log. *)
Lemma verifyAccess_world (sessionId : jsval) (env : Env) (w : World) :
  let w' := snd (verifyAccess sessionId env w) in
  cpiCache w' = cpiCache w /\
  exists ls, calls w' = calls w ++ ls /\
    (ls = [] \/ ls = [SessionRetrieve sessionId] \/
     exists id, ls = [SessionRetrieve sessionId; SubscriptionRetrieve id]).
Proof.
  cbv zeta. unfold verifyAccess.
  destruct (ToBoolean sessionId); cbn [negb];
    [| split; [reflexivity | exists []; rewrite app_nil_r; auto]].
  unfold mbind, stripe_sessions_retrieve, stripe_subscriptions_retrieve, lift, mret.
  assert (Hlog : forall c1 c2 : ExtCall,
             calls (log c2 (log c1 w)) = calls w ++ [c1; c2]).
  { intros c1 c2. cbn. now rewrite <- app_assoc. }
  destruct (sessions_retrieve env sessionId) as [s | e];
    [| split; [reflexivity | exists [SessionRetrieve sessionId]; auto]].
  destruct (paid_once s) as [[|] | e];
    try (split; [reflexivity | exists [SessionRetrieve sessionId]; auto]).
  destruct (subscribed s) as [[|] | e];
    try (split; [reflexivity | exists [SessionRetrieve sessionId]; auto]).
  destruct (let* sb := member s "subscription" in ToString sb)%out as [id | e];
    [| split; [reflexivity | exists [SessionRetrieve sessionId]; auto]].
  destruct (subscriptions_retrieve env id) as [sub | e];
    [| split; [reflexivity |];
       exists [SessionRetrieve sessionId; SubscriptionRetrieve id]; split; [apply Hlog | eauto]].
  destruct (live sub) as [[|] | e];
    (split; [reflexivity |];
     exists [SessionRetrieve sessionId; SubscriptionRetrieve id]; split; [apply Hlog | eauto]).
Qed.

(** X7.  [verifyAccess] keeps no state: whatever Stripe answers, and also
    when it raises, it leaves the cache and the clock untouched.  It makes at
    most two calls: none for an absent id, else a retrieval of the session
    with the very id it was given, followed at most by one retrieval of a
    subscription.  Access "once" is granted after exactly one call, access
    "sub" after exactly two, and a result without access is never ok. *)
Theorem verifyAccess_frame (sessionId : jsval) (env : Env) (w : World) :
  let w' := snd (verifyAccess sessionId env w) in
  cpiCache w' = cpiCache w /\ reads w' = reads w /\
  (ToBoolean sessionId = false -> calls w' = calls w) /\
  (ToBoolean sessionId = true ->
     calls w' = calls w ++ [SessionRetrieve sessionId] \/
     exists id, calls w' = calls w ++ [SessionRetrieve sessionId; SubscriptionRetrieve id]) /\
  (forall r, fst (verifyAccess sessionId env w) = Return r ->
     (access r = Some "once" -> calls w' = calls w ++ [SessionRetrieve sessionId]) /\
     (access r = Some "sub" ->
        exists id, calls w' = calls w ++ [SessionRetrieve sessionId; SubscriptionRetrieve id]) /\
     (access r = None -> ok r = false) /\
     (access r = Some "once" \/ access r = Some "sub" \/ access r = None)).
Proof.
  cbv zeta. unfold verifyAccess.
  destruct (ToBoolean sessionId); cbn [negb].
  2:{ do 4 (split; [intros; first [reflexivity | discriminate] |]).
      intros r [= <-]. cbn. repeat split; intros; first [discriminate | auto]. }
  unfold mbind, stripe_sessions_retrieve, stripe_subscriptions_retrieve, lift, mret.
  assert (Hlog : forall c1 c2 : ExtCall,
             calls (log c2 (log c1 w)) = calls w ++ [c1; c2]).
  { intros c1 c2. cbn. now rewrite <- app_assoc. }
  destruct (sessions_retrieve env sessionId) as [s | e].
  2:{ do 3 (split; [intros; first [reflexivity | discriminate] |]).
      split; [intros _; left; reflexivity | intros r [=]]. }
  destruct (paid_once s) as [[|] | e].
  { do 3 (split; [intros; first [reflexivity | discriminate] |]).
    split; [intros _; left; reflexivity |].
    intros r [= <-]. cbn. repeat split; intros; first [discriminate | auto]. }
  2:{ do 3 (split; [intros; first [reflexivity | discriminate] |]).
      split; [intros _; left; reflexivity | intros r [=]]. }
  destruct (subscribed s) as [[|] | e].
  2:{ do 3 (split; [intros; first [reflexivity | discriminate] |]).
      split; [intros _; left; reflexivity |].
      intros r [= <-]. cbn. repeat split; intros; first [discriminate | auto]. }
  2:{ do 3 (split; [intros; first [reflexivity | discriminate] |]).
      split; [intros _; left; reflexivity | intros r [=]]. }
  destruct (let* sb := member s "subscription" in ToString sb)%out as [id | e].
  2:{ do 3 (split; [intros; first [reflexivity | discriminate] |]).
      split; [intros _; left; reflexivity | intros r [=]]. }
  destruct (subscriptions_retrieve env id) as [sub | e].
  2:{ do 3 (split; [intros; first [reflexivity | discriminate] |]).
      split; [intros _; right; exists id; apply Hlog | intros r [=]]. }
  destruct (live sub) as [[|] | e];
    (do 3 (split; [intros; first [reflexivity | discriminate] |]));
    (split; [intros _; right; exists id; apply Hlog |]);
    [intros r [= <-]; cbn; repeat split; intros;
     first [discriminate | exists id; apply Hlog | auto]
    | intros r [= <-]; cbn; repeat split; intros; first [discriminate | auto]
    | intros r [=]].
Qed.

End RequestEffects.

Section HandlerEffects.
Context {rt : Runtime}.

Lemma handler_world (vr : Edition) (req : Request) (env : Env) (w : World) :
  snd (handler vr req env w)
  = if negb (String.eqb (method req) "POST") then w
    else snd (handler_try vr req env w).
Proof.
  unfold handler. destruct (negb (String.eqb (method req) "POST")); [reflexivity |].
  destruct (handler_try vr req env w) as [[r | e] w']; reflexivity.
Qed.

(** X8.  What one request does to the process, whatever the request, the
    clock, BLS and Stripe are.  The calls it adds to the log are at most two
    BLS requests followed by at most two Stripe retrievals, the first of them
    for the [session_id] of the body.  A request that is not POST makes no
    call at all, and a request whose mode is not "full" never reaches Stripe.
    The cache is only ever written under the keys of the five series, and no
    entry is ever removed. *)
Theorem handler_effects (vr : Edition) (req : Request) (env : Env) (w : World) :
  let w' := snd (handler vr req env w) in
  cache_kept_outside series_keys w w' /\
  exists lb ls,
    calls w' = calls w ++ lb ++ ls /\
    (List.length lb <= 2)%nat /\ forallb is_bls lb = true /\
    (ls = [] \/ ls = [SessionRetrieve (field req "session_id")] \/
     exists id, ls = [SessionRetrieve (field req "session_id"); SubscriptionRetrieve id]) /\
    (is_str (field req "mode") "full" = false -> ls = []) /\
    (method req <> "POST" -> lb = [] /\ ls = []).
Proof.
  cbv zeta. rewrite handler_world.
  assert (Hnone : forall w0, w0 = w ->
            cache_kept_outside series_keys w w0 /\
            exists lb ls,
              calls w0 = calls w ++ lb ++ ls /\
              (List.length lb <= 2)%nat /\ forallb is_bls lb = true /\
              (ls = [] \/ ls = [SessionRetrieve (field req "session_id")] \/
               exists id, ls = [SessionRetrieve (field req "session_id");
                                SubscriptionRetrieve id]) /\
              (is_str (field req "mode") "full" = false -> ls = []) /\
              (method req <> "POST" -> lb = [] /\ ls = [])).
  { intros w0 ->. split; [apply cache_kept_refl |]. exists [], [].
    cbn [app List.length forallb]. rewrite app_nil_r. repeat split; auto; lia. }
  destruct (String.eqb (method req) "POST") eqn:Hm; cbn [negb]; [| apply Hnone; reflexivity].
  apply String.eqb_eq in Hm.
  unfold handler_try, mbind, lift, mret.
  destruct (ToNumber (field req "price")) as [p | e]; [| apply Hnone; reflexivity].
  destruct (negb (havePrice p) && negb (is_str (field req "mode") "full"));
    [apply Hnone; reflexivity |].
  destruct (cpiMultipliers_world vr (field req "zip") env w) as (Hc & lb & Hl & Hn & Hb).
  destruct (cpiMultipliers vr (field req "zip") env w) as [[cpi | e] w1];
    cbn [snd] in Hc, Hl.
  2:{ split; [exact Hc |]. exists lb, []. rewrite app_nil_r.
      repeat split; auto; contradiction. }
  assert (Hbls : forall w0, w0 = w1 ->
            cache_kept_outside series_keys w w0 /\
            exists lb ls,
              calls w0 = calls w ++ lb ++ ls /\
              (List.length lb <= 2)%nat /\ forallb is_bls lb = true /\
              (ls = [] \/ ls = [SessionRetrieve (field req "session_id")] \/
               exists id, ls = [SessionRetrieve (field req "session_id");
                                SubscriptionRetrieve id]) /\
              (is_str (field req "mode") "full" = false -> ls = []) /\
              (method req <> "POST" -> lb = [] /\ ls = [])).
  { intros w0 ->. split; [exact Hc |]. exists lb, []. rewrite app_nil_r.
    repeat split; auto; contradiction. }
  destruct (baseMedian vr (field req "category") (scale_of req)) as [base | e];
    [| apply Hbls; reflexivity].
  destruct (ToNumber base) as [b | e]; [| apply Hbls; reflexivity].
  destruct (is_str (field req "mode") "full") eqn:Hmode; cbn [negb];
    [| apply Hbls; reflexivity].
  destruct (verifyAccess_world (field req "session_id") env w1) as (Hv & ls & Hls & Hshape).
  match goal with
  | |- context [snd ?t] =>
      assert (Hs : snd t = snd (verifyAccess (field req "session_id") env w1))
  end.
  { destruct (verifyAccess (field req "session_id") env w1) as [[a | e] w2];
      [destruct (negb (ok a)) |]; reflexivity. }
  rewrite Hs. clear Hs. split.
  - apply (cache_kept_trans _ _ w1); [exact Hc | apply cache_kept_same; exact Hv].
  - exists lb, ls. rewrite Hls, Hl, <- app_assoc.
    repeat split; auto; first [discriminate | contradiction].
Qed.

End HandlerEffects.

(** ** The two concurrent lookups *)

Section Concurrent.
Context {rt : Runtime}.

Lemma fetch_start_hit (seriesId : string) (env : Env) (w : World) (c : CacheEntry) :
  cpiCache w !! ("cpi:" +:+ seriesId) = Some c ->
  clock env (reads w) - ts c < CACHE_MS ->
  fetch_start seriesId env w = (Return (Hit (value c)), tick w).
Proof.
  intros Hc Ht. unfold fetch_start, mbind, Date_now, cache_get.
  cbn [cpiCache tick]. rewrite Hc. unfold fresh.
  destruct (Z.ltb_spec (clock env (reads w) - ts c) CACHE_MS) as [_ | H]; [| lia].
  reflexivity.
Qed.

(** X9.  A request without a usable postal code looks the national series
    up twice, and the two lookups do not share their request: when the cache
    has no fresh entry, two requests for the same series leave before either
    answer is read.  The national value is taken from the first answer and the
    regional value from the second, so the local multiplier is the quotient
    of two readings of one series; the entry that stays in the cache is the
    one of the lookup that settles last. *)
Theorem national_twin_lookups (vr : Edition) (zip : jsval) (env : Env) (w : World)
    (d1 d2 : jsval) (v1 v2 : option num) :
  regionFromZip zip = Return "National" ->
  let key := "cpi:" +:+ natId in
  let w1 := in_flight env w natId in
  let w2 := in_flight env w1 natId in
  let e1 := {| value := v1; ts := clock env (reads w) |} in
  let e2 := {| value := v2; ts := clock env (reads w1) |} in
  fresh (clock env (reads w)) (cpiCache w !! key) = false ->
  fresh (clock env (reads w1)) (cpiCache w !! key) = false ->
  bls env (List.length (calls w)) (request_of env w natId) = Resp (JsonOk d1) ->
  bls env (List.length (calls w1)) (request_of env w1 natId) = Resp (JsonOk d2) ->
  parse_value d1 = Return v1 ->
  parse_value d2 = Return v2 ->
  let w' := snd (cpiMultipliers vr zip env w) in
  fst (cpiMultipliers vr zip env w) = Return (multipliers vr "National" v1 v2) /\
  calls w' = calls w ++ [BlsFetch (request_of env w natId);
                         BlsFetch (request_of env w1 natId)] /\
  seriesid (request_of env w natId) = seriesid (request_of env w1 natId) /\
  cpiCache w' !! key = Some (if regional_first env then e1 else e2).
Proof.
  intros Hz key w1 w2 e1 e2 Hf1 Hf2 Hb1 Hb2 Hp1 Hp2.
  assert (E : cpiMultipliers vr zip env w
              = (Return (multipliers vr "National" v1 v2),
                 if regional_first env then store key e1 (store key e2 w2)
                 else store key e2 (store key e1 w2))).
  { apply cpiMultipliers_returns; [exact Hz |].
    change (regId "National") with natId.
    unfold fetch_pair, mbind. rewrite (fetch_start_miss natId env w Hf1).
    fold w1. rewrite (fetch_start_miss natId env w1 Hf2). fold w2.
    rewrite Hb1, Hb2. unfold settle_both.
    destruct (regional_first env); cbn [fetch_finish]; unfold mbind, lift, cache_set, mret;
      rewrite Hp1, Hp2; reflexivity. }
  cbv zeta. rewrite E. cbn [fst snd]. split; [reflexivity |]. split; [| split].
  - destruct (regional_first env); cbn; rewrite <- app_assoc; reflexivity.
  - reflexivity.
  - destruct (regional_first env); cbn [store cpiCache]; apply lookup_insert_eq.
Qed.

(** X10.  When the cache holds an entry for the national series and one for
    the series of the region, each less than an hour old at the moment its
    lookup reads the clock, [cpiMultipliers] answers from the cache alone: it
    sends nothing, writes nothing, and only reads the clock twice. *)
Theorem warm_cache_sends_nothing (vr : Edition) (zip : jsval) (env : Env) (w : World)
    (region : string) (cn cr : CacheEntry) :
  regionFromZip zip = Return region ->
  cpiCache w !! ("cpi:" +:+ natId) = Some cn ->
  clock env (reads w) - ts cn < CACHE_MS ->
  cpiCache w !! ("cpi:" +:+ regId region) = Some cr ->
  clock env (S (reads w)) - ts cr < CACHE_MS ->
  cpiMultipliers vr zip env w
  = (Return (multipliers vr region (value cn) (value cr)), tick (tick w)).
Proof.
  intros Hz Hn Htn Hr Htr. apply cpiMultipliers_returns; [exact Hz |].
  unfold fetch_pair, mbind. rewrite (fetch_start_hit natId env w cn Hn Htn).
  rewrite (fetch_start_hit (regId region) env (tick w) cr Hr Htr).
  unfold settle_both. destruct (regional_first env); reflexivity.
Qed.

End Concurrent.

(** The theorem at a first request without a postal code, sent while the
    index moves from 300 to 330: the "National" region gets the local
    multiplier 1.1. *)
Lemma national_twin_lookups_witness :
  let out := cpiMultipliers (rt := integer_runtime) Flat VUndefined
               (outside 0 bls_moving) world0 in
  let m := multipliers Flat "National" (Some (Fin 300)) (Some (Fin 330.0)) in
  fst out = Return m /\
  region m = "National" /\ localMult m = Fin (330.0 / 300) /\
  List.length (calls (snd out)) = 2%nat.
Proof.
  destruct (national_twin_lookups (rt := integer_runtime) Flat VUndefined
              (outside 0 bls_moving) world0
              (bls_response (VStr "300")) (bls_response (VStr "330.0"))
              (Some (Fin 300)) (Some (Fin 330.0))
              eq_refl eq_refl eq_refl eq_refl eq_refl eq_refl eq_refl)
    as (H1 & H2 & _).
  cbv zeta. rewrite H1, H2. repeat split.
Defined.

(** The theorem at a second request from 90210, one second after the first. *)
Lemma warm_cache_sends_nothing_witness :
  cpiMultipliers (rt := integer_runtime) Flat (VStr "90210")
    (outside 1000 bls_down) dearer_west_world
  = (Return (multipliers Flat "West" (Some (Fin 300)) (Some (Fin 330.0))),
     tick (tick dearer_west_world)).
Proof.
  apply (warm_cache_sends_nothing (rt := integer_runtime) Flat (VStr "90210")
           (outside 1000 bls_down) dearer_west_world "West"
           {| value := Some (Fin 300); ts := 0 |}
           {| value := Some (Fin 330.0); ts := 0 |});
    first [reflexivity | vm_compute; reflexivity].
Defined.

(** ** The classifier on every number *)

Lemma classify_score_cases (price median : num) :
  let c := classify price median in
  (ratio c = NaN /\ score c = NaN /\ label c = "fair") \/
  (ratio c = PosInf /\ score c = Fin 1 /\ label c = "over") \/
  (ratio c = NegInf /\ score c = Fin 0 /\ label c = "under") \/
  (exists r, ratio c = Fin r /\ score c = Fin (score_of_ratio r) /\
             label c = label_of_ratio r).
Proof.
  cbv zeta. unfold classify. cbn [ratio score label].
  destruct (ndiv price median) as [| | r |].
  - left. repeat split.
  - right. right. left. repeat split.
  - right. right. right. exists r. split; [reflexivity |].
    cbn [nsub]. rewrite ndiv_Fin by lra. rewrite clamp_Fin.
    split; reflexivity.
  - right. left. repeat split.
Qed.

Lemma label_of_ratio_in (r : Q) : In (label_of_ratio r) labels.
Proof.
  destruct (label_of_ratio_cases r) as [[-> _] | [[-> _] | [-> _]]]; cbn; tauto.
Qed.

Lemma classify_label_in (price median : num) : In (label (classify price median)) labels.
Proof.
  destruct (classify_score_cases price median)
    as [(_ & _ & E) | [(_ & _ & E) | [(_ & _ & E) | (r & _ & _ & E)]]];
    cbv zeta in E; rewrite E; [cbn; tauto .. | apply label_of_ratio_in].
Qed.

Lemma classify_score_in_range (price median : num) :
  score_in_range (score (classify price median)).
Proof.
  destruct (classify_score_cases price median)
    as [(_ & E & _) | [(_ & E & _) | [(_ & E & _) | (r & _ & E & _)]]];
    cbv zeta in E; rewrite E; unfold score_in_range.
  - left. reflexivity.
  - right. exists 1%Q. split; [reflexivity | lra].
  - right. exists 0%Q. split; [reflexivity | lra].
  - right. exists (score_of_ratio r). split; [reflexivity |].
    apply unit_clamp_range.
Qed.


(** X11.  [classify] on every pair of numbers, not only on positive ones.
    The label is always one of "under", "fair" and "over"; the score is
    always NaN or a number from 0 to 1, and it is NaN exactly when the ratio
    is.  When the price or the median is NaN the quote is labelled "fair",
    and [marginEstimate] puts its ratio in the highest band.  A price that is
    zero or negative against a positive median is "under" with score 0, in
    the lowest band. *)
Theorem classify_on_every_number :
  (forall price median,
      let c := classify price median in
      In (label c) labels /\ score_in_range (score c) /\
      (score c = NaN <-> ratio c = NaN) /\
      (ratio c = NaN -> label c = "fair" /\ marginEstimate (ratio c) = band_very_high)) /\
  (forall n,
      ratio (classify NaN n) = NaN /\ ratio (classify n NaN) = NaN) /\
  (forall price median : Q,
      (price <= 0)%Q -> (0 < median)%Q ->
      let c := classify (Fin price) (Fin median) in
      label c = "under" /\ score c = Fin 0 /\ marginEstimate (ratio c) = band_low).
Proof.
  split; [| split].
  - intros price median c. subst c.
    split; [apply classify_label_in |]. split; [apply classify_score_in_range |].
    destruct (classify_score_cases price median)
      as [(E1 & E2 & E3) | [(E1 & E2 & E3) | [(E1 & E2 & E3) | (r & E1 & E2 & E3)]]];
      cbv zeta in E1, E2, E3; rewrite E1, E2, ?E3.
    + repeat split.
    + split; [split; discriminate | discriminate].
    + split; [split; discriminate | discriminate].
    + split; [split; discriminate | discriminate].
  - intros n. split; [reflexivity | destruct n; reflexivity].
  - intros price median Hp Hm c. subst c.
    rewrite (classify_Fin price median Hm). cbn [label score ratio].
    assert (Hr : (price / median <= 0)%Q).
    { unfold Qdiv. assert (0 < / median)%Q by (apply Qinv_lt_0_compat; exact Hm). nra. }
    set (r := (price / median)%Q) in *.
    split; [| split].
    + fold (label_of_ratio r).
      destruct (label_of_ratio_cases r) as [[E _] | [[_ H] | (_ & H & _)]];
        [exact E | lra | lra].
    + unfold score_of_ratio, unit_clamp.
      assert (Hx : ((r - 0.8) / (1.4 - 0.8) < 0)%Q).
      { unfold Qdiv. assert (0 < / (1.4 - 0.8))%Q by (apply Qinv_lt_0_compat; lra). nra. }
      destruct (Qcompare_spec 1 ((r - 0.8) / (1.4 - 0.8))) as [H | H | H]; try lra.
      destruct (Qcompare_spec 0 ((r - 0.8) / (1.4 - 0.8))) as [H' | H' | H'];
        first [reflexivity | lra].
    + destruct (marginEstimate_cases r)
        as [[E _] | [(_ & H & _) | [(_ & H & _) | (_ & H)]]]; [exact E | lra ..].
Qed.

Section ResponseShape.
Context {rt : Runtime}.


Lemma verifyAccess_access (sessionId : jsval) (env : Env) (w : World) (r : AccessResult) :
  fst (verifyAccess sessionId env w) = Return r ->
  ok r = true -> access r = Some "once" \/ access r = Some "sub".
Proof.
  unfold verifyAccess.
  destruct (ToBoolean sessionId); cbn [negb]; [| intros [= <-]; discriminate].
  unfold mbind, stripe_sessions_retrieve, stripe_subscriptions_retrieve, lift, mret.
  destruct (sessions_retrieve env sessionId) as [s | e]; [| discriminate].
  destruct (paid_once s) as [[|] | e]; [intros [= <-]; auto | | discriminate].
  destruct (subscribed s) as [[|] | e]; [| intros [= <-]; discriminate | discriminate].
  destruct (let* sb := member s "subscription" in ToString sb)%out as [id | e];
    [| discriminate].
  destruct (subscriptions_retrieve env id) as [sub | e]; [| discriminate].
  destruct (live sub) as [[|] | e]; [intros [= <-]; auto | intros [= <-]; discriminate
                                    | discriminate].
Qed.

(** X13.  The answers that the handler can give.  Every response is one of
    six: 405 "POST only", exactly for a method other than POST; 500 with the
    text of an exception; the "needs price" signal or a signal with a label
    of [classify] and the preview message of that label, only when the mode
    is not "full"; 403 "Payment required." or a report with access "once" or
    "sub", only when the mode is "full".  Every score that is sent is NaN or
    lies between 0 and 1. *)
Theorem handler_answers (vr : Edition) (req : Request) (env : Env) (w : World) :
  let r := fst (handler vr req env w) in
  (method req <> "POST" /\ r = {| status := 405; json := ErrorBody "POST only" None |}) \/
  (method req = "POST" /\
   ((exists detail, r = server_error detail) \/
    (is_str (field req "mode") "full" = false /\
     (r = needs_price vr \/
      exists l s, In l labels /\ score_in_range s /\
        r = {| status := 200; json := SignalBody l s (preview_message vr l) |})) \/
    (is_str (field req "mode") "full" = true /\
     (r = payment_required \/
      exists l s a report, In l labels /\ score_in_range s /\
        (a = "once" \/ a = "sub") /\
        r = {| status := 200; json := ReportBody l s (Some a) report |})))).
Proof.
  cbv zeta. unfold handler.
  destruct (String.eqb (method req) "POST") eqn:Hm; cbn [negb].
  2:{ left. split; [| reflexivity]. intros H. rewrite H in Hm. discriminate. }
  apply String.eqb_eq in Hm. right. split; [exact Hm |].
  unfold handler_try, mbind, lift, mret.
  destruct (ToNumber (field req "price")) as [p | e];
    [| left; eexists; reflexivity].
  destruct (is_str (field req "mode") "full") eqn:Hmode;
    rewrite ?andb_false_r, ?andb_true_r; cbn [negb].
  - destruct (cpiMultipliers vr (field req "zip") env w) as [[cpi | e] w1];
      [| left; eexists; reflexivity].
    destruct (baseMedian vr (field req "category") (scale_of req)) as [base | e];
      [| left; eexists; reflexivity].
    destruct (ToNumber base) as [b | e]; [| left; eexists; reflexivity].
    pose proof (verifyAccess_access (field req "session_id") env w1) as Ha.
    destruct (verifyAccess (field req "session_id") env w1) as [[acc | e] w2];
      [| left; eexists; reflexivity].
    right. right. split; [reflexivity |].
    destruct (ok acc) eqn:Hok; cbn [negb fst]; [| left; reflexivity].
    right. destruct (Ha acc eq_refl Hok) as [E | E]; rewrite E.
    + eexists _, _, "once", _. split; [apply classify_label_in |].
      split; [apply classify_score_in_range |]. split; [left |]; reflexivity.
    + eexists _, _, "sub", _. split; [apply classify_label_in |].
      split; [apply classify_score_in_range |]. split; [right |]; reflexivity.
  - destruct (negb (havePrice p));
      [right; left; split; [reflexivity | left; reflexivity] |].
    destruct (cpiMultipliers vr (field req "zip") env w) as [[cpi | e] w1];
      [| left; eexists; reflexivity].
    destruct (baseMedian vr (field req "category") (scale_of req)) as [base | e];
      [| left; eexists; reflexivity].
    destruct (ToNumber base) as [b | e]; [| left; eexists; reflexivity].
    right. left. split; [reflexivity |].
    right. eexists _, _. split; [apply classify_label_in |].
    split; [apply classify_score_in_range | reflexivity].
Qed.

End ResponseShape.


(** ** The two tables of medians *)

Section Tables.
Context {rt : Runtime}.

Lemma category_lookup (category : string) :
  in_keys category Object_prototype_keys = false ->
  In category categories \/
  (obj_get base_flat category = VUndefined /\ obj_get base_scaled category = VUndefined).
Proof.
  intros Hk. unfold obj_get, categories. cbn [own base_flat base_scaled List.map fst].
  repeat match goal with
         | |- context [String.eqb ?a category] =>
             destruct (String.eqb a category) eqn:?;
             [ match goal with E : String.eqb _ category = true |- _ =>
                 apply String_eqb_true in E; subst category end;
               left; cbn; tauto |]
         end.
  rewrite Hk. right. split; reflexivity.
Qed.

(** X14.  The two copies of the table agree.  For every category name that a
    plain object does not inherit, listed or not, the median of
    src/api/analyze.js is the "medium" median of the other copy; there the
    three sizes are ordered, small below medium below large, and every scale
    other than the strings "small" and "large" (a missing scale, a number, a
    different spelling) gives the medium one. *)
Theorem medians_by_scale (category : string) (scale : jsval) :
  in_keys category Object_prototype_keys = false ->
  exists s m l : Z,
    baseMedian Flat (VStr category) scale = Return (znum m) /\
    baseMedian Scaled (VStr category) (VStr "small") = Return (znum s) /\
    baseMedian Scaled (VStr category) (VStr "large") = Return (znum l) /\
    (is_str scale "small" = false -> is_str scale "large" = false ->
     baseMedian Scaled (VStr category) scale = Return (znum m)) /\
    0 < s /\ s < m /\ m < l.
Proof.
  intros Hk.
  destruct (category_lookup category Hk) as [Hin | [Hf Hs]].
  - unfold categories in Hin. cbn [List.map fst base_flat] in Hin.
    repeat (destruct Hin as [<- | Hin];
            [eexists _, _, _;
             split; [reflexivity |]; split; [reflexivity |]; split; [reflexivity |];
             split; [intros H1 H2; cbn [baseMedian]; unfold baseMedian_scaled;
                     rewrite H1, H2; reflexivity | lia] |]).
    destruct Hin.
  - unfold baseMedian, baseMedian_flat, baseMedian_scaled. cbn [ToString obind].
    rewrite Hf, Hs. cbn [nullish ToBoolean].
    eexists _, _, _.
    split; [reflexivity |]. split; [reflexivity |]. split; [reflexivity |].
    split; [intros H1 H2; rewrite H1, H2; reflexivity | lia].
Qed.

End Tables.

(** The theorem at the category of the examples, with the scale left out. *)
Lemma medians_by_scale_witness :
  exists s m l : Z,
    baseMedian (rt := integer_runtime) Flat (VStr "Auto (repair/body)") VUndefined
    = Return (znum m) /\
    baseMedian (rt := integer_runtime) Scaled (VStr "Auto (repair/body)") VUndefined
    = Return (znum m) /\
    s < m /\ m < l.
Proof.
  destruct (medians_by_scale (rt := integer_runtime) "Auto (repair/body)" VUndefined eq_refl)
    as (s & m & l & H1 & _ & _ & H4 & _ & H6 & H7).
  exists s, m, l. split; [exact H1 |]. split; [exact (H4 eq_refl eq_refl) |].
  split; assumption.
Defined.

(** ** The comparison sentence, and requests without an object *)

Section Report.
Context {rt : Runtime}.

(** X15.  What the report says of the region.  With a positive national
    index [n] and a positive regional index [r], the report names the
    percentage [Math.round(|r/n - 1| * 100)] and says "higher" when the
    regional index is at least the national one and "lower" when it is
    below.  Without usable indices the report says "~0% higher", and its data
    note carries the note of unavailability. *)
Theorem report_compares_indices (vr : Edition) (area : string) (localMedian : num)
    (cls : Classification) :
  (forall n r : Q,
      (0 < n)%Q -> (0 < r)%Q ->
      let cpi := multipliers vr area (Some (Fin n)) (Some (Fin r)) in
      let pct := Math_round (Fin (Qabs ((r / n - 1) * 100))) in
      market_comparison (full_report_of vr cpi localMedian cls)
      = market_text vr area pct (if Qltb r n then "lower" else "higher")) /\
  (forall nat reg,
      no_reading nat \/ no_reading reg ->
      let report := full_report_of vr (multipliers vr area nat reg) localMedian cls in
      market_comparison report = market_text vr area (Fin 0) "higher" /\
      data_note report
      = "Data note: " +:+ unavailable_note vr
        +:+ " Source: U.S. Bureau of Labor Statistics CPI via Public Data API.").
Proof.
  split.
  - intros n r Hn Hr cpi pct. subst cpi pct.
    assert (En : unusable (Some (Fin n)) = false).
    { cbn. destruct (Qeq_bool n 0) eqn:E; [| reflexivity].
      apply Qeq_bool_iff in E. lra. }
    assert (Er : unusable (Some (Fin r)) = false).
    { cbn. destruct (Qeq_bool r 0) eqn:E; [| reflexivity].
      apply Qeq_bool_iff in E. lra. }
    unfold multipliers. rewrite En, Er. cbn [orb number_of].
    rewrite ndiv_Fin by lra.
    unfold full_report_of, market_text.
    cbn [market_comparison localMult region nsub nmul Math_abs].
    assert (Hd : nge (Fin (r / n)) (Fin 1) = negb (Qltb r n)).
    { unfold nge, Qltb. cbn [ncmp].
      assert (Hdiv : (r / n == r * / n)%Q) by reflexivity.
      assert (Hinv : (0 < / n)%Q) by (apply Qinv_lt_0_compat; exact Hn).
      assert (Hmul : (n * / n == 1)%Q) by (apply Qmult_inv_r; lra).
      destruct (Qcompare_spec (r / n) 1) as [H | H | H];
        destruct (Qcompare_spec r n) as [H' | H' | H']; try reflexivity; exfalso; nra. }
    rewrite Hd. destruct (Qltb r n); reflexivity.
  - intros nat reg Hnone report. subst report.
    rewrite (multipliers_neutral vr area nat reg Hnone).
    split; reflexivity.
Qed.

(** X16.  [req.body || {}] and the destructuring after it.  A POST request
    whose body is not an object (no body at all, [null], a text, a number, a
    list) has none of the fields, so it is answered with the "needs price"
    signal, and nothing else happens: no clock read, no call, no cache
    entry. *)
Theorem request_without_object (vr : Edition) (req : Request) (env : Env) (w : World) :
  method req = "POST" ->
  (forall fields, req_body req <> VObj fields) ->
  handler vr req env w = (needs_price vr, w).
Proof.
  intros Hm Hb. rewrite (handler_post vr req env w Hm).
  assert (Hf : forall k, in_keys k Object_prototype_keys = false -> field req k = VUndefined).
  { intros k Hk. unfold field, body_of.
    destruct (req_body req) as [| | b | n | s | items | fields | k'];
      try (destruct (ToBoolean _); unfold opt_member, obj_get; cbn [own];
           rewrite ?Hk; reflexivity).
    exfalso. apply (Hb fields). reflexivity. }
  unfold handler_try, mbind, lift, mret.
  rewrite (Hf "price" eq_refl), (Hf "mode" eq_refl). reflexivity.
Qed.

End Report.

(** The theorem at a request whose body is a text. *)
Lemma request_without_object_witness :
  handler (rt := integer_runtime) Scaled text_request (outside 0 bls_down) world0
  = (needs_price Scaled, world0).
Proof.
  apply (request_without_object (rt := integer_runtime) Scaled text_request
           (outside 0 bls_down) world0 eq_refl).
  intros fields. discriminate.
Defined.

(** ** What is returned is what is cached *)

Section Cached.
Context {rt : Runtime}.

(** How a call starts, with the entry that a hit read. *)
Lemma fetch_start_entry (seriesId : string) (env : Env) (w : World) :
  (exists c, cpiCache w !! ("cpi:" +:+ seriesId) = Some c /\
             fetch_start seriesId env w = (Return (Hit (value c)), tick w)) \/
  fetch_start seriesId env w =
    (Return (Pending ("cpi:" +:+ seriesId) (clock env (reads w))
               (bls env (List.length (calls w)) (request_of env w seriesId))),
     in_flight env w seriesId).
Proof.
  unfold fetch_start, mbind, Date_now, cache_get. cbn [cpiCache tick].
  destruct (cpiCache w !! ("cpi:" +:+ seriesId)) as [c |]; [| right; reflexivity].
  destruct (fresh (clock env (reads w)) (Some c));
    [left; exists c; split; reflexivity | right; reflexivity].
Qed.

(** How a call ends when it returns. *)
Lemma fetch_finish_returns (s : Started) (env : Env) (w w' : World) (v : option num) :
  fetch_finish s env w = (Return v, w') ->
  match s with
  | Hit v0 => v = v0 /\ w' = w
  | Pending key now _ => w' = store key {| value := v; ts := now |} w
  end.
Proof.
  destruct s as [v0 | key now [e | [e | data]]]; cbn [fetch_finish];
    unfold mthrow, mret; try discriminate.
  - intros [= -> ->]. split; reflexivity.
  - unfold mbind, lift, cache_set, mret.
    destruct (parse_value data) as [v1 | e]; [| discriminate].
    intros [= -> <-]. reflexivity.
Qed.

(** The two finishes behind a pair that returns. *)
Lemma settle_both_returns (sa sb : Started) (env : Env) (w w' : World)
    (va vb : option num) :
  settle_both sa sb env w = (Return (va, vb), w') ->
  exists wm,
    (fetch_finish sa env w = (Return va, wm) /\ fetch_finish sb env wm = (Return vb, w')) \/
    (fetch_finish sb env w = (Return vb, wm) /\ fetch_finish sa env wm = (Return va, w')).
Proof.
  unfold settle_both. destruct (regional_first env).
  - destruct (fetch_finish sb env w) as [[b | e] w1] eqn:Eb; [| ].
    + destruct (fetch_finish sa env w1) as [[a | e] w2] eqn:Ea; [| discriminate].
      intros [= -> -> ->]. exists w1. right. split; [reflexivity | exact Ea].
    + destruct (fetch_finish sa env w1) as [[a | e'] w2]; discriminate.
  - destruct (fetch_finish sa env w) as [[a | e] w1] eqn:Ea; [| ].
    + destruct (fetch_finish sb env w1) as [[b | e] w2] eqn:Eb; [| discriminate].
      intros [= -> -> ->]. exists w1. left. split; [reflexivity | exact Eb].
    + destruct (fetch_finish sb env w1) as [[b | e'] w2]; discriminate.
Qed.

Lemma store_lookup_ne (k k' : string) (e : CacheEntry) (w : World) :
  k <> k' -> cpiCache (store k e w) !! k' = cpiCache w !! k'.
Proof. intros H. cbn [store cpiCache]. apply lookup_insert_ne. exact H. Qed.

Lemma store_lookup_eq (k : string) (e : CacheEntry) (w : World) :
  cpiCache (store k e w) !! k = Some e.
Proof. cbn [store cpiCache]. apply lookup_insert_eq. Qed.

Lemma key_injective (a b : string) : "cpi:" +:+ a = "cpi:" +:+ b -> a = b.
Proof. intros [= H]. exact H. Qed.

(** After a finished call, the entry under its key holds what it returned,
    if there was an entry or the call wrote one. *)
Lemma finished_entry (seriesId : string) (s : Started) (env : Env) (w0 w w' : World)
    (v : option num) :
  (s = Pending ("cpi:" +:+ seriesId) (clock env (reads w0))
         (bls env (List.length (calls w0)) (request_of env w0 seriesId)) \/
   exists c, s = Hit (value c) /\ cpiCache w !! ("cpi:" +:+ seriesId) = Some c) ->
  fetch_finish s env w = (Return v, w') ->
  exists c, cpiCache w' !! ("cpi:" +:+ seriesId) = Some c /\ value c = v.
Proof.
  intros [-> | (c & -> & Hc)] Hf; apply fetch_finish_returns in Hf.
  - subst w'. eexists. split; [apply store_lookup_eq | reflexivity].
  - destruct Hf as [-> ->]. exists c. split; [exact Hc | reflexivity].
Qed.

(** A finished call for another key leaves the entry alone. *)
Lemma finished_other (key : string) (s : Started) (env : Env) (w w' : World)
    (v : option num) :
  (forall k, In k (started_keys s) -> k <> key) ->
  fetch_finish s env w = (Return v, w') ->
  cpiCache w' !! key = cpiCache w !! key.
Proof.
  intros Hk Hf. apply fetch_finish_returns in Hf.
  destruct s as [v0 | k now res].
  - destruct Hf as [_ ->]. reflexivity.
  - subst w'. apply store_lookup_ne. apply Hk. left. reflexivity.
Qed.

Lemma fetch_pair_cached (a b : string) (env : Env) (w w' : World) (va vb : option num) :
  a <> b ->
  fetch_pair a b env w = (Return (va, vb), w') ->
  (exists ca, cpiCache w' !! ("cpi:" +:+ a) = Some ca /\ value ca = va) /\
  (exists cb, cpiCache w' !! ("cpi:" +:+ b) = Some cb /\ value cb = vb).
Proof.
  intros Hab. unfold fetch_pair, mbind.
  assert (Hkey : "cpi:" +:+ a <> "cpi:" +:+ b).
  { intros H. apply Hab, key_injective, H. }
  assert (Ha : exists sa w1,
             fetch_start a env w = (Return sa, w1) /\ cpiCache w1 = cpiCache w /\
             (forall k, In k (started_keys sa) -> k = "cpi:" +:+ a) /\
             (sa = Pending ("cpi:" +:+ a) (clock env (reads w))
                     (bls env (List.length (calls w)) (request_of env w a)) \/
              exists c, sa = Hit (value c) /\ cpiCache w !! ("cpi:" +:+ a) = Some c)).
  { destruct (fetch_start_entry a env w) as [(c & Hc & E) | E]; rewrite E.
    - eexists _, _. split; [reflexivity |]. split; [reflexivity |].
      split; [intros k [] | right; exists c; split; [reflexivity | exact Hc]].
    - eexists _, _. split; [reflexivity |]. split; [reflexivity |].
      split; [intros k [<- | []]; reflexivity | left; reflexivity]. }
  destruct Ha as (sa & w1 & Ea & Ca & Ka & Sa). rewrite Ea.
  assert (Hb : exists sb w2,
             fetch_start b env w1 = (Return sb, w2) /\ cpiCache w2 = cpiCache w1 /\
             (forall k, In k (started_keys sb) -> k = "cpi:" +:+ b) /\
             (sb = Pending ("cpi:" +:+ b) (clock env (reads w1))
                     (bls env (List.length (calls w1)) (request_of env w1 b)) \/
              exists c, sb = Hit (value c) /\ cpiCache w1 !! ("cpi:" +:+ b) = Some c)).
  { destruct (fetch_start_entry b env w1) as [(c & Hc & E) | E]; rewrite E.
    - eexists _, _. split; [reflexivity |]. split; [reflexivity |].
      split; [intros k [] | right; exists c; split; [reflexivity | exact Hc]].
    - eexists _, _. split; [reflexivity |]. split; [reflexivity |].
      split; [intros k [<- | []]; reflexivity | left; reflexivity]. }
  destruct Hb as (sb & w2 & Eb & Cb & Kb & Sb). rewrite Eb.
  intros Hs. apply settle_both_returns in Hs.
  assert (Sa2 : sa = Pending ("cpi:" +:+ a) (clock env (reads w))
                       (bls env (List.length (calls w)) (request_of env w a)) \/
                exists c, sa = Hit (value c) /\ cpiCache w2 !! ("cpi:" +:+ a) = Some c).
  { destruct Sa as [S | (c & S & Hc)]; [left; exact S |].
    right. exists c. split; [exact S | congruence]. }
  assert (Sb2 : sb = Pending ("cpi:" +:+ b) (clock env (reads w1))
                       (bls env (List.length (calls w1)) (request_of env w1 b)) \/
                exists c, sb = Hit (value c) /\ cpiCache w2 !! ("cpi:" +:+ b) = Some c).
  { destruct Sb as [S | (c & S & Hc)]; [left; exact S |].
    right. exists c. split; [exact S | congruence]. }
  assert (Na : forall k, In k (started_keys sa) -> k <> "cpi:" +:+ b).
  { intros k Hk E. apply Ka in Hk. congruence. }
  assert (Nb : forall k, In k (started_keys sb) -> k <> "cpi:" +:+ a).
  { intros k Hk E. apply Kb in Hk. congruence. }
  destruct Hs as (wm & [[Fa Fb] | [Fb Fa]]).
  - destruct (finished_entry a sa env w w2 wm va Sa2 Fa) as (ca & Hca & Hva).
    split.
    + exists ca. split; [| exact Hva].
      rewrite (finished_other _ sb env wm w' vb Nb Fb). exact Hca.
    + apply (finished_entry b sb env w1 wm w' vb); [| exact Fb].
      destruct Sb2 as [S | (c & S & Hc)]; [left; exact S |].
      right. exists c. split; [exact S |].
      rewrite (finished_other _ sa env w2 wm va Na Fa). exact Hc.
  - destruct (finished_entry b sb env w1 w2 wm vb Sb2 Fb) as (cb & Hcb & Hvb).
    split.
    + apply (finished_entry a sa env w wm w' va); [| exact Fa].
      destruct Sa2 as [S | (c & S & Hc)]; [left; exact S |].
      right. exists c. split; [exact S |].
      rewrite (finished_other _ sb env w2 wm vb Nb Fb). exact Hc.
    + exists cb. split; [| exact Hvb].
      rewrite (finished_other _ sa env wm w' va Na Fa). exact Hcb.
Qed.

Lemma fresh_entry (now : Z) (cached : option CacheEntry) :
  fresh now cached = true -> exists c, cached = Some c /\ now - ts c < CACHE_MS.
Proof.
  unfold fresh. destruct cached as [c |]; [| discriminate].
  intros H. exists c. split; [reflexivity | now apply Z.ltb_lt].
Qed.

Lemma cpiMultipliers_inv (vr : Edition) (zip : jsval) (env : Env) (w w' : World)
    (m : Multipliers) :
  cpiMultipliers vr zip env w = (Return m, w') ->
  exists area nat reg,
    regionFromZip zip = Return area /\
    fetch_pair natId (regId area) env w = (Return (nat, reg), w') /\
    m = multipliers vr area nat reg.
Proof.
  unfold cpiMultipliers, mbind at 1, lift, mret.
  destruct (regionFromZip zip) as [area | e]; [| discriminate].
  unfold mbind.
  destruct (fetch_pair natId (regId area) env w) as [[[nat reg] | e] w1] eqn:Ep;
    [| discriminate].
  intros [= <- <-]. exists area, nat, reg.
  split; [reflexivity | split; [exact Ep | reflexivity]].
Qed.

(** X17.  What [cpiMultipliers] returned for a postal code of one of the
    four regions is what it returns again from the cache.  When a call has
    returned, and at a later call both entries are still less than an hour
    old, the later call returns the same multipliers without sending
    anything, whatever BLS would answer by then. *)
Theorem repeated_lookup_is_cached (vr : Edition) (zip : jsval) (env env' : Env)
    (w w' : World) (area : string) (m : Multipliers) :
  regionFromZip zip = Return area ->
  regId area <> natId ->
  cpiMultipliers vr zip env w = (Return m, w') ->
  fresh (clock env' (reads w')) (cpiCache w' !! ("cpi:" +:+ natId)) = true ->
  fresh (clock env' (S (reads w'))) (cpiCache w' !! ("cpi:" +:+ regId area)) = true ->
  cpiMultipliers vr zip env' w' = (Return m, tick (tick w')).
Proof.
  intros Hz Hne Hc Hfn Hfr.
  destruct (cpiMultipliers_inv vr zip env w w' m Hc) as (area' & nat & reg & Hz' & Hp & ->).
  assert (area' = area) by congruence. subst area'.
  destruct (fetch_pair_cached natId (regId area) env w w' nat reg
              ltac:(intros E; apply Hne; symmetry; exact E) Hp)
    as ((cn & Hcn & Hvn) & (cr & Hcr & Hvr)).
  destruct (fresh_entry _ _ Hfn) as (cn' & En & Htn).
  destruct (fresh_entry _ _ Hfr) as (cr' & Er & Htr).
  assert (cn' = cn) by congruence. assert (cr' = cr) by congruence. subst cn' cr'.
  apply cpiMultipliers_returns; [exact Hz |].
  unfold fetch_pair, mbind.
  rewrite (fetch_start_hit natId env' w' cn Hcn Htn).
  rewrite (fetch_start_hit (regId area) env' (tick w') cr Hcr Htr).
  unfold settle_both. rewrite Hvn, Hvr. destruct (regional_first env'); reflexivity.
Qed.

End Cached.

(** The theorem at a second request from 90210, one second after the first,
    when BLS is out of reach by then. *)
Lemma repeated_lookup_is_cached_witness :
  cpiMultipliers (rt := integer_runtime) Scaled (VStr "90210")
    (outside 1000 bls_down) dearer_west_world
  = (Return (multipliers Scaled "West" (Some (Fin 300)) (Some (Fin 330.0))),
     tick (tick dearer_west_world)).
Proof.
  apply (repeated_lookup_is_cached (rt := integer_runtime) Scaled (VStr "90210")
           (outside 0 bls_dearer_regions) (outside 1000 bls_down)
           world0 dearer_west_world "West");
    first [reflexivity | discriminate | vm_compute; reflexivity].
Defined.

